(** * Cluster-headache burden simulation: a shallow embedding

    The development follows [src/Cluster_headache_app.py] (the attack
    generator, the [Patient] class, the per-group aggregation and the
    intensity transforms) and [src/simulation.py] (the [Simulation] class).

    Numeric conventions.
    - Configuration arithmetic (worldwide group sizes, simulated patient
      counts) and the products [0.7 * total_duration] are deterministic
      computations on given literals and machine integers: they are carried
      out in IEEE-754 binary64, with Rocq's primitive floats, so that the
      integer truncations see the very bits Python sees.
    - Random draws are real-valued samples.  They are supplied by an oracle
      and are exact rationals ([Q]); arithmetic on them is exact.  Every
      statement proved about them holds for all oracles.
    - The closed-form calibration formulas and the intensity transforms are
      stated over the real numbers ([R]): they are the real-number reading of
      the binary64 code, with rounding abstracted. *)

From Stdlib Require Import ZArith QArith Qround Qabs Qminmax List Bool Lia Lra.
From Stdlib Require Import Floats String Reals Qreals.
Import ListNotations.

Set Warnings "-inexact-float".

Local Open Scope Z_scope.

(** ** Exceptions and fallible results *)

Inductive PyExc : Type :=
| ZeroDivisionError
| KeyError
| IndexError
| ValueError
| OverflowError
| LoopFuelExhausted.
    (* not a Python exception: a [while True] loop of the model has used up
       the iterations it was given *)

Inductive result (A : Type) : Type :=
| Ok (a : A)
| Raise (e : PyExc).

Arguments Ok {A} a.
Arguments Raise {A} e.

Definition bind {A B : Type} (r : result A) (k : A -> result B) : result B :=
  match r with
  | Ok a => k a
  | Raise e => Raise e
  end.

Notation "x <- r ;; k" := (bind r (fun x => k))
  (at level 61, r at next level, right associativity).

Definition is_ok {A : Type} (r : result A) : bool :=
  match r with Ok _ => true | Raise _ => false end.

(** ** Python and NumPy numerics on binary64 *)

(** [float(z)]: the binary64 nearest to the integer [z] (ties to even). *)
Definition Z2F (z : Z) : float :=
  SF2Prim (binary_normalize prec emax z 0 false).

(** The integer part of a finite binary64, truncated toward zero. *)
Definition SF_trunc (s : bool) (m : positive) (e : Z) : Z :=
  let v := Z.shiftl (Zpos m) e in
  if s then - v else v.

(** [int(x)] on a Python float: truncation toward zero; [OverflowError] on an
    infinity and [ValueError] on a NaN. *)
Definition py_int (x : float) : result Z :=
  match Prim2SF x with
  | S754_zero _ => Ok 0
  | S754_finite s m e => Ok (SF_trunc s m e)
  | S754_infinity _ => Raise OverflowError
  | S754_nan => Raise ValueError
  end.

(** Round half to even of the dyadic [m * 2^e] ([m > 0]): Python's [round(x)]
    and NumPy's [np.round]/[np.rint] agree on it. *)
Definition SF_rint (s : bool) (m : positive) (e : Z) : Z :=
  let v :=
    if 0 <=? e then Z.shiftl (Zpos m) e
    else
      let d := Z.shiftl 1 (- e) in
      let q := Zpos m / d in
      let r := Zpos m mod d in
      match 2 * r ?= d with
      | Lt => q
      | Gt => q + 1
      | Eq => if Z.even q then q else q + 1
      end in
  if s then - v else v.

(** [np.round(x).astype(int)] for one finite binary64 [x].  The cast of a NaN
    or an infinity to int64 is the platform's "integer indefinite" value. *)
Definition np_round_astype_int (x : float) : Z :=
  match Prim2SF x with
  | S754_zero _ => 0
  | S754_finite s m e => SF_rint s m e
  | _ => - 2 ^ 63
  end.

(** [a / b] on two Python ints: [ZeroDivisionError] when [b] is zero, a
    signed zero when [a] is zero, and otherwise the quotient of the two
    conversions, which is Python's correctly rounded quotient as long as
    both operands are below [2^53] in magnitude. *)
Definition py_int_truediv (a b : Z) : result float :=
  if b =? 0 then Raise ZeroDivisionError
  else if a =? 0 then Ok (if b <? 0 then (- 0)%float else 0%float)
  else Ok (Z2F a / Z2F b)%float.

(** ** Rounding of exact rationals *)

(** Round half to even of a rational: [round(q)] / [np.round(q)]. *)
Definition Qround_half_even (q : Q) : Z :=
  let f := Qfloor q in
  let r := (q - inject_Z f)%Q in
  match (r ?= 1 # 2)%Q with
  | Lt => f
  | Gt => f + 1
  | Eq => if Z.even f then f else f + 1
  end.

(** [int(q)]: truncation toward zero. *)
Definition Qtrunc (q : Q) : Z := Z.quot (Qnum q) (Zpos (Qden q)).

(** [round(q, 1)] / [np.round(q, decimals=1)]: the nearest multiple of one
    tenth. *)
Definition Qround1 (q : Q) : Q :=
  (inject_Z (Qround_half_even (q * 10)) / 10)%Q.

(** [np.clip(x, lo, hi)] on rationals and on integers. *)
Definition Qclip (x lo hi : Q) : Q := Qmin (Qmax x lo) hi.

Definition Zclip (x lo hi : Z) : Z := Z.min (Z.max x lo) hi.

(** ** Worldwide group sizes ([simulation.py], [main]) *)

(** The configuration object as [Simulation] reads it: the attributes
    [calculate_ch_groups], [get_simulated_patients_info] and
    [generate_population] access.  The class itself ([SimulationConfig.py])
    is not part of the sources. *)
Record SimulationConfig : Type := mkConfig {
  annual_prevalence_per_100k : Z;
  world_population : Z;
  adult_fraction : float;
  prop_chronic : float;
  prop_treated : float;
  prop_episodic : float;
  prop_untreated : float;
  percent_of_patients_to_simulate : float
}.

(** Modelled from the spec: the constructor of [SimulationConfig], whose
    source is missing.  The spec lists the consumed knobs as
    "prop_chronic, prop_treated (0-1, complements derived)": the two
    complementary proportions are derived from the two given ones. *)
Definition SimulationConfig_init
    (prevalence world : Z) (adult chronic treated percent : float)
  : SimulationConfig :=
  {| annual_prevalence_per_100k := prevalence;
     world_population := world;
     adult_fraction := adult;
     prop_chronic := chronic;
     prop_treated := treated;
     prop_episodic := (1 - chronic)%float;
     prop_untreated := (1 - treated)%float;
     percent_of_patients_to_simulate := percent |}.

(** A Python dict from group names to counts, in insertion order. *)
Definition groups_dict : Type := list (string * Z).

Definition dict_values (d : groups_dict) : list Z := map snd d.

Fixpoint dict_get (d : groups_dict) (k : string) : result Z :=
  match d with
  | [] => Raise KeyError
  | (k', v) :: d' => if String.eqb k' k then Ok v else dict_get d' k
  end.

(** [Simulation.calculate_ch_groups]: returns the pair
    ([self.total_ch_sufferers], [self.ch_groups]).  The four local variables
    are assigned as in the source; the dict is built from the attributes of
    [self.config]. *)
Definition calculate_ch_groups (config : SimulationConfig)
  : result (float * groups_dict) :=
  let annual_prevalence :=
    (Z2F (annual_prevalence_per_100k config) / Z2F 100000)%float in
  let total_ch_sufferers :=
    (Z2F (world_population config) * adult_fraction config
     * annual_prevalence)%float in
  let l_prop_chronic := prop_chronic config in
  let l_prop_treated := prop_treated config in
  let l_prop_episodic := prop_chronic config in
  let l_prop_untreated := prop_treated config in
  et <- py_int (total_ch_sufferers * prop_episodic config
                * prop_treated config)%float ;;
  eu <- py_int (total_ch_sufferers * prop_episodic config
                * prop_untreated config)%float ;;
  ct <- py_int (total_ch_sufferers * prop_chronic config
                * prop_treated config)%float ;;
  cu <- py_int (total_ch_sufferers * prop_chronic config
                * prop_untreated config)%float ;;
  Ok (total_ch_sufferers,
      [("Episodic Treated"%string, et); ("Episodic Untreated"%string, eu);
       ("Chronic Treated"%string, ct); ("Chronic Untreated"%string, cu)]).

(** [Simulation.get_total_ch_sufferers], once [calculate_ch_groups] has run. *)
Definition get_total_ch_sufferers (config : SimulationConfig) : result Z :=
  r <- calculate_ch_groups config ;;
  py_int (fst r).

(** The simulated patient count of one group: [int(total * fraction)], as
    [generate_population] and [get_simulated_patients_info] compute it. *)
Definition simulated_count (total : Z) (fraction : float) : result Z :=
  py_int (Z2F total * fraction)%float.

Fixpoint simulated_counts (d : groups_dict) (fraction : float)
  : result groups_dict :=
  match d with
  | [] => Ok []
  | (group, total) :: d' =>
      n <- simulated_count total fraction ;;
      rest <- simulated_counts d' fraction ;;
      Ok ((group, n) :: rest)
  end.

(** The head of [Simulation.generate_population]: the number of patients to
    construct for each group, in the dict's order. *)
Definition population_counts (config : SimulationConfig)
  : result groups_dict :=
  r <- calculate_ch_groups config ;;
  let fraction := (percent_of_patients_to_simulate config / Z2F 100)%float in
  simulated_counts (snd r) fraction.

(** The group arithmetic of [main] (lines 797-832): the sidebar inputs are
    the prevalence (an integer number input), the two percentage sliders
    (integers 0..100) and the percentage of patients to simulate. *)
Definition main_group_sizes
    (annual_prevalence_per_100k pct_chronic pct_treated : Z)
    (percent_of_patients_to_simulate : float)
  : result (float * groups_dict * groups_dict) :=
  let annual_prevalence :=
    (Z2F annual_prevalence_per_100k / Z2F 100000)%float in
  let world_population := 8200000000 in
  let adult_fraction := 0.72%float in
  let total_ch_sufferers :=
    (Z2F world_population * adult_fraction * annual_prevalence)%float in
  let prop_chronic := (Z2F pct_chronic / Z2F 100)%float in
  let prop_treated := (Z2F pct_treated / Z2F 100)%float in
  let prop_episodic := (1 - prop_chronic)%float in
  let prop_untreated := (1 - prop_treated)%float in
  let fraction_of_patients_to_simulate :=
    (percent_of_patients_to_simulate / Z2F 100)%float in
  et <- py_int (total_ch_sufferers * prop_episodic * prop_treated)%float ;;
  eu <- py_int (total_ch_sufferers * prop_episodic * prop_untreated)%float ;;
  ct <- py_int (total_ch_sufferers * prop_chronic * prop_treated)%float ;;
  cu <- py_int (total_ch_sufferers * prop_chronic * prop_untreated)%float ;;
  let ch_groups :=
    [("Episodic Treated"%string, et); ("Episodic Untreated"%string, eu);
     ("Chronic Treated"%string, ct); ("Chronic Untreated"%string, cu)] in
  n_et <- simulated_count et fraction_of_patients_to_simulate ;;
  n_eu <- simulated_count eu fraction_of_patients_to_simulate ;;
  n_ct <- simulated_count ct fraction_of_patients_to_simulate ;;
  n_cu <- simulated_count cu fraction_of_patients_to_simulate ;;
  Ok (total_ch_sufferers, ch_groups,
      [("Episodic Treated"%string, n_et); ("Episodic Untreated"%string, n_eu);
       ("Chronic Treated"%string, n_ct); ("Chronic Untreated"%string, n_cu)]).

(** ** Random draws *)

(** The distributions the program samples, one constructor per call site of
    a SciPy/NumPy sampler; the literal parameters of a call are part of the
    constructor's meaning. *)
Inductive Dist : Type :=
| LognormAttacksPerDay (is_chronic is_treated : bool)
    (* lognorm.rvs(s=sigma, scale=exp(mu)), generate_attacks_per_day *)
| LognormActiveDays
    (* lognorm.rvs(s=.5, scale=exp(log(200))) *)
| LognormBaseDuration (is_chronic : bool)
    (* lognorm.rvs(s=0.4, scale=exp(4.0 [+ 0.3])) *)
| BetaTreatmentEffect
    (* beta.rvs(5, 2) *)
| TruncnormMildModerate
    (* truncnorm.rvs((1-4.0)/2.0, inf, loc=4.0, scale=2.0) *)
| TruncnormModerateSevere
    (* truncnorm.rvs((1-7.5)/2.0, inf, loc=7.5, scale=2.0) *)
| ExponVerySevere (is_treated : bool)
    (* expon.rvs(scale=.7 if is_treated else 0.5) *)
| Choice3 (is_treated : bool)
    (* np.random.choice(3, p=[0.40,0.35,0.25] or [0.20,0.50,0.30]) *)
| BoutsPerYear
    (* bouts_per_year.rvs() *)
| LognormBoutDuration.
    (* lognorm.rvs(s=optimal_sigma, scale=exp(optimal_mu)) *)

(** A computation that consumes draws: the state is the number of draws
    taken so far from the generator; an exception aborts it. *)
Definition Rand (A : Type) : Type := nat -> result (A * nat).

Definition ret {A : Type} (a : A) : Rand A := fun s => Ok (a, s).

Definition raise {A : Type} (e : PyExc) : Rand A := fun _ => Raise e.

Definition rbind {A B : Type} (m : Rand A) (k : A -> Rand B) : Rand B :=
  fun s =>
    match m s with
    | Ok (a, s') => k a s'
    | Raise e => Raise e
    end.

Notation "x <~ m ;; k" := (rbind m (fun x => k))
  (at level 61, m at next level, right associativity).

(** Elementwise combination of two NumPy arrays of the same length. *)
Fixpoint map2 {A B C : Type} (f : A -> B -> C) (l1 : list A) (l2 : list B)
  : list C :=
  match l1, l2 with
  | a :: l1', b :: l2' => f a b :: map2 f l1' l2'
  | _, _ => []
  end.

(** [np.where(choices == 0, a, np.where(choices == 1, b, c))]. *)
Fixpoint select3 (choices a b c : list Q) : list Q :=
  match choices, a, b, c with
  | k :: choices', x :: a', y :: b', z :: c' =>
      (if Qeq_bool k 0 then x else if Qeq_bool k 1 then y else z)
      :: select3 choices' a' b' c'
  | _, _, _, _ => []
  end.

(** ** Attacks *)

Record Attack : Type := mkAttack {
  total_duration : Z;
  max_intensity : Q;
  max_intensity_duration : Z
}.

(** [np.round(0.7 * total_durations).astype(int)], one element: the product
    is a binary64 product of the literal [0.7] and the integer duration. *)
Definition max_intensity_duration_of (total : Z) : Z :=
  np_round_astype_int (0.7 * Z2F total)%float.

(** [Attack(total_durations[i], max_intensities[i], max_intensity_durations[i])
    for i in range(max_attacks)]. *)
Fixpoint build_pool (total_durations : list Z) (max_intensities : list Q)
    (max_intensity_durations : list Z) : list Attack :=
  match total_durations, max_intensities, max_intensity_durations with
  | d :: ds, i :: is_, m :: ms => mkAttack d i m :: build_pool ds is_ ms
  | _, _, _ => []
  end.

Section Sampling.

(** The generator: [rvs d n] is what the [n]-th draw returns when it is
    requested from distribution [d]. *)
Variable rvs : Dist -> nat -> Q.

Definition rvs1 (d : Dist) : Rand Q := fun s => Ok (rvs d s, S s).

(** [d.rvs(size=size)]: [size] consecutive draws. *)
Fixpoint rvs_n (d : Dist) (size : nat) : Rand (list Q) :=
  match size with
  | O => ret []
  | S size' =>
      x <~ rvs1 d ;;
      xs <~ rvs_n d size' ;;
      ret (x :: xs)
  end.

(** The rejection loop of [generate_attacks_per_day]: [while True] draws
    until a draw is at most [max_daily_ch] ([None] is the default
    [np.inf]).  [fuel] bounds the iterations; running out of it is reported
    as [LoopFuelExhausted]. *)
Fixpoint attacks_loop (fuel : nat) (d : Dist) (max_daily_ch : option Q)
  : Rand Q :=
  match fuel with
  | O => raise LoopFuelExhausted
  | S fuel' =>
      attacks <~ rvs1 d ;;
      if match max_daily_ch with
         | None => true
         | Some cap => Qle_bool attacks cap
         end
      then ret attacks
      else attacks_loop fuel' d max_daily_ch
  end.

(** [generate_attacks_per_day(is_chronic, is_treated, max_daily_ch)]; the
    four branches select the fitted [(mu, sigma)] of the cell. *)
Definition generate_attacks_per_day (fuel : nat) (is_chronic is_treated : bool)
    (max_daily_ch : option Q) : Rand Z :=
  let d :=
    if is_chronic then
      if is_treated then LognormAttacksPerDay true true
      else LognormAttacksPerDay true false
    else
      if is_treated then LognormAttacksPerDay false true
      else LognormAttacksPerDay false false in
  attacks <~ attacks_loop fuel d max_daily_ch ;;
  ret (Z.max 1 (Qround_half_even attacks)).

(** [generate_chronic_active_days()]: the body of the [while True] loop
    returns in its first iteration. *)
Definition generate_chronic_active_days : Rand Z :=
  x <~ rvs1 LognormActiveDays ;;
  let active_days := Qtrunc x in
  let active_days := Z.min active_days 365 in
  ret active_days.

(** [generate_attack_duration(is_chronic, is_treated, max_intensities, size)]. *)
Definition generate_attack_duration (is_chronic is_treated : bool)
    (max_intensities : list Q) (size : nat) : Rand (list Z) :=
  base_durations <~ rvs_n (LognormBaseDuration is_chronic) size ;;
  let intensity_factor :=
    map (fun i => 0.1064 * i + 0.5797)%Q max_intensities in
  let adjusted_durations := map2 Qmult base_durations intensity_factor in
  adjusted_durations <~
    (if is_treated then
       let max_effect := 0.3%Q in
       let intensity_normalized :=
         map (fun i => (i - 1) / 9)%Q max_intensities in
       let mean_effect :=
         map (fun n => 1 - max_effect * n)%Q intensity_normalized in
       b <~ rvs_n BetaTreatmentEffect size ;;
       let treatment_effect := map2 Qmult b mean_effect in
       ret (map2 Qmult adjusted_durations treatment_effect)
     else ret adjusted_durations) ;;
  ret (map (fun x => Zclip (Qround_half_even x) 15 360) adjusted_durations).

(** [generate_max_pain_intensity(is_treated, size)]. *)
Definition generate_max_pain_intensity (is_treated : bool) (size : nat)
  : Rand (list Q) :=
  mild_to_moderate <~ rvs_n TruncnormMildModerate size ;;
  moderate_to_severe <~ rvs_n TruncnormModerateSevere size ;;
  e <~ rvs_n (ExponVerySevere is_treated) size ;;
  let very_severe := map (fun x => 10 - x)%Q e in
  choices <~ rvs_n (Choice3 is_treated) size ;;
  let intensities :=
    select3 choices mild_to_moderate moderate_to_severe very_severe in
  ret (map (fun x => Qround1 (Qclip x 1 10)) intensities).

(** ** Patients *)

(** The attributes of a [Patient] object.  [active_days] is set for chronic
    patients only, [annual_bouts] and [bout_durations] for episodic ones;
    the fields a profile does not set keep the value given at
    construction and are never read. *)
Record Patient : Type := mkPatient {
  is_chronic : bool;
  is_treated : bool;
  attacks : list Attack;
  active_days : Z;
  annual_bouts : Q;
  bout_durations : list Z;
  attack_pool : list Attack;
  pool_index : nat
}.

Definition set_attacks (p : Patient) (l : list Attack) : Patient :=
  mkPatient (is_chronic p) (is_treated p) l (active_days p) (annual_bouts p)
    (bout_durations p) (attack_pool p) (pool_index p).

Definition set_active_days (p : Patient) (d : Z) : Patient :=
  mkPatient (is_chronic p) (is_treated p) (attacks p) d (annual_bouts p)
    (bout_durations p) (attack_pool p) (pool_index p).

Definition set_annual_bouts (p : Patient) (b : Q) : Patient :=
  mkPatient (is_chronic p) (is_treated p) (attacks p) (active_days p) b
    (bout_durations p) (attack_pool p) (pool_index p).

Definition set_bout_durations (p : Patient) (l : list Z) : Patient :=
  mkPatient (is_chronic p) (is_treated p) (attacks p) (active_days p)
    (annual_bouts p) l (attack_pool p) (pool_index p).

Definition set_pool (p : Patient) (pool : list Attack) (i : nat) : Patient :=
  mkPatient (is_chronic p) (is_treated p) (attacks p) (active_days p)
    (annual_bouts p) (bout_durations p) pool i.

(** [durations[-1] *= f]: [None] when the array is empty ([IndexError]). *)
Fixpoint scale_last (durations : list Q) (f : Q) : option (list Q) :=
  match durations with
  | [] => None
  | [d] => Some [(d * f)%Q]
  | d :: ds =>
      match scale_last ds f with
      | Some ds' => Some (d :: ds')
      | None => None
      end
  end.

Definition Zsum (l : list Z) : Z := fold_left Z.add l 0.

(** [Patient.generate_bout_durations].  A negative [size] makes the sampler
    raise [ValueError]. *)
Definition generate_bout_durations (p : Patient) : Rand (list Z) :=
  let n_bouts := Qceiling (annual_bouts p) in
  if n_bouts <? 0 then raise ValueError
  else
    durations <~ rvs_n LognormBoutDuration (Z.to_nat n_bouts) ;;
    durations <~
      (if negb (Qeq_bool (annual_bouts p)
                         (inject_Z (Qtrunc (annual_bouts p))))
       then
         match scale_last durations
                 (annual_bouts p - inject_Z (Qtrunc (annual_bouts p)))%Q with
         | Some ds => ret ds
         | None => raise IndexError
         end
       else ret durations) ;;
    ret (map (fun duration => Z.max 1 (Qtrunc (duration * 7))) durations).

(** [Patient.generate_profile]. *)
Definition generate_profile (p : Patient) : Rand Patient :=
  if is_chronic p then
    d <~ generate_chronic_active_days ;;
    ret (set_active_days p d)
  else
    b <~ rvs1 BoutsPerYear ;;
    let p := set_annual_bouts p b in
    ds <~ generate_bout_durations p ;;
    ret (set_bout_durations p ds).

(** The size of the pool: [max_attacks] in [pre_generate_attack_pool]. *)
Definition max_attacks (p : Patient) : Z :=
  if is_chronic p then active_days p * 8
  else Zsum (bout_durations p) * 8.

(** [Patient.pre_generate_attack_pool].  A negative [size] makes the
    samplers raise [ValueError]. *)
Definition pre_generate_attack_pool (p : Patient) : Rand Patient :=
  let max_attacks := max_attacks p in
  if max_attacks <? 0 then raise ValueError
  else
    let size := Z.to_nat max_attacks in
    max_intensities <~ generate_max_pain_intensity (is_treated p) size ;;
    total_durations <~
      generate_attack_duration (is_chronic p) (is_treated p)
        max_intensities size ;;
    let max_intensity_durations :=
      map max_intensity_duration_of total_durations in
    ret (set_pool p
           (build_pool total_durations max_intensities
              max_intensity_durations)
           0%nat).

(** [Patient.__init__]. *)
Definition Patient_init (is_chronic is_treated : bool) : Rand Patient :=
  let p := mkPatient is_chronic is_treated [] 0 0%Q [] [] 0%nat in
  p <~ generate_profile p ;;
  pre_generate_attack_pool p.

(** One iteration of the [for _ in range(attacks_today)] loop of
    [generate_day_attacks]. *)
Definition draw_attack (p : Patient) : Rand Patient :=
  p <~ (if (List.length (attack_pool p) <=? pool_index p)%nat
        then pre_generate_attack_pool p
        else ret p) ;;
  match nth_error (attack_pool p) (pool_index p) with
  | None => raise IndexError
  | Some a =>
      ret (set_pool (set_attacks p (attacks p ++ [a]))
             (attack_pool p) (S (pool_index p)))
  end.

Fixpoint draw_attacks (n : nat) (p : Patient) (daily_attacks : Z)
  : Rand (Patient * Z) :=
  match n with
  | O => ret (p, daily_attacks)
  | S n' =>
      p <~ draw_attack p ;;
      draw_attacks n' p (daily_attacks + 1)
  end.

(** [Patient.generate_day_attacks]: the call of [generate_attacks_per_day]
    leaves [max_daily_ch] at its default, so the rejection loop accepts its
    first draw. *)
Definition generate_day_attacks (p : Patient) : Rand (Patient * Z) :=
  let daily_attacks := 0 in
  attacks_today <~
    generate_attacks_per_day 1 (is_chronic p) (is_treated p) None ;;
  draw_attacks (Z.to_nat attacks_today) p daily_attacks.

(** [for day in range(n): total_attacks += self.generate_day_attacks()]. *)
Fixpoint simulate_days (n : nat) (p : Patient) (total_attacks : Z)
  : Rand (Patient * Z) :=
  match n with
  | O => ret (p, total_attacks)
  | S n' =>
      r <~ generate_day_attacks p ;;
      simulate_days n' (fst r) (total_attacks + snd r)
  end.

Fixpoint simulate_bouts (durations : list Z) (p : Patient)
    (total_attacks : Z) : Rand (Patient * Z) :=
  match durations with
  | [] => ret (p, total_attacks)
  | duration :: durations' =>
      r <~ simulate_days (Z.to_nat duration) p total_attacks ;;
      simulate_bouts durations' (fst r) (snd r)
  end.

(** [Patient.generate_year_of_attacks]. *)
Definition generate_year_of_attacks (p : Patient) : Rand (Patient * Z) :=
  let p := set_attacks p [] in
  let total_attacks := 0 in
  if is_chronic p then
    simulate_days (Z.to_nat (Z.min 365 (active_days p))) p total_attacks
  else
    simulate_bouts (bout_durations p) p total_attacks.

End Sampling.

(** ** Minutes per intensity *)

(** A Python dict keyed by floats rounded to one decimal, in insertion
    order; keys are compared by numeric equality. *)
Definition qdict (V : Type) : Type := list (Q * V).

Fixpoint qdict_get {V : Type} (d : qdict V) (k : Q) : option V :=
  match d with
  | [] => None
  | (k', v) :: d' => if Qeq_bool k' k then Some v else qdict_get d' k
  end.

(** [d[k] = v]: an existing entry is overwritten in place, a new key is
    appended. *)
Fixpoint qdict_set {V : Type} (d : qdict V) (k : Q) (v : V) : qdict V :=
  match d with
  | [] => [(k, v)]
  | (k', v') :: d' =>
      if Qeq_bool k' k then (k', v) :: d' else (k', v') :: qdict_set d' k v
  end.

(** [d.get(k, 0)]. *)
Definition qdict_get0 (d : qdict Z) (k : Q) : Z :=
  match qdict_get d k with
  | Some v => v
  | None => 0
  end.

(** [Patient.calculate_intensity_minutes]. *)
Definition calculate_intensity_minutes (p : Patient) : qdict Z :=
  fold_left
    (fun intensity_minutes attack =>
       let intensity := Qround1 (max_intensity attack) in
       qdict_set intensity_minutes intensity
         (qdict_get0 intensity_minutes intensity
          + max_intensity_duration attack))
    (attacks p) [].

(** ** Per-group aggregation *)

(** [np.arange(0, 10.1, 0.1)]: the 101 values [0 + i * 0.1]. *)
Definition intensities : list Q :=
  map (fun i => (0 + inject_Z (Z.of_nat i) * 0.1)%Q) (seq 0 101).

(** A value that is either a Python int or a float. *)
Inductive pynum : Type :=
| PyInt (z : Z)
| PyFloat (f : float).

Fixpoint mapM {A B : Type} (f : A -> result B) (l : list A)
  : result (list B) :=
  match l with
  | [] => Ok []
  | a :: l' =>
      b <- f a ;;
      bs <- mapM f l' ;;
      Ok (b :: bs)
  end.

(** The tuple appended to [group_data]. *)
Record GroupData : Type := mkGroupData {
  group_name : string;
  intensity_minutes_average : list float;
  intensity_minutes_std : list pynum;
  intensity_minutes_total : list Z;
  n_patients : Z
}.

(** The loop over [patient_intensity_minutes.items()], common to
    [Simulation.calculate_results] and [calculate_group_data]: it updates
    [total_intensity_minutes] and [intensity_minutes_list]; the subscript
    [intensity_minutes_list[rounded_intensity]] raises [KeyError] on a key
    that is not one of the buckets. *)
Fixpoint add_patient_minutes (items : qdict Z)
    (total_intensity_minutes : qdict Z)
    (intensity_minutes_list : qdict (list Z))
  : result (qdict Z * qdict (list Z)) :=
  match items with
  | [] => Ok (total_intensity_minutes, intensity_minutes_list)
  | (intensity, minutes) :: items' =>
      let rounded_intensity := Qround1 intensity in
      let total_intensity_minutes :=
        qdict_set total_intensity_minutes rounded_intensity
          (qdict_get0 total_intensity_minutes rounded_intensity + minutes) in
      match qdict_get intensity_minutes_list rounded_intensity with
      | None => Raise KeyError
      | Some l =>
          add_patient_minutes items' total_intensity_minutes
            (qdict_set intensity_minutes_list rounded_intensity
               (l ++ [minutes])%list)
      end
  end.

(** [{round(i, 1): [] for i in intensities}]. *)
Definition empty_minutes_list : qdict (list Z) :=
  fold_left (fun d i => qdict_set d (Qround1 i) []) intensities [].

(** One element of [intensity_minutes_average].  A stored total is a NumPy
    integer, whose division by zero yields an infinity or a NaN; the default
    [0] is a Python int, whose division by zero raises. *)
Definition average_entry (total_intensity_minutes : qdict Z)
    (n_patients : Z) (i : Q) : result float :=
  match qdict_get total_intensity_minutes (Qround1 i) with
  | Some t => Ok (Z2F t / Z2F n_patients)%float
  | None => py_int_truediv 0 n_patients
  end.

Section Aggregation.

(** NumPy's [np.std] on a non-empty list of integers. *)
Variable np_std : list Z -> float.

(** One element of [intensity_minutes_std]. *)
Definition std_entry (intensity_minutes_list : qdict (list Z)) (i : Q)
  : result pynum :=
  match qdict_get intensity_minutes_list (Qround1 i) with
  | None => Raise KeyError
  | Some [] => Ok (PyInt 0)
  | Some l => Ok (PyFloat (np_std l))
  end.

(** The three list comprehensions and the tuple appended to [group_data]. *)
Definition group_curves (name : string)
    (total_intensity_minutes : qdict Z)
    (intensity_minutes_list : qdict (list Z)) (n_patients : Z)
  : result GroupData :=
  intensity_minutes_average <-
    mapM (average_entry total_intensity_minutes n_patients) intensities ;;
  intensity_minutes_std <-
    mapM (std_entry intensity_minutes_list) intensities ;;
  let intensity_minutes_total :=
    map (fun i => qdict_get0 total_intensity_minutes (Qround1 i))
      intensities in
  Ok (mkGroupData name intensity_minutes_average intensity_minutes_std
        intensity_minutes_total n_patients).

(** [for patient in group_patients] of [Simulation.calculate_results]. *)
Fixpoint add_group_minutes (group_patients : list Patient)
    (total_intensity_minutes : qdict Z)
    (intensity_minutes_list : qdict (list Z))
  : result (qdict Z * qdict (list Z)) :=
  match group_patients with
  | [] => Ok (total_intensity_minutes, intensity_minutes_list)
  | patient :: rest =>
      let patient_intensity_minutes := calculate_intensity_minutes patient in
      r <- add_patient_minutes patient_intensity_minutes
             total_intensity_minutes intensity_minutes_list ;;
      add_group_minutes rest (fst r) (snd r)
  end.

(** [(x * global_total) / (60 * 24 * 365)] for an element of the average
    curve and of the standard-deviation curve. *)
Definition to_person_years (a : float) (global_total : Z) : float :=
  (a * Z2F global_total / Z2F (60 * 24 * 365))%float.

Definition std_to_person_years (s : pynum) (global_total : Z) : float :=
  match s with
  | PyFloat f => to_person_years f global_total
  | PyInt z => (Z2F (z * global_total) / Z2F (60 * 24 * 365))%float
  end.

(** The body of the loop over the four groups in
    [Simulation.calculate_results]. *)
Definition calculate_group_results (population : list Patient)
    (ch_groups : groups_dict) (name : string) (condition : Patient -> bool)
  : result (GroupData * list float * list float) :=
  let group_patients := filter condition population in
  r <- add_group_minutes group_patients [] empty_minutes_list ;;
  let n_patients := Z.of_nat (List.length group_patients) in
  g <- group_curves name (fst r) (snd r) n_patients ;;
  global_total <- dict_get ch_groups name ;;
  Ok (g,
      map (fun a => to_person_years a global_total)
        (intensity_minutes_average g),
      map (fun s => std_to_person_years s global_total)
        (intensity_minutes_std g)).

(** The four groups and their membership tests. *)
Definition group_conditions : list (string * (Patient -> bool)) :=
  [("Episodic Treated"%string,
    fun p => negb (is_chronic p) && is_treated p);
   ("Episodic Untreated"%string,
    fun p => negb (is_chronic p) && negb (is_treated p));
   ("Chronic Treated"%string,
    fun p => is_chronic p && is_treated p);
   ("Chronic Untreated"%string,
    fun p => is_chronic p && negb (is_treated p))].

(** [Simulation.calculate_results]: [self.group_data],
    [self.global_person_years] and [self.global_std_person_years]. *)
Definition calculate_results (population : list Patient)
    (ch_groups : groups_dict)
  : result (list GroupData * list (string * list float)
            * list (string * list float)) :=
  fold_left
    (fun acc gc =>
       a <- acc ;;
       r <- calculate_group_results population ch_groups (fst gc) (snd gc) ;;
       Ok ((fst (fst a) ++ [fst (fst r)])%list,
           (snd (fst a) ++ [(fst gc, snd (fst r))])%list,
           (snd a ++ [(fst gc, snd r)])%list))
    group_conditions (Ok ([], [], [])).

Variable rvs : Dist -> nat -> Q.

Definition lift {A : Type} (r : result A) : Rand A :=
  fun s =>
    match r with
    | Ok a => Ok (a, s)
    | Raise e => Raise e
    end.

(** The loop over [patient_intensity_minutes.items()] in
    [calculate_group_data]: the three statements of
    [Simulation.calculate_results], then
    [group_intensities.extend([intensity] * int(minutes))]; a list times a
    non-positive int is empty. *)
Fixpoint add_patient_intensities (items : qdict Z)
    (total_intensity_minutes : qdict Z)
    (intensity_minutes_list : qdict (list Z))
    (group_intensities : list Q)
  : result (qdict Z * qdict (list Z) * list Q) :=
  match items with
  | [] =>
      Ok (total_intensity_minutes, intensity_minutes_list, group_intensities)
  | (intensity, minutes) :: items' =>
      let rounded_intensity := Qround1 intensity in
      let total_intensity_minutes :=
        qdict_set total_intensity_minutes rounded_intensity
          (qdict_get0 total_intensity_minutes rounded_intensity + minutes) in
      match qdict_get intensity_minutes_list rounded_intensity with
      | None => Raise KeyError
      | Some l =>
          add_patient_intensities items' total_intensity_minutes
            (qdict_set intensity_minutes_list rounded_intensity
               (l ++ [minutes])%list)
            (group_intensities ++ repeat intensity (Z.to_nat minutes))%list
      end
  end.

(** [np.percentile(a, [25, 50, 75])] on a list: NumPy raises [IndexError]
    on an empty list; the quartiles of a non-empty one are computed and
    never read by the caller. *)
Definition np_percentile {A : Type} (a : list A) : result unit :=
  match a with
  | [] => Raise IndexError
  | _ :: _ => Ok tt
  end.

(** [for patient in group_patients] of [calculate_group_data]: each patient
    of the group is simulated for a year, in place, its total is appended
    to [group_total_attacks] and its minutes are added.  The population
    with the simulated patients is returned with the two dicts and the two
    lists. *)
Fixpoint simulate_group (condition : Patient -> bool)
    (population : list Patient)
    (total_intensity_minutes : qdict Z)
    (intensity_minutes_list : qdict (list Z))
    (group_total_attacks : list Z) (group_intensities : list Q)
  : Rand (list Patient * (qdict Z * qdict (list Z)) * (list Z * list Q)) :=
  match population with
  | [] =>
      ret ([], (total_intensity_minutes, intensity_minutes_list),
           (group_total_attacks, group_intensities))
  | patient :: rest =>
      if condition patient then
        y <~ generate_year_of_attacks rvs patient ;;
        let patient := fst y in
        let total_attacks := snd y in
        let group_total_attacks :=
          (group_total_attacks ++ [total_attacks])%list in
        let patient_intensity_minutes :=
          calculate_intensity_minutes patient in
        r <~ lift (add_patient_intensities patient_intensity_minutes
                     total_intensity_minutes intensity_minutes_list
                     group_intensities) ;;
        k <~ simulate_group condition rest (fst (fst r)) (snd (fst r))
               group_total_attacks (snd r) ;;
        ret (patient :: fst (fst k), snd (fst k), snd k)
      else
        k <~ simulate_group condition rest total_intensity_minutes
               intensity_minutes_list group_total_attacks
               group_intensities ;;
        ret (patient :: fst (fst k), snd (fst k), snd k)
  end.

(** [calculate_group_data(population, groups_simulated)]: the population
    after the simulated year and [group_data].  After a group's tuple is
    appended the quartiles of [group_total_attacks] and of
    [group_intensities] are computed; the lists the quartiles and the two
    lists are then copied to are local, never read, and their statements
    do not raise. *)
Fixpoint calculate_group_data (population : list Patient)
    (groups_simulated : list (string * (Patient -> bool) * Z))
  : Rand (list Patient * list GroupData) :=
  match groups_simulated with
  | [] => ret (population, [])
  | (name, condition, n_patients) :: groups' =>
      k <~ simulate_group condition population [] empty_minutes_list
             [] [] ;;
      let total_intensity_minutes := fst (snd (fst k)) in
      let intensity_minutes_list := snd (snd (fst k)) in
      let group_total_attacks := fst (snd k) in
      let group_intensities := snd (snd k) in
      g <~ lift (group_curves name total_intensity_minutes
                   intensity_minutes_list n_patients) ;;
      attack_stats <~ lift (np_percentile group_total_attacks) ;;
      intensity_stats <~ lift (np_percentile group_intensities) ;;
      r <~ calculate_group_data (fst (fst k)) groups' ;;
      ret (fst r, g :: snd r)
  end.

End Aggregation.

(** ** Lognormal calibration (real-number reading) *)

(** [fit_lognormal(mean, std)].  The arguments are Python floats (the
    callers pass literals and the results of [estimate_untreated]), so the
    quotient [variance / mean**2] raises [ZeroDivisionError] when
    [mean**2] is zero; the quotient under the logarithm of [mu] is a NumPy
    division and does not raise. *)
Definition fit_lognormal (mean std : R) : result (R * R) :=
  let variance := (std ^ 2)%R in
  let mu := ln (mean ^ 2 / sqrt (variance + mean ^ 2))%R in
  if Req_dec_T (mean ^ 2)%R 0%R then Raise ZeroDivisionError
  else
    let sigma := sqrt (ln (1 + variance / mean ^ 2))%R in
    Ok (mu, sigma).

(** The mean and the standard deviation of the lognormal distribution with
    parameters [(mu, sigma)]: the closed forms the claim calls "analytic".
    They are the distribution's textbook moments, not code of the program. *)
Definition lognormal_mean (mu sigma : R) : R :=
  exp (mu + sigma ^ 2 / 2)%R.

Definition lognormal_std (mu sigma : R) : R :=
  sqrt ((exp (sigma ^ 2) - 1) * exp (2 * mu + sigma ^ 2))%R.

(** ** Intensity transforms (real-number reading) *)

(** NumPy's [x ** p] for [0 <= x] (and [0 <= p] when [x = 0]): zero to a
    positive power is zero. *)
Definition np_power (x p : R) : R :=
  if Req_dec_T x 0%R then (if Req_dec_T p 0%R then 1%R else 0%R)
  else Rpower x p.

Section Transform.

(** SciPy's [curve_fit(f, xdata, ydata, p0=p0, maxfev=10000)[0]]: the fitted
    parameters, or [None] when it raises [RuntimeError]. *)
Variable curve_fit :
  (R -> R -> R -> R -> R) -> list R -> list R -> R * R * R ->
  option (R * R * R).

(** [transform_intensity(intensities, method, power, max_value)]. *)
Definition transform_intensity (intensities : list R) (method : string)
    (power max_value : R) : result (list R) :=
  if Rle_dec max_value 0 then Raise ValueError
  else if String.eqb method "linear" then
    Ok (map (fun i => i * (max_value / 10))%R intensities)
  else if String.eqb method "power" then
    Ok (map (fun i => np_power i power * (max_value / Rpower 10 power))%R
          intensities)
  else if String.eqb method "power_scaled" then
    Ok (map (fun i => np_power (i / 10) power * max_value)%R intensities)
  else if String.eqb method "custom_exp" then
    let exp_func := fun x A B C : R => (A * exp (B * x) + C)%R in
    let x := [0; 7.42; 10]%R in
    let y := [0; max_value / 2; max_value]%R in
    let p0 := (max_value / 10, 0.5, 0)%R in
    match curve_fit exp_func x y p0 with
    | Some (A, B, C) => Ok (map (fun i => exp_func i A B C) intensities)
    | None => Ok (map (fun i => i * (max_value / 10))%R intensities)
    end
  else if String.eqb method "piecewise_linear" then
    let breakpoint := 8%R in
    let lower_slope := (max_value / 2 / breakpoint)%R in
    let upper_slope := (max_value / 2 / (10 - breakpoint))%R in
    Ok (map (fun i =>
               if Rle_dec i breakpoint then (lower_slope * i)%R
               else (max_value / 2 + upper_slope * (i - breakpoint))%R)
          intensities)
  else if String.eqb method "log" then
    Ok (map (fun i =>
               (Rpower 10 (i / 2.5) - 1)
               * (max_value / (Rpower 10 (10 / 2.5) - 1)))%R
          intensities)
  else Raise ValueError.

(** [calculate_adjusted_pain_units(time_amounts, transformation_method,
    power, max_value)] of the app. *)
Definition calculate_adjusted_pain_units (time_amounts : list R)
    (transformation_method : string) (power max_value : R)
  : result (list R) :=
  let intensities := map Q2R intensities in
  transformed_intensities <-
    transform_intensity intensities transformation_method power max_value ;;
  Ok (map2 (fun y t => (y * t)%R) time_amounts transformed_intensities).

End Transform.

(** The methods [transform_intensity] documents. *)
Definition supported_methods : list string :=
  ["linear"; "power"; "power_scaled"; "custom_exp"; "piecewise_linear";
   "log"]%string.

(** ** The yearly simulation of a population *)

Section Population.

Variable rvs : Dist -> nat -> Q.

(** [Simulation.simulate_year]: every patient of the population generates
    its year of attacks, in place. *)
Fixpoint simulate_year (population : list Patient) : Rand (list Patient) :=
  match population with
  | [] => ret []
  | patient :: rest =>
      r <~ generate_year_of_attacks rvs patient ;;
      rest' <~ simulate_year rest ;;
      ret (fst r :: rest')
  end.

End Population.

(** ** Predicates of the statements *)

(** A number with one decimal place between 1 and 10: [k / 10] for an
    integer [10 <= k <= 100]. *)
Definition one_decimal_1_10 (q : Q) : Prop :=
  exists k : Z, 10 <= k <= 100 /\ (q == inject_Z k / 10)%Q.

(** What the pool-generation step promises of an attack. *)
Definition attack_ok (a : Attack) : Prop :=
  15 <= total_duration a <= 360
  /\ one_decimal_1_10 (max_intensity a)
  /\ (1 <= max_intensity a <= 10)%Q
  /\ max_intensity_duration a
     = np_round_astype_int (0.7 * Z2F (total_duration a))%float.

(** The state of a patient between two draws: the pool has the size the
    profile prescribes, the cursor is at most the pool's length, the pool
    and the realized attacks come from the pool generator, and the bouts of
    an episodic patient last at least one day. *)
Definition patient_ok (p : Patient) : Prop :=
  List.length (attack_pool p) = Z.to_nat (max_attacks p)
  /\ (pool_index p <= List.length (attack_pool p))%nat
  /\ Forall attack_ok (attack_pool p)
  /\ Forall attack_ok (attacks p)
  /\ (is_chronic p = false -> Forall (fun d => 1 <= d) (bout_durations p)).

(** Two states of one patient: the profile is the same. *)
Definition same_profile (p p' : Patient) : Prop :=
  is_chronic p' = is_chronic p
  /\ is_treated p' = is_treated p
  /\ active_days p' = active_days p
  /\ annual_bouts p' = annual_bouts p
  /\ bout_durations p' = bout_durations p.

(** ** Bout frequency of episodic patients (module level, lines 20-58) *)

(** One published study: its sample size ['n'] and its discretised table
    ['dist'] from bouts per year to probability. *)
Record Study : Type := mkStudy {
  study_n : Z;
  study_dist : qdict Q
}.

(** The literal [data] of the module. *)
Definition bout_frequency_data : list Study :=
  [mkStudy 209 [(1, 0.6); (2, 0.3); (3, 0.1)]%Q;
   mkStudy 327 [(0.5, 0.416); (1, 0.370); (2.5, 0.214)]%Q;
   mkStudy 50 [(0.5, 0.46); (1, 0.54)]%Q;
   mkStudy 105 [(0.5, 0.14); (1, 0.40); (2, 0.31); (3, 0.15)]%Q;
   mkStudy 161 [(1, 0.27); (1.5, 0.73)]%Q;
   mkStudy 49 [(0.5, 0.512 + 0.174); (1, 0.140); (2, 0.174)]%Q;
   mkStudy 428 [(0.5, 0.19); (1, 0.67); (2.5, 0.14)]%Q].

(** [d.get(k, 0)] on a dict of probabilities. *)
Definition qdict_getq (d : qdict Q) (k : Q) : Q :=
  match qdict_get d k with
  | Some v => v
  | None => 0%Q
  end.

(** [for bouts, prob in study['dist'].items():
       combined_dist[bouts] = combined_dist.get(bouts, 0) + prob * weight]. *)
Definition add_study (combined_dist : qdict Q) (dist : qdict Q) (weight : Q)
  : qdict Q :=
  fold_left
    (fun combined bp =>
       qdict_set combined (fst bp)
         (qdict_getq combined (fst bp) + snd bp * weight)%Q)
    dist combined_dist.

(** [for study in data.values()]: the weight [study['n'] / total_n] is a
    division of Python ints and raises when [total_n] is zero. *)
Fixpoint add_studies (data : list Study) (total_n : Z)
    (combined_dist : qdict Q) : result (qdict Q) :=
  match data with
  | [] => Ok combined_dist
  | study :: data' =>
      if total_n =? 0 then Raise ZeroDivisionError
      else
        let weight := (inject_Z (study_n study) / inject_Z total_n)%Q in
        add_studies data' total_n
          (add_study combined_dist (study_dist study) weight)
  end.

Definition Qsum (l : list Q) : Q := fold_left Qplus l 0%Q.

(** [{k: v / total_prob for k, v in combined_dist.items()}]: a division of
    Python floats, which raises when [total_prob] is zero. *)
Fixpoint normalize (items : qdict Q) (total_prob : Q) : result (qdict Q) :=
  match items with
  | [] => Ok []
  | (k, v) :: items' =>
      if Qeq_bool total_prob 0 then Raise ZeroDivisionError
      else
        rest <- normalize items' total_prob ;;
        Ok ((k, v / total_prob)%Q :: rest)
  end.

(** The combination and normalisation of the studies' tables (lines
    47-58), as a function of [data]. *)
Definition combine_bout_frequency (data : list Study) : result (qdict Q) :=
  let total_n := Zsum (map study_n data) in
  combined_dist <- add_studies data total_n [] ;;
  let total_prob := Qsum (map snd combined_dist) in
  normalize combined_dist total_prob.

(** ** Untreated estimates (real-number reading) *)

(** [estimate_untreated(treated_mean, treated_std, treatment_effect)]: the
    coefficient of variation is a quotient of Python floats. *)
Definition estimate_untreated (treated_mean treated_std treatment_effect : R)
  : result (R * R) :=
  if Req_dec_T treated_mean 0%R then Raise ZeroDivisionError
  else
    let cv := (treated_std / treated_mean)%R in
    let untreated_mean := (treated_mean * treatment_effect)%R in
    let untreated_std := (untreated_mean * cv)%R in
    Ok (untreated_mean, untreated_std).

(** ** Building the population *)

(** [sub in s] on strings. *)
Definition contains (sub s : string) : bool :=
  match String.index 0 sub s with
  | Some _ => true
  | None => false
  end.

(** [round(x)] on a Python float: the nearest integer, ties to even;
    [OverflowError] on an infinity and [ValueError] on a NaN. *)
Definition py_round (x : float) : result Z :=
  match Prim2SF x with
  | S754_zero _ => Ok 0
  | S754_finite s m e => Ok (SF_rint s m e)
  | S754_infinity _ => Raise OverflowError
  | S754_nan => Raise ValueError
  end.

(** [Simulation.get_simulated_patients_info]. *)
Definition get_simulated_patients_info (config : SimulationConfig)
    (ch_groups : groups_dict) : result (Z * list (string * Z * Z)) :=
  let fraction := (percent_of_patients_to_simulate config / Z2F 100)%float in
  total_simulated <-
    py_int (Z2F (Zsum (dict_values ch_groups)) * fraction)%float ;;
  group_info <-
    mapM (fun gc : string * Z =>
            simulated_count <- py_int (Z2F (snd gc) * fraction)%float ;;
            q <- py_int_truediv simulated_count total_simulated ;;
            percentage <- py_round (q * Z2F 100)%float ;;
            Ok (fst gc, simulated_count, percentage))
      ch_groups ;;
  Ok (total_simulated, group_info).

Section Populations.

Variable rvs : Dist -> nat -> Q.

(** [for _ in range(n): population.append(Patient(is_chronic, is_treated))]. *)
Fixpoint append_patients (n : nat) (is_chronic is_treated : bool)
    (population : list Patient) : Rand (list Patient) :=
  match n with
  | O => ret population
  | S n' =>
      p <~ Patient_init rvs is_chronic is_treated ;;
      append_patients n' is_chronic is_treated (population ++ [p])%list
  end.

(** The loop of [Simulation.generate_population] over
    [self.ch_groups.items()]. *)
Fixpoint populate_groups (groups : groups_dict) (fraction : float)
    (population : list Patient) : Rand (list Patient) :=
  match groups with
  | [] => ret population
  | (group, total) :: groups' =>
      n_patients <~ lift (py_int (Z2F total * fraction)%float) ;;
      let is_chronic := contains "Chronic" group in
      let is_treated := contains "Treated" group in
      population <~
        append_patients (Z.to_nat n_patients) is_chronic is_treated
          population ;;
      populate_groups groups' fraction population
  end.

(** [Simulation.generate_population]: [self.population] after the call. *)
Definition Simulation_generate_population (config : SimulationConfig)
    (ch_groups : groups_dict) (population : list Patient)
  : Rand (list Patient) :=
  let fraction := (percent_of_patients_to_simulate config / Z2F 100)%float in
  populate_groups ch_groups fraction population.

(** [generate_population(n_episodic_treated, n_episodic_untreated,
    n_chronic_treated, n_chronic_untreated)] of the app. *)
Definition generate_population
    (n_episodic_treated n_episodic_untreated n_chronic_treated
       n_chronic_untreated : Z) : Rand (list Patient) :=
  let population := [] in
  population <~
    append_patients (Z.to_nat n_episodic_treated) false true population ;;
  population <~
    append_patients (Z.to_nat n_episodic_untreated) false false population ;;
  population <~
    append_patients (Z.to_nat n_chronic_treated) true true population ;;
  population <~
    append_patients (Z.to_nat n_chronic_untreated) true false population ;;
  ret population.

End Populations.

(** ** Auxiliary definitions of the statements *)

(** The test [|10 * round(0.7 * d) - 7 * d| <= 5], run over the whole range
    of durations. *)
Definition duration_check (d : Z) : bool :=
  Z.abs (10 * max_intensity_duration_of d - 7 * d) <=? 5.

(** An oracle under which an episodic patient has attacks far beyond its
    pool: 100 attacks on each of 3 days, against a pool of 24. *)
Definition busy_rvs : Dist -> nat -> Q :=
  fun d n =>
    match d with
    | BoutsPerYear => 1.5%Q
    | Choice3 _ => inject_Z (Z.of_nat (n mod 3))
    | LognormAttacksPerDay _ _ => 100%Q
    | LognormBoutDuration => 0.3%Q
    | _ => 3.7%Q
    end.

(** The episodic treated patient constructed under [busy_rvs]. *)
Definition busy_patient : Patient :=
  Eval vm_compute in
    match Patient_init busy_rvs false true 0%nat with
    | Ok (p, _) => p
    | Raise _ => mkPatient false true [] 0 0%Q [] [] 0%nat
    end.

(** Every bucket key [k / 10], [0 <= k <= 100], is present. *)
Definition has_buckets {V : Type} (d : qdict V) : Prop :=
  forall k : Z, 0 <= k <= 100 -> qdict_get d (inject_Z k / 10)%Q <> None.

(** The worldwide groups of the scenario. *)
Definition scenario_groups : groups_dict :=
  [("Episodic Treated"%string, 1201582);
   ("Episodic Untreated"%string, 1301713);
   ("Chronic Treated"%string, 300395);
   ("Chronic Untreated"%string, 325428)].

(** [busy_patient] after its year of attacks. *)
Definition busy_patient_after_year : Patient :=
  Eval vm_compute in
    match generate_year_of_attacks busy_rvs busy_patient 147%nat with
    | Ok (p, _, _) => p
    | Raise _ => busy_patient
    end.

(** Projections of updated patients. *)
Ltac psimpl :=
  cbn [attack_pool pool_index attacks is_chronic is_treated active_days
       annual_bouts bout_durations set_pool set_attacks set_active_days
       set_annual_bouts set_bout_durations fst snd] in *.

(** The keys of a dict keyed by floats. *)
Definition has_key {V : Type} (d : qdict V) (k : Q) : Prop :=
  qdict_get d k <> None.

(** The acceptance test of the rejection loop of
    [generate_attacks_per_day]. *)
Definition accepted (max_daily_ch : option Q) (x : Q) : Prop :=
  match max_daily_ch with
  | None => True
  | Some cap => (x <= cap)%Q
  end.

(** An oracle whose draws fall: 10, 9, 8, ... *)
Definition falling_rvs : Dist -> nat -> Q :=
  fun _ k => (10 - inject_Z (Z.of_nat k))%Q.

(** [max(1, int(duration * 7))]: a bout duration in days. *)
Definition days_of (duration : Q) : Z := Z.max 1 (Qtrunc (duration * 7)).

(** The minutes at maximum intensity of a list of attacks. *)
Definition attack_minutes (l : list Attack) : Z :=
  Zsum (map max_intensity_duration l).

(** The sum of a dict over the 101 bucket keys [k / 10]. *)
Definition bucket_keys : list Z := map Z.of_nat (seq 0 101).

Definition bucket_sum (d : qdict Z) : Z :=
  Zsum (map (fun k => qdict_get0 d (inject_Z k / 10)%Q) bucket_keys).

(** The methods of [transform_intensity] given by a closed formula. *)
Definition monotone_methods : list string :=
  ["linear"; "power"; "power_scaled"; "piecewise_linear"; "log"]%string.

(** A freshly constructed patient of a given group. *)
Definition fresh_patient (ic it : bool) (p : Patient) : Prop :=
  is_chronic p = ic /\ is_treated p = it /\ attacks p = [] /\ patient_ok p.

(** The sizes of the four groups of a population, in the order of
    [group_conditions]. *)
Definition group_sizes (population : list Patient) : list Z :=
  map (fun gc => Z.of_nat (List.length (filter (snd gc) population)))
    group_conditions.

(** A small world, simulated in full: ten sufferers, half of them chronic
    and half of them treated. *)
Definition small_config : SimulationConfig :=
  SimulationConfig_init 100000 10 1 0.5 0.5 100.

(** The dict [calculate_ch_groups] computes for [small_config]. *)
Definition small_groups : groups_dict :=
  [("Episodic Treated"%string, 2); ("Episodic Untreated"%string, 2);
   ("Chronic Treated"%string, 2); ("Chronic Untreated"%string, 2)].

(** The population [Simulation.generate_population] builds from
    [small_groups] under [busy_rvs], and the state of the generator after
    it. *)
Definition small_population : list Patient * nat :=
  Eval vm_compute in
    match Simulation_generate_population busy_rvs small_config small_groups
            [] 0%nat with
    | Ok r => r
    | Raise _ => ([], 0%nat)
    end.

(** The group of [busy_patient], with a count of the caller's choice. *)
Definition busy_groups : list (string * (Patient -> bool) * Z) :=
  [("Episodic Treated"%string,
    fun p => negb (is_chronic p) && is_treated p, 3)].

Definition busy_group_data : list Patient * list GroupData * nat :=
  Eval vm_compute in
    match calculate_group_data (fun _ => 0%float) busy_rvs [busy_patient]
            busy_groups 147%nat with
    | Ok r => r
    | Raise _ => ([], [], 0%nat)
    end.

(** A membership test that reads the profile only. *)
Definition profile_condition (condition : Patient -> bool) : Prop :=
  forall p p' : Patient, same_profile p p' -> condition p' = condition p.

(** The group has a patient with at least one simulated day. *)
Definition has_active_member (condition : Patient -> bool)
    (population : list Patient) : Prop :=
  Exists (fun p => condition p = true /\ 0 < max_attacks p) population.

(** * Properties *)

(** ** Worldwide group sizes *)

(** C2.  For every configuration whose complementary proportions are
    derived from [prop_chronic] and [prop_treated], the four worldwide
    group sizes of [Simulation.calculate_ch_groups] are
    [int(total * (1 - prop_chronic) * prop_treated)],
    [int(total * (1 - prop_chronic) * (1 - prop_treated))],
    [int(total * prop_chronic * prop_treated)] and
    [int(total * prop_chronic * (1 - prop_treated))], and the group
    arithmetic of [main] yields the same four cells from its sliders.  The
    restriction of the proportions to [0, 1] is not needed. *)
Theorem ch_groups_use_complements :
  (forall (prevalence world : Z) (adult chronic treated percent : float),
      let total :=
        (Z2F world * adult * (Z2F prevalence / Z2F 100000))%float in
      calculate_ch_groups
        (SimulationConfig_init prevalence world adult chronic treated percent)
      = (et <- py_int (total * (1 - chronic) * treated)%float ;;
         eu <- py_int (total * (1 - chronic) * (1 - treated))%float ;;
         ct <- py_int (total * chronic * treated)%float ;;
         cu <- py_int (total * chronic * (1 - treated))%float ;;
         Ok (total,
             [("Episodic Treated"%string, et);
              ("Episodic Untreated"%string, eu);
              ("Chronic Treated"%string, ct);
              ("Chronic Untreated"%string, cu)])))
  /\
  (forall (prevalence pct_chronic pct_treated : Z) (percent : float),
      let total :=
        (Z2F 8200000000 * 0.72 * (Z2F prevalence / Z2F 100000))%float in
      let chronic := (Z2F pct_chronic / Z2F 100)%float in
      let treated := (Z2F pct_treated / Z2F 100)%float in
      (r <- main_group_sizes prevalence pct_chronic pct_treated percent ;;
       Ok (snd (fst r)))
      = (et <- py_int (total * (1 - chronic) * treated)%float ;;
         eu <- py_int (total * (1 - chronic) * (1 - treated))%float ;;
         ct <- py_int (total * chronic * treated)%float ;;
         cu <- py_int (total * chronic * (1 - treated))%float ;;
         _ <- simulated_counts
                [("Episodic Treated"%string, et);
                 ("Episodic Untreated"%string, eu);
                 ("Chronic Treated"%string, ct);
                 ("Chronic Untreated"%string, cu)]
                (percent / Z2F 100)%float ;;
         Ok [("Episodic Treated"%string, et);
             ("Episodic Untreated"%string, eu);
             ("Chronic Treated"%string, ct);
             ("Chronic Untreated"%string, cu)])).
Proof.
  split.
  - intros prevalence world adult chronic treated percent total.
    unfold calculate_ch_groups, SimulationConfig_init; cbn [prop_episodic
      prop_untreated prop_chronic prop_treated world_population
      adult_fraction annual_prevalence_per_100k].
    reflexivity.
  - intros prevalence pct_chronic pct_treated percent total chronic treated.
    unfold main_group_sizes. fold total. fold chronic. fold treated.
    destruct (py_int (total * (1 - chronic) * treated)%float) as [et|];
      [|reflexivity].
    destruct (py_int (total * (1 - chronic) * (1 - treated))%float) as [eu|];
      [|reflexivity].
    destruct (py_int (total * chronic * treated)%float) as [ct|];
      [|reflexivity].
    destruct (py_int (total * chronic * (1 - treated))%float) as [cu|];
      [|reflexivity].
    cbn [bind simulated_counts].
    destruct (simulated_count et _); [|reflexivity].
    destruct (simulated_count eu _); [|reflexivity].
    destruct (simulated_count ct _); [|reflexivity].
    destruct (simulated_count cu _); reflexivity.
Qed.

(** The configuration of the end-to-end scenario. *)
Definition scenario_config : SimulationConfig :=
  SimulationConfig_init 53 8200000000 0.72 0.20 0.48 0.02.

(** C4, as stated, fails: with the scenario's configuration
    [get_total_ch_sufferers] returns 3,129,120, which is 4,320 away from
    3,133,440 and so not within 1 of it. *)
Lemma scenario_total_is_not_3133440 :
  get_total_ch_sufferers scenario_config = Ok 3129120
  /\ ~ (exists n, get_total_ch_sufferers scenario_config = Ok n
                  /\ Z.abs (n - 3133440) <= 1).
Proof.
  assert (H : get_total_ch_sufferers scenario_config = Ok 3129120)
    by (vm_compute; reflexivity).
  split; [exact H|].
  intros [n [Hn Habs]]. rewrite H in Hn. inversion Hn; subst n.
  vm_compute in Habs. apply Habs. reflexivity.
Qed.

(** C4, amended.  With the scenario's configuration
    [get_total_ch_sufferers] returns 3,129,120
    (= 8,200,000,000 x 0.72 x 53 / 100,000) and the worldwide 'Episodic
    Treated' group has 1,201,582 sufferers; its simulated patient count is
    240, in [Simulation.generate_population] and in [main] alike, hence
    within 5 of 240. *)
Theorem scenario_counts :
  get_total_ch_sufferers scenario_config = Ok 3129120
  /\ (r <- calculate_ch_groups scenario_config ;;
      dict_get (snd r) "Episodic Treated") = Ok 1201582
  /\ (d <- population_counts scenario_config ;;
      dict_get d "Episodic Treated") = Ok 240
  /\ (r <- main_group_sizes 53 20 48 0.02 ;;
      dict_get (snd r) "Episodic Treated") = Ok 240
  /\ Z.abs (240 - 240) <= 5.
Proof.
  repeat split; try (vm_compute; reflexivity).
  vm_compute. discriminate.
Qed.

(** ** Active days of chronic patients *)

(** C7, as stated, fails: on the draw 200.7 [generate_chronic_active_days]
    returns 200, whereas [min(365, round(200.7))] is 201. *)
Lemma chronic_active_days_truncates :
  generate_chronic_active_days (fun _ _ => 200.7%Q) 0%nat = Ok (200, 1%nat)
  /\ Z.min 365 (Qround_half_even 200.7%Q) = 201.
Proof.
  split; vm_compute; reflexivity.
Qed.

(** C7, amended.  [generate_chronic_active_days] consumes one lognormal
    draw [X] and returns [min(int(X), 365)], where [int] truncates toward
    zero; the returned number of active days never exceeds 365. *)
Theorem chronic_active_days_spec :
  forall (rvs : Dist -> nat -> Q) (s : nat),
    generate_chronic_active_days rvs s
    = Ok (Z.min (Qtrunc (rvs LognormActiveDays s)) 365, S s)
    /\ Z.min (Qtrunc (rvs LognormActiveDays s)) 365 <= 365.
Proof.
  intros rvs s. split.
  - reflexivity.
  - apply Z.le_min_r.
Qed.

(** ** Intensity transforms *)

Lemma eqb_of_not_supported :
  forall method : string,
    ~ In method supported_methods ->
    String.eqb method "linear" = false
    /\ String.eqb method "power" = false
    /\ String.eqb method "power_scaled" = false
    /\ String.eqb method "custom_exp" = false
    /\ String.eqb method "piecewise_linear" = false
    /\ String.eqb method "log" = false.
Proof.
  intros method H.
  repeat split; apply String.eqb_neq; intros ->; apply H; simpl; tauto.
Qed.

(** C9.  Whatever the intensities, the power and the optimiser,
    [transform_intensity] raises [ValueError] when [max_value <= 0] (the
    test is its first statement, so no curve value is computed), and it
    raises [ValueError] for every method name outside the six supported
    ones. *)
Theorem transform_intensity_rejects :
  forall curve_fit (intensities : list R) (method : string)
         (power max_value : R),
    ((max_value <= 0)%R ->
     transform_intensity curve_fit intensities method power max_value
     = Raise ValueError)
    /\ (~ In method supported_methods ->
        transform_intensity curve_fit intensities method power max_value
        = Raise ValueError).
Proof.
  intros curve_fit intensities method power max_value. split.
  - intros Hle. unfold transform_intensity.
    destruct (Rle_dec max_value 0) as [_|Hn]; [reflexivity|contradiction].
  - intros Hns. unfold transform_intensity.
    destruct (Rle_dec max_value 0) as [_|_]; [reflexivity|].
    destruct (eqb_of_not_supported method Hns)
      as (H1 & H2 & H3 & H4 & H5 & H6).
    rewrite H1, H2, H3, H4, H5, H6. reflexivity.
Qed.

(** ** Lognormal calibration *)

Section Calibration.

Local Open Scope R_scope.

Lemma exp_two_mu_sigma :
  forall mean std : R,
    0 < mean ->
    exp (2 * ln (mean ^ 2 / sqrt (std ^ 2 + mean ^ 2))
         + sqrt (ln (1 + std ^ 2 / mean ^ 2)) ^ 2) = mean ^ 2.
Proof.
  intros mean std Hm.
  assert (Hm2 : 0 < mean ^ 2) by (apply pow_lt; exact Hm).
  assert (Hv : 0 <= std ^ 2) by (apply pow2_ge_0).
  assert (Hs : 0 < std ^ 2 + mean ^ 2) by lra.
  assert (Hsq : 0 < sqrt (std ^ 2 + mean ^ 2)) by (apply sqrt_lt_R0; exact Hs).
  assert (Hq : 0 < mean ^ 2 / sqrt (std ^ 2 + mean ^ 2))
    by (apply Rdiv_lt_0_compat; assumption).
  assert (Hr : 0 <= std ^ 2 / mean ^ 2).
  { apply Rmult_le_pos; [exact Hv|]. left. apply Rinv_0_lt_compat. exact Hm2. }
  assert (Hln : 0 <= ln (1 + std ^ 2 / mean ^ 2)).
  { rewrite <- ln_1. destruct Hr as [Hr|Hr].
    - left. apply ln_increasing; lra.
    - rewrite <- Hr. rewrite Rplus_0_r. right. reflexivity. }
  rewrite pow2_sqrt by exact Hln.
  rewrite exp_plus.
  replace (2 * ln (mean ^ 2 / sqrt (std ^ 2 + mean ^ 2)))
    with (ln (mean ^ 2 / sqrt (std ^ 2 + mean ^ 2))
          + ln (mean ^ 2 / sqrt (std ^ 2 + mean ^ 2))) by ring.
  rewrite exp_plus.
  rewrite !exp_ln by lra.
  assert (Hsqr : sqrt (std ^ 2 + mean ^ 2) * sqrt (std ^ 2 + mean ^ 2)
                 = std ^ 2 + mean ^ 2) by (apply sqrt_sqrt; lra).
  set (S := sqrt (std ^ 2 + mean ^ 2)) in *.
  transitivity (mean ^ 2 * mean ^ 2 / (S * S) * (1 + std ^ 2 / mean ^ 2)).
  - field. split; lra.
  - rewrite Hsqr. field. split; lra.
Qed.

Lemma lognormal_moments_of_fit :
  forall mean std : R,
    0 < mean -> 0 < std ->
    let mu := ln (mean ^ 2 / sqrt (std ^ 2 + mean ^ 2)) in
    let sigma := sqrt (ln (1 + std ^ 2 / mean ^ 2)) in
    fit_lognormal mean std = Ok (mu, sigma)
    /\ lognormal_mean mu sigma = mean
    /\ lognormal_std mu sigma = std.
Proof.
  intros mean std Hm Hs mu sigma.
  assert (Hm2 : 0 < mean ^ 2) by (apply pow_lt; exact Hm).
  assert (Hv : 0 < std ^ 2) by (apply pow_lt; exact Hs).
  assert (Hr : 0 < std ^ 2 / mean ^ 2) by (apply Rdiv_lt_0_compat; assumption).
  assert (Hln : 0 < ln (1 + std ^ 2 / mean ^ 2)).
  { rewrite <- ln_1. apply ln_increasing; lra. }
  assert (Hsig2 : sigma ^ 2 = ln (1 + std ^ 2 / mean ^ 2)).
  { unfold sigma. apply pow2_sqrt. lra. }
  assert (H2 : exp (2 * mu + sigma ^ 2) = mean ^ 2)
    by (apply exp_two_mu_sigma; exact Hm).
  split; [|split].
  - unfold fit_lognormal.
    destruct (Req_dec_T (mean ^ 2) 0) as [E|_]; [lra|reflexivity].
  - unfold lognormal_mean.
    assert (Hpos : 0 < exp (mu + sigma ^ 2 / 2)) by apply exp_pos.
    assert (Hsq : exp (mu + sigma ^ 2 / 2) ^ 2 = mean ^ 2).
    { rewrite <- H2.
      replace (2 * mu + sigma ^ 2)
        with ((mu + sigma ^ 2 / 2) + (mu + sigma ^ 2 / 2)) by field.
      rewrite (exp_plus (mu + sigma ^ 2 / 2) (mu + sigma ^ 2 / 2)). ring. }
    apply Rsqr_inj; [lra|lra|]. unfold Rsqr.
    replace (mean * mean) with (mean ^ 2) by ring.
    rewrite <- Hsq. ring.
  - unfold lognormal_std. rewrite H2, Hsig2.
    rewrite exp_ln by lra.
    replace ((1 + std ^ 2 / mean ^ 2 - 1) * mean ^ 2) with (std ^ 2)
      by (field; lra).
    replace (std ^ 2) with (Rsqr std) by (unfold Rsqr; ring).
    apply sqrt_Rsqr. lra.
Qed.

Lemma fit_lognormal_zero :
  forall std : R, fit_lognormal 0 std = Raise ZeroDivisionError.
Proof.
  intros std. unfold fit_lognormal.
  destruct (Req_dec_T (0 ^ 2) 0) as [_|N]; [reflexivity|].
  exfalso. apply N. ring.
Qed.

Lemma fit_lognormal_even :
  forall mean std : R, fit_lognormal (- mean) std = fit_lognormal mean std.
Proof.
  intros mean std. unfold fit_lognormal.
  replace ((- mean) ^ 2) with (mean ^ 2) by ring. reflexivity.
Qed.

(** C6, as stated, fails for a negative mean: [fit_lognormal(-1, 1)] does
    not fail and returns the very parameters of [fit_lognormal(1, 1)], a
    proper lognormal ([sigma > 0]) whose mean is 1 and whose standard
    deviation is 1. *)
Lemma fit_lognormal_negative_mean :
  fit_lognormal (-1) 1 = fit_lognormal 1 1
  /\ exists mu sigma,
       fit_lognormal (-1) 1 = Ok (mu, sigma)
       /\ 0 < sigma
       /\ lognormal_mean mu sigma = 1
       /\ lognormal_std mu sigma = 1.
Proof.
  split.
  - replace (-1) with (- (1)) by ring. apply fit_lognormal_even.
  - destruct (lognormal_moments_of_fit 1 1) as (Hf & Hmean & Hstd); try lra.
    exists (ln (1 ^ 2 / sqrt (1 ^ 2 + 1 ^ 2))),
           (sqrt (ln (1 + 1 ^ 2 / 1 ^ 2))).
    split; [|split; [|split]].
    + replace (-1) with (- (1)) by ring. rewrite fit_lognormal_even. exact Hf.
    + apply sqrt_lt_R0. rewrite <- ln_1 at 1. apply ln_increasing; lra.
    + exact Hmean.
    + exact Hstd.
Qed.

(** C6, amended.  For every positive [(mean, std)] pair [fit_lognormal]
    returns [mu = ln(mean^2 / sqrt(std^2 + mean^2))] and
    [sigma = sqrt(ln(1 + std^2 / mean^2))], and the lognormal distribution
    with these parameters has mean [mean] and standard deviation [std].
    For [mean = 0] it fails with a division by zero.  For a negative mean it
    does not fail: it returns the parameters of [-mean], whose lognormal has
    mean [-mean]. *)
Theorem fit_lognormal_spec :
  (forall mean std : R,
      0 < mean -> 0 < std ->
      fit_lognormal mean std
      = Ok (ln (mean ^ 2 / sqrt (std ^ 2 + mean ^ 2)),
            sqrt (ln (1 + std ^ 2 / mean ^ 2)))
      /\ lognormal_mean (ln (mean ^ 2 / sqrt (std ^ 2 + mean ^ 2)))
                        (sqrt (ln (1 + std ^ 2 / mean ^ 2))) = mean
      /\ lognormal_std (ln (mean ^ 2 / sqrt (std ^ 2 + mean ^ 2)))
                       (sqrt (ln (1 + std ^ 2 / mean ^ 2))) = std)
  /\ (forall std : R, fit_lognormal 0 std = Raise ZeroDivisionError)
  /\ (forall mean std : R,
         mean < 0 -> 0 < std ->
         fit_lognormal mean std = fit_lognormal (- mean) std
         /\ exists mu sigma,
              fit_lognormal mean std = Ok (mu, sigma)
              /\ lognormal_mean mu sigma = - mean
              /\ lognormal_std mu sigma = std).
Proof.
  split; [|split].
  - intros mean std Hm Hs. exact (lognormal_moments_of_fit mean std Hm Hs).
  - exact fit_lognormal_zero.
  - intros mean std Hm Hs.
    assert (E : fit_lognormal mean std = fit_lognormal (- mean) std).
    { rewrite <- (fit_lognormal_even (- mean) std).
      replace (- - mean) with mean by ring. reflexivity. }
    split; [exact E|].
    destruct (lognormal_moments_of_fit (- mean) std) as (Hf & Hmean & Hstd);
      [lra|lra|].
    eexists. eexists. rewrite E.
    split; [exact Hf|]. split; [exact Hmean|exact Hstd].
Qed.

End Calibration.

(** ** Endpoints of the intensity scales *)

Section TransformEndpoints.

Local Open Scope R_scope.

Lemma np_power_zero : forall p : R, 0 < p -> np_power 0 p = 0.
Proof.
  intros p Hp. unfold np_power.
  destruct (Req_dec_T 0 0) as [_|N]; [|exfalso; apply N; reflexivity].
  destruct (Req_dec_T p 0) as [E|_]; [lra|reflexivity].
Qed.

Lemma np_power_pos : forall x p : R, 0 < x -> np_power x p = Rpower x p.
Proof.
  intros x p Hx. unfold np_power.
  destruct (Req_dec_T x 0) as [E|_]; [lra|reflexivity].
Qed.

Lemma Rpower_10_gt_1 : forall p : R, 0 < p -> 1 < Rpower 10 p.
Proof.
  intros p Hp. unfold Rpower. rewrite <- exp_0. apply exp_increasing.
  apply Rmult_lt_0_compat; [exact Hp|].
  rewrite <- ln_1. apply ln_increasing; lra.
Qed.

(** X18.  The endpoints of the scales, as far as the source decides them.
    For a positive [power] and a positive [max_value] each of the five
    closed-form methods maps intensity 0 to 0 and intensity 10 to
    [max_value], whatever [curve_fit] does.  For 'custom_exp' the linear
    fallback taken on [RuntimeError] has the same endpoints, and when
    [curve_fit] returns parameters [(A, B, C)] the endpoints are those of
    the fitted curve, [A + C] and [A * exp(10 * B) + C]: the source does
    not test them. *)
Theorem closed_form_endpoints :
  forall curve_fit (power max_value : R),
    0 < power -> 0 < max_value ->
    (forall method : string,
        In method monotone_methods ->
        transform_intensity curve_fit [0; 10] method power max_value
        = Ok [0; max_value])
    /\ transform_intensity curve_fit [0; 10] "custom_exp" power max_value
       = match curve_fit (fun x A B C : R => A * exp (B * x) + C)
                 [0; 7.42; 10] [0; max_value / 2; max_value]
                 (max_value / 10, 0.5, 0) with
         | Some (A, B, C) => Ok [A * exp (B * 0) + C; A * exp (B * 10) + C]
         | None => Ok [0; max_value]
         end.
Proof.
  intros curve_fit power max_value Hp Hm. split.
  - intros method Hin. unfold transform_intensity.
    destruct (Rle_dec max_value 0) as [Hle|_]; [lra|].
    simpl in Hin.
    destruct Hin as [<-|[<-|[<-|[<-|[<-|[]]]]]];
      cbn [String.eqb Ascii.eqb Bool.eqb andb map].
    + (* linear *)
      f_equal. f_equal; [ring|f_equal; field].
    + (* power *)
      rewrite np_power_zero by exact Hp.
      rewrite np_power_pos by lra.
      assert (H10 : 0 < Rpower 10 power) by (unfold Rpower; apply exp_pos).
      f_equal. f_equal; [ring|f_equal; field; lra].
    + (* power_scaled *)
      replace (0 / 10) with 0 by (unfold Rdiv; ring).
      replace (10 / 10) with 1 by field.
      rewrite np_power_zero by exact Hp.
      rewrite np_power_pos by lra.
      replace (Rpower 1 power) with 1
        by (unfold Rpower; rewrite ln_1, Rmult_0_r, exp_0; reflexivity).
      f_equal. f_equal; [ring|f_equal; ring].
    + (* piecewise_linear *)
      destruct (Rle_dec 0 8) as [_|N]; [|lra].
      destruct (Rle_dec 10 8) as [N|_]; [lra|].
      f_equal. f_equal; [field|f_equal; field].
    + (* log *)
      replace (0 / 2.5) with 0 by (unfold Rdiv; ring).
      rewrite Rpower_O by lra.
      assert (H : 1 < Rpower 10 (10 / 2.5)) by (apply Rpower_10_gt_1; lra).
      f_equal. f_equal; [field; lra|f_equal; field; lra].
  - unfold transform_intensity.
    destruct (Rle_dec max_value 0) as [Hle|_]; [lra|].
    cbn [String.eqb Ascii.eqb Bool.eqb andb].
    destruct (curve_fit _ _ _ _) as [[[A B] C]|]; [reflexivity|].
    cbn [map]. f_equal. f_equal; [ring|f_equal; field].
Qed.

Lemma closed_form_endpoints_witness :
  (forall method : string,
      In method monotone_methods ->
      transform_intensity (fun _ _ _ p0 => Some p0) [0; 10] method 2 100
      = Ok [0; 100])
  /\ transform_intensity (fun _ _ _ p0 => Some p0) [0; 10] "custom_exp" 2 100
     = Ok [100 / 10 * exp (0.5 * 0) + 0; 100 / 10 * exp (0.5 * 10) + 0].
Proof.
  apply (closed_form_endpoints (fun _ _ _ p0 => Some p0) 2 100); lra.
Defined.

End TransformEndpoints.

(** ** Rounding lemmas *)

Lemma Qround_half_even_bounds :
  forall (q : Q) (a b : Z),
    (inject_Z a <= q)%Q -> (q <= inject_Z b)%Q ->
    a <= Qround_half_even q <= b.
Proof.
  intros q a b Ha Hb. unfold Qround_half_even.
  assert (Hfa : a <= Qfloor q).
  { rewrite <- (Qfloor_Z a). apply Qfloor_resp_le. exact Ha. }
  assert (Hfb : Qfloor q <= b).
  { rewrite <- (Qfloor_Z b). apply Qfloor_resp_le. exact Hb. }
  assert (Hlt : (inject_Z (Qfloor q) < q)%Q -> Qfloor q + 1 <= b).
  { intros H. assert (H' : (inject_Z (Qfloor q) < inject_Z b)%Q)
      by (eapply Qlt_le_trans; eassumption).
    rewrite <- Zlt_Qlt in H'. lia. }
  assert (Hr : forall c, (q - inject_Z (Qfloor q) ?= 1 # 2)%Q = c ->
                         c <> Lt -> (inject_Z (Qfloor q) < q)%Q).
  { intros c Hc Hn.
    assert (H : (1 # 2 <= q - inject_Z (Qfloor q))%Q).
    { destruct c; [apply Qeq_alt in Hc; rewrite Hc; apply Qle_refl
                  |congruence
                  |apply Qgt_alt in Hc; apply Qlt_le_weak; exact Hc]. }
    apply Qlt_minus_iff.
    eapply Qlt_le_trans; [|exact H]. reflexivity. }
  destruct (q - inject_Z (Qfloor q) ?= 1 # 2)%Q eqn:E.
  - destruct (Z.even (Qfloor q)); [lia|].
    specialize (Hlt (Hr Eq eq_refl ltac:(discriminate))). lia.
  - lia.
  - specialize (Hlt (Hr Gt eq_refl ltac:(discriminate))). lia.
Qed.

Lemma Qclip_bounds :
  forall x lo hi : Q, (lo <= hi)%Q -> (lo <= Qclip x lo hi <= hi)%Q.
Proof.
  intros x lo hi H. unfold Qclip. split.
  - apply Q.min_glb; [apply Q.le_max_r|exact H].
  - apply Q.le_min_r.
Qed.

Lemma Qround1_clip_ok :
  forall x : Q, one_decimal_1_10 (Qround1 (Qclip x 1 10))
                /\ (1 <= Qround1 (Qclip x 1 10) <= 10)%Q.
Proof.
  intros x.
  destruct (Qclip_bounds x 1 10 ltac:(discriminate)) as [Hlo Hhi].
  assert (Hk : 10 <= Qround_half_even (Qclip x 1 10 * 10) <= 100).
  { apply Qround_half_even_bounds.
    - change (inject_Z 10) with (1 * 10)%Q.
      apply Qmult_le_compat_r; [exact Hlo|discriminate].
    - change (inject_Z 100) with (10 * 10)%Q.
      apply Qmult_le_compat_r; [exact Hhi|discriminate]. }
  split.
  - exists (Qround_half_even (Qclip x 1 10 * 10)). split; [exact Hk|].
    unfold Qround1. reflexivity.
  - unfold Qround1.
    set (k := Qround_half_even (Qclip x 1 10 * 10)) in *.
    split.
    + apply Qle_shift_div_l; [reflexivity|].
      change (1 * 10)%Q with (inject_Z 10). rewrite <- Zle_Qle. lia.
    + apply Qle_shift_div_r; [reflexivity|].
      change (10 * 10)%Q with (inject_Z 100). rewrite <- Zle_Qle. lia.
Qed.

Lemma Zclip_bounds :
  forall x lo hi : Z, lo <= hi -> lo <= Zclip x lo hi <= hi.
Proof. intros x lo hi H. unfold Zclip. lia. Qed.

(** ** The attack generator *)

Section Generators.

Variable rvs : Dist -> nat -> Q.

Lemma rvs_n_ok :
  forall (d : Dist) (size s : nat),
    exists l, rvs_n rvs d size s = Ok (l, (s + size)%nat)
              /\ List.length l = size.
Proof.
  intros d size. induction size as [|n IH]; intros s.
  - exists []. cbn. rewrite Nat.add_0_r. split; reflexivity.
  - destruct (IH (S s)) as [l [Hl Hlen]].
    exists (rvs d s :: l). cbn [rvs_n]. unfold rbind, rvs1. rewrite Hl.
    cbn. split; [|congruence].
    unfold ret. f_equal. f_equal. lia.
Qed.

Lemma map2_length :
  forall (A B C : Type) (f : A -> B -> C) (l1 : list A) (l2 : list B),
    List.length l1 = List.length l2 ->
    List.length (map2 f l1 l2) = List.length l1.
Proof.
  intros A B C f l1. induction l1 as [|a l1 IH]; intros [|b l2] H;
    cbn in *; try congruence.
  f_equal. apply IH. congruence.
Qed.

Lemma select3_length :
  forall choices a b c : list Q,
    List.length a = List.length choices ->
    List.length b = List.length choices ->
    List.length c = List.length choices ->
    List.length (select3 choices a b c) = List.length choices.
Proof.
  induction choices as [|k ks IH]; intros [|x a] [|y b] [|z c] Ha Hb Hc;
    cbn in *; try congruence.
  f_equal. apply IH; congruence.
Qed.

Lemma generate_max_pain_intensity_ok :
  forall (is_treated : bool) (size s : nat),
    exists l,
      generate_max_pain_intensity rvs is_treated size s
      = Ok (l, (s + 4 * size)%nat)
      /\ List.length l = size
      /\ Forall (fun q => one_decimal_1_10 q /\ (1 <= q <= 10)%Q) l.
Proof.
  intros it size s. unfold generate_max_pain_intensity, rbind.
  destruct (rvs_n_ok TruncnormMildModerate size s) as [a [Ea La]].
  rewrite Ea.
  destruct (rvs_n_ok TruncnormModerateSevere size (s + size)) as [b [Eb Lb]].
  rewrite Eb.
  destruct (rvs_n_ok (ExponVerySevere it) size (s + size + size))
    as [e [Ee Le]].
  rewrite Ee.
  destruct (rvs_n_ok (Choice3 it) size (s + size + size + size))
    as [c [Ec Lc]].
  rewrite Ec. unfold ret.
  eexists. split; [f_equal; f_equal; lia|]. split.
  - rewrite length_map, select3_length; rewrite ?length_map; congruence.
  - apply Forall_forall. intros q Hq. apply in_map_iff in Hq.
    destruct Hq as [x [<- _]]. apply Qround1_clip_ok.
Qed.

Lemma generate_attack_duration_ok :
  forall (is_chronic is_treated : bool) (max_intensities : list Q)
         (size s : nat),
    List.length max_intensities = size ->
    exists l s',
      generate_attack_duration rvs is_chronic is_treated max_intensities
        size s = Ok (l, s')
      /\ List.length l = size
      /\ Forall (fun d => 15 <= d <= 360) l.
Proof.
  intros ic it mi size s Hmi. unfold generate_attack_duration, rbind.
  destruct (rvs_n_ok (LognormBaseDuration ic) size s) as [base [Eb Lb]].
  rewrite Eb.
  assert (Hbounds : forall l : list Q,
             Forall (fun d => 15 <= d <= 360)
               (map (fun x => Zclip (Qround_half_even x) 15 360) l)).
  { intros l. apply Forall_forall. intros d Hd. apply in_map_iff in Hd.
    destruct Hd as [x [<- _]]. apply Zclip_bounds. lia. }
  destruct it.
  - destruct (rvs_n_ok BetaTreatmentEffect size (s + size)) as [be [Ebe Lbe]].
    rewrite Ebe. unfold ret. eexists. eexists.
    split; [reflexivity|]. split; [|apply Hbounds].
    rewrite length_map.
    assert (L1 : List.length
                   (map2 Qmult base
                      (map (fun i => 0.1064 * i + 0.5797)%Q mi)) = size)
      by (rewrite map2_length; rewrite ?length_map; congruence).
    assert (L2 : List.length
                   (map2 Qmult be
                      (map (fun n => 1 - 0.3 * n)%Q
                         (map (fun i => (i - 1) / 9)%Q mi))) = size)
      by (rewrite map2_length; rewrite ?length_map; congruence).
    rewrite map2_length; congruence.
  - unfold ret. eexists. eexists.
    split; [reflexivity|]. split; [|apply Hbounds].
    rewrite length_map, map2_length; rewrite ?length_map; congruence.
Qed.

Lemma build_pool_ok :
  forall (ds : list Z) (is_ : list Q),
    List.length is_ = List.length ds ->
    Forall (fun d => 15 <= d <= 360) ds ->
    Forall (fun q => one_decimal_1_10 q /\ (1 <= q <= 10)%Q) is_ ->
    List.length (build_pool ds is_ (map max_intensity_duration_of ds))
    = List.length ds
    /\ Forall attack_ok
         (build_pool ds is_ (map max_intensity_duration_of ds)).
Proof.
  induction ds as [|d ds IH]; intros [|i is_] Hlen Hd Hi;
    cbn in *; try congruence.
  - split; [reflexivity|constructor].
  - inversion Hd; subst. inversion Hi; subst.
    destruct (IH is_) as [IHl IHf]; [congruence|assumption|assumption|].
    split; [congruence|]. constructor; [|exact IHf].
    unfold attack_ok; cbn. tauto.
Qed.

Lemma pre_generate_attack_pool_ok :
  forall (p : Patient) (s : nat),
    0 <= max_attacks p ->
    exists pool s',
      pre_generate_attack_pool rvs p s = Ok (set_pool p pool 0%nat, s')
      /\ List.length pool = Z.to_nat (max_attacks p)
      /\ Forall attack_ok pool.
Proof.
  intros p s Hm. unfold pre_generate_attack_pool.
  destruct (max_attacks p <? 0) eqn:E; [apply Z.ltb_lt in E; lia|].
  unfold rbind.
  destruct (generate_max_pain_intensity_ok (is_treated p)
              (Z.to_nat (max_attacks p)) s) as [mi [Emi [Lmi Fmi]]].
  rewrite Emi.
  destruct (generate_attack_duration_ok (is_chronic p) (is_treated p) mi
              (Z.to_nat (max_attacks p))
              (s + 4 * Z.to_nat (max_attacks p)) Lmi)
    as [td [s' [Etd [Ltd Ftd]]]].
  rewrite Etd. unfold ret.
  destruct (build_pool_ok td mi) as [Lp Fp]; [congruence|assumption..|].
  eexists. eexists. split; [reflexivity|]. split; [congruence|exact Fp].
Qed.

Lemma pre_generate_attack_pool_negative :
  forall (p : Patient) (s : nat),
    max_attacks p < 0 ->
    pre_generate_attack_pool rvs p s = Raise ValueError.
Proof.
  intros p s Hm. unfold pre_generate_attack_pool.
  apply Z.ltb_lt in Hm. rewrite Hm. reflexivity.
Qed.

End Generators.

Lemma max_intensity_duration_close :
  forall d : Z,
    15 <= d <= 360 ->
    Z.abs (10 * max_intensity_duration_of d - 7 * d) <= 5.
Proof.
  intros d Hd.
  assert (H : forallb (fun n => duration_check (15 + Z.of_nat n)) (seq 0 346)
              = true) by (vm_compute; reflexivity).
  rewrite forallb_forall in H.
  specialize (H (Z.to_nat (d - 15))).
  rewrite Z2Nat.id in H by lia.
  replace (15 + (d - 15)) with d in H by lia.
  apply Z.leb_le. apply H. apply in_seq. lia.
Qed.

(** C3.  Whatever the patient (chronic or episodic, treated or not) and the
    draws, [pre_generate_attack_pool] returns a pool of [max_attacks]
    attacks (it raises only when that size is negative), and every attack of
    the pool has an integer [total_duration] with
    [15 <= total_duration <= 360], a [max_intensity] of the form [k / 10]
    with [1 <= max_intensity <= 10], and
    [max_intensity_duration = round(0.7 * total_duration)], the rounding of
    the binary64 product, which is within one half of
    [0.7 * total_duration]. *)
Theorem attack_pool_invariants :
  forall (rvs : Dist -> nat -> Q) (p : Patient) (s : nat),
    (max_attacks p < 0 ->
     pre_generate_attack_pool rvs p s = Raise ValueError)
    /\ (0 <= max_attacks p ->
        exists pool s',
          pre_generate_attack_pool rvs p s = Ok (set_pool p pool 0%nat, s')
          /\ List.length pool = Z.to_nat (max_attacks p)
          /\ forall a, In a pool ->
               15 <= total_duration a <= 360
               /\ one_decimal_1_10 (max_intensity a)
               /\ (1 <= max_intensity a <= 10)%Q
               /\ max_intensity_duration a
                  = np_round_astype_int (0.7 * Z2F (total_duration a))%float
               /\ Z.abs (10 * max_intensity_duration a
                         - 7 * total_duration a) <= 5).
Proof.
  intros rvs p s. split.
  - apply pre_generate_attack_pool_negative.
  - intros Hm.
    destruct (pre_generate_attack_pool_ok rvs p s Hm)
      as [pool [s' [E [L F]]]].
    exists pool, s'. split; [exact E|]. split; [exact L|].
    intros a Ha. rewrite Forall_forall in F.
    destruct (F a Ha) as (Hd & Hk & Hr & Hmid).
    repeat (split; try assumption).
    rewrite Hmid. apply (max_intensity_duration_close _ Hd).
Qed.

(** ** Draws from the pool *)

Section PatientSteps.

Variable rvs : Dist -> nat -> Q.

Lemma same_profile_refl : forall p, same_profile p p.
Proof. intros p. unfold same_profile. tauto. Qed.

Lemma same_profile_trans :
  forall p q r, same_profile p q -> same_profile q r -> same_profile p r.
Proof.
  unfold same_profile. intros p q r (A1 & A2 & A3 & A4 & A5)
    (B1 & B2 & B3 & B4 & B5).
  repeat split; congruence.
Qed.

Lemma same_profile_max_attacks :
  forall p p', same_profile p p' -> max_attacks p' = max_attacks p.
Proof.
  unfold same_profile, max_attacks. intros p p' (A1 & A2 & A3 & A4 & A5).
  rewrite A1, A3, A5. reflexivity.
Qed.

(** One draw from the pool. *)
Lemma draw_attack_ok :
  forall (p : Patient) (s : nat),
    patient_ok p -> 0 < max_attacks p ->
    exists p' s' a,
      draw_attack rvs p s = Ok (p', s')
      /\ patient_ok p' /\ same_profile p p'
      /\ attacks p' = (attacks p ++ [a])%list
      /\ nth_error (attack_pool p') (pool_index p' - 1) = Some a
      /\ (0 < pool_index p' <= List.length (attack_pool p'))%nat
      /\ List.length (attack_pool p') = List.length (attack_pool p)
      /\ ((List.length (attack_pool p) <= pool_index p)%nat ->
          pre_generate_attack_pool rvs p s
          = Ok (set_pool p (attack_pool p') 0%nat, s')
          /\ pool_index p' = 1%nat)
      /\ ((pool_index p < List.length (attack_pool p))%nat ->
          attack_pool p' = attack_pool p
          /\ pool_index p' = S (pool_index p) /\ s' = s).
Proof.
  intros p s (Hlen & Hidx & Hpool & Hatt & Hbouts) Hpos.
  unfold draw_attack, rbind.
  destruct (List.length (attack_pool p) <=? pool_index p)%nat eqn:E.
  - apply Nat.leb_le in E.
    destruct (pre_generate_attack_pool_ok rvs p s ltac:(lia))
      as [pool [s' [Egen [Lpool Fpool]]]].
    rewrite Egen. psimpl.
    destruct pool as [|a pool'].
    { cbn in Lpool. lia. }
    cbn [nth_error]. unfold ret.
    eexists. eexists. exists a. split; [reflexivity|].
    psimpl.
    split.
    { unfold patient_ok.
      psimpl.
      split; [exact Lpool|]. split; [cbn; lia|]. split; [exact Fpool|].
      split; [|exact Hbouts].
      apply Forall_app. split; [exact Hatt|].
      constructor; [|constructor]. inversion Fpool; assumption. }
    split; [unfold same_profile; cbn; tauto|].
    split; [reflexivity|]. split; [reflexivity|].
    split; [cbn; lia|]. split; [congruence|].
    split.
    + intros _. split; reflexivity.
    + intros Hlt. lia.
  - apply Nat.leb_gt in E. unfold ret.
    destruct (nth_error (attack_pool p) (pool_index p)) as [a|] eqn:En.
    2:{ apply nth_error_None in En. lia. }
    eexists. eexists. exists a. split; [reflexivity|].
    psimpl.
    split.
    { unfold patient_ok.
      psimpl.
      split; [exact Hlen|]. split; [lia|]. split; [exact Hpool|].
      split; [|exact Hbouts].
      apply Forall_app. split; [exact Hatt|].
      constructor; [|constructor].
      rewrite Forall_forall in Hpool. apply Hpool.
      eapply nth_error_In; eassumption. }
    split; [unfold same_profile; cbn; tauto|].
    split; [reflexivity|].
    split; [replace (S (pool_index p) - 1)%nat with (pool_index p) by lia;
            exact En|].
    split; [lia|]. split; [reflexivity|].
    split.
    + intros Hle. lia.
    + intros _. repeat split; reflexivity.
Qed.

Lemma draw_attacks_ok :
  forall (n : nat) (p : Patient) (daily : Z) (s : nat),
    patient_ok p -> 0 < max_attacks p ->
    exists p' s' l,
      draw_attacks rvs n p daily s = Ok (p', daily + Z.of_nat n, s')
      /\ patient_ok p' /\ same_profile p p'
      /\ attacks p' = (attacks p ++ l)%list
      /\ List.length l = n
      /\ List.length (attack_pool p') = List.length (attack_pool p).
Proof.
  induction n as [|n IH]; intros p daily s Hok Hpos.
  - exists p, s, []. cbn. unfold ret. rewrite Z.add_0_r, app_nil_r.
    split; [reflexivity|]. split; [exact Hok|].
    split; [apply same_profile_refl|]. repeat split.
  - destruct (draw_attack_ok p s Hok Hpos)
      as (p1 & s1 & a & E1 & Hok1 & Hsp1 & Hatt1 & _ & _ & Hlen1 & _).
    assert (Hpos1 : 0 < max_attacks p1)
      by (rewrite (same_profile_max_attacks p p1 Hsp1); exact Hpos).
    destruct (IH p1 (daily + 1) s1 Hok1 Hpos1)
      as (p2 & s2 & l & E2 & Hok2 & Hsp2 & Hatt2 & Hl & Hlen2).
    exists p2, s2, (a :: l).
    cbn [draw_attacks]. unfold rbind. rewrite E1, E2.
    split; [f_equal; f_equal; f_equal; lia|].
    split; [exact Hok2|].
    split; [eapply same_profile_trans; eassumption|].
    split; [rewrite Hatt2, Hatt1, <- app_assoc; reflexivity|].
    split; [cbn; congruence|congruence].
Qed.

Lemma generate_attacks_per_day_default :
  forall (fuel : nat) (ic it : bool) (s : nat),
    generate_attacks_per_day rvs (S fuel) ic it None s
    = Ok (Z.max 1 (Qround_half_even (rvs (LognormAttacksPerDay ic it) s)),
          S s).
Proof.
  intros fuel ic it s. unfold generate_attacks_per_day.
  destruct ic, it; reflexivity.
Qed.

Lemma generate_day_attacks_ok :
  forall (p : Patient) (s : nat),
    patient_ok p -> 0 < max_attacks p ->
    exists p' s' l,
      generate_day_attacks rvs p s
      = Ok (p',
            Z.max 1 (Qround_half_even
                       (rvs (LognormAttacksPerDay (is_chronic p)
                               (is_treated p)) s)),
            s')
      /\ patient_ok p' /\ same_profile p p'
      /\ attacks p' = (attacks p ++ l)%list
      /\ Z.of_nat (List.length l)
         = Z.max 1 (Qround_half_even
                      (rvs (LognormAttacksPerDay (is_chronic p)
                              (is_treated p)) s))
      /\ List.length (attack_pool p') = List.length (attack_pool p).
Proof.
  intros p s Hok Hpos. unfold generate_day_attacks, rbind.
  rewrite generate_attacks_per_day_default.
  set (n := Z.max 1 _).
  destruct (draw_attacks_ok (Z.to_nat n) p 0 (S s) Hok Hpos)
    as (p' & s' & l & E & Hok' & Hsp & Hatt & Hl & Hlen).
  exists p', s', l. rewrite E.
  assert (Hn : Z.of_nat (Z.to_nat n) = n) by (apply Z2Nat.id; lia).
  split; [rewrite Hn; reflexivity|].
  repeat (split; try assumption). rewrite Hl. exact Hn.
Qed.

Lemma simulate_days_ok :
  forall (n : nat) (p : Patient) (total : Z) (s : nat),
    patient_ok p -> (n = 0%nat \/ 0 < max_attacks p) ->
    exists p' s' l,
      simulate_days rvs n p total s
      = Ok (p', total + Z.of_nat (List.length l), s')
      /\ patient_ok p' /\ same_profile p p'
      /\ attacks p' = (attacks p ++ l)%list
      /\ (n <= List.length l)%nat.
Proof.
  induction n as [|n IH]; intros p total s Hok Hpos.
  - exists p, s, []. cbn. unfold ret. rewrite Z.add_0_r, app_nil_r.
    split; [reflexivity|]. split; [exact Hok|].
    split; [apply same_profile_refl|]. split; [reflexivity|lia].
  - destruct Hpos as [Hz|Hpos]; [discriminate|].
    destruct (generate_day_attacks_ok p s Hok Hpos)
      as (p1 & s1 & l1 & E1 & Hok1 & Hsp1 & Hatt1 & Hl1 & _).
    assert (Hpos1 : 0 < max_attacks p1)
      by (rewrite (same_profile_max_attacks p p1 Hsp1); exact Hpos).
    destruct (IH p1 (total + Z.of_nat (List.length l1)) s1 Hok1
                (or_intror Hpos1))
      as (p2 & s2 & l2 & E2 & Hok2 & Hsp2 & Hatt2 & Hl2).
    exists p2, s2, (l1 ++ l2)%list.
    cbn [simulate_days]. unfold rbind. rewrite E1. psimpl.
    rewrite <- Hl1, E2.
    split; [rewrite length_app; f_equal; f_equal; f_equal; lia|].
    split; [exact Hok2|].
    split; [eapply same_profile_trans; eassumption|].
    split; [rewrite Hatt2, Hatt1, <- app_assoc; reflexivity|].
    rewrite length_app. lia.
Qed.

Lemma simulate_bouts_ok :
  forall (durations : list Z) (p : Patient) (total : Z) (s : nat),
    patient_ok p ->
    (Forall (fun d => d <= 0) durations \/ 0 < max_attacks p) ->
    exists p' s' l,
      simulate_bouts rvs durations p total s
      = Ok (p', total + Z.of_nat (List.length l), s')
      /\ patient_ok p' /\ same_profile p p'
      /\ attacks p' = (attacks p ++ l)%list
      /\ Zsum (map (Z.max 0) durations) <= Z.of_nat (List.length l).
Proof.
  assert (Hsum : forall l a, fold_left Z.add l a = a + Zsum l).
  { unfold Zsum. induction l as [|x l IH]; intros a; cbn; [lia|].
    rewrite IH, (IH x). lia. }
  induction durations as [|d ds IH]; intros p total s Hok Hpos.
  - exists p, s, []. cbn. unfold ret. rewrite Z.add_0_r, app_nil_r.
    split; [reflexivity|]. split; [exact Hok|].
    split; [apply same_profile_refl|]. split; [reflexivity|].
    unfold Zsum. cbn. lia.
  - assert (Hd : Z.to_nat d = 0%nat \/ 0 < max_attacks p).
    { destruct Hpos as [Hf|Hpos]; [left|right; exact Hpos].
      inversion Hf; subst. lia. }
    destruct (simulate_days_ok (Z.to_nat d) p total s Hok Hd)
      as (p1 & s1 & l1 & E1 & Hok1 & Hsp1 & Hatt1 & Hl1).
    assert (Hpos1 : Forall (fun d => d <= 0) ds \/ 0 < max_attacks p1).
    { destruct Hpos as [Hf|Hpos]; [left; inversion Hf; assumption|right].
      rewrite (same_profile_max_attacks p p1 Hsp1). exact Hpos. }
    destruct (IH p1 (total + Z.of_nat (List.length l1)) s1 Hok1 Hpos1)
      as (p2 & s2 & l2 & E2 & Hok2 & Hsp2 & Hatt2 & Hl2).
    exists p2, s2, (l1 ++ l2)%list.
    cbn [simulate_bouts]. unfold rbind. rewrite E1. psimpl. rewrite E2.
    split; [rewrite length_app; f_equal; f_equal; f_equal; lia|].
    split; [exact Hok2|].
    split; [eapply same_profile_trans; eassumption|].
    split; [rewrite Hatt2, Hatt1, <- app_assoc; reflexivity|].
    rewrite length_app. unfold Zsum in *. cbn [map fold_left].
    rewrite Hsum. unfold Zsum. lia.
Qed.

Lemma Zsum_ge_1 :
  forall l : list Z, Forall (fun d => 1 <= d) l -> l <> [] -> 1 <= Zsum l.
Proof.
  assert (Hsum : forall l a, fold_left Z.add l a = a + Zsum l).
  { unfold Zsum. induction l as [|x l IH]; intros a; cbn; [lia|].
    rewrite IH, (IH x). lia. }
  assert (Hge : forall l, Forall (fun d => 1 <= d) l -> 0 <= Zsum l).
  { induction l as [|x l IH]; intros H; [unfold Zsum; cbn; lia|].
    inversion H; subst. unfold Zsum. cbn. rewrite Hsum.
    specialize (IH H3). lia. }
  intros [|x l] H Hne; [congruence|].
  inversion H; subst. unfold Zsum. cbn. rewrite Hsum.
  specialize (Hge l H3). lia.
Qed.

Lemma generate_year_of_attacks_ok :
  forall (p : Patient) (s : nat),
    patient_ok p ->
    exists p' s',
      generate_year_of_attacks rvs p s
      = Ok (p', Z.of_nat (List.length (attacks p')), s')
      /\ patient_ok p' /\ same_profile p p'.
Proof.
  intros p s Hok. unfold generate_year_of_attacks.
  assert (Hok0 : patient_ok (set_attacks p [])).
  { destruct Hok as (H1 & H2 & H3 & H4 & H5). unfold patient_ok. psimpl.
    repeat split; try assumption. constructor. }
  assert (Hm : max_attacks (set_attacks p []) = max_attacks p)
    by reflexivity.
  psimpl. destruct (is_chronic p) eqn:Hc.
  - destruct (simulate_days_ok (Z.to_nat (Z.min 365 (active_days p)))
                (set_attacks p []) 0 s Hok0)
      as (p' & s' & l & E & Hok' & Hsp & Hatt & _).
    { rewrite Hm. unfold max_attacks. rewrite Hc.
      destruct (Z_le_gt_dec (active_days p) 0); [left|right]; lia. }
    exists p', s'. rewrite E. psimpl. cbn in Hatt. rewrite Hatt.
    split; [reflexivity|]. split; [exact Hok'|exact Hsp].
  - destruct (simulate_bouts_ok (bout_durations p) (set_attacks p []) 0 s
                Hok0)
      as (p' & s' & l & E & Hok' & Hsp & Hatt & _).
    { rewrite Hm. unfold max_attacks. rewrite Hc.
      destruct (bout_durations p) as [|d ds] eqn:Hb; [left; constructor|].
      right. destruct Hok as (_ & _ & _ & _ & H5).
      specialize (H5 Hc). rewrite Hb in H5.
      assert (1 <= Zsum (d :: ds)) by (apply Zsum_ge_1; [exact H5|congruence]).
      lia. }
    exists p', s'. rewrite E. psimpl. cbn in Hatt. rewrite Hatt.
    split; [reflexivity|]. split; [exact Hok'|exact Hsp].
Qed.

End PatientSteps.

(** ** Construction of a patient *)

Section Construction.

Variable rvs : Dist -> nat -> Q.

Lemma generate_bout_durations_ok :
  forall (p : Patient) (s : nat) (l : list Z) (s' : nat),
    generate_bout_durations rvs p s = Ok (l, s') ->
    Forall (fun d => 1 <= d) l.
Proof.
  intros p s l s' H. unfold generate_bout_durations in H.
  destruct (Qceiling (annual_bouts p) <? 0); [discriminate H|].
  unfold rbind in H.
  destruct (rvs_n rvs LognormBoutDuration _ s) as [[ds s1]|e];
    [|discriminate H].
  assert (Hall : forall ds0 : list Q,
             Forall (fun d => 1 <= d)
               (map (fun duration => Z.max 1 (Qtrunc (duration * 7))) ds0)).
  { intros ds0. apply Forall_forall. intros d Hd. apply in_map_iff in Hd.
    destruct Hd as [x [<- _]]. lia. }
  destruct (negb _).
  - destruct (scale_last ds _) as [ds'|]; [|discriminate H].
    unfold ret in H. inversion H; subst. apply Hall.
  - unfold ret in H. inversion H; subst. apply Hall.
Qed.

Lemma Patient_init_ok :
  forall (ic it : bool) (s : nat) (p : Patient) (s' : nat),
    Patient_init rvs ic it s = Ok (p, s') ->
    patient_ok p /\ is_chronic p = ic /\ is_treated p = it
    /\ attacks p = [] /\ pool_index p = 0%nat /\ 0 <= max_attacks p.
Proof.
  intros ic it s p s' H. unfold Patient_init, rbind in H.
  destruct (generate_profile rvs _ s) as [[p1 s1]|e] eqn:Ep;
    [|discriminate H].
  assert (Hp1 : is_chronic p1 = ic /\ is_treated p1 = it /\ attacks p1 = []
                /\ (ic = false -> Forall (fun d => 1 <= d)
                                    (bout_durations p1))).
  { unfold generate_profile, rbind in Ep. psimpl. destruct ic.
    - unfold generate_chronic_active_days, rbind, rvs1, ret in Ep.
      inversion Ep; subst. psimpl. repeat split; try reflexivity.
      discriminate.
    - unfold rvs1 in Ep.
      destruct (generate_bout_durations rvs _ (S s)) as [[ds s2]|e] eqn:Eb;
        [|discriminate Ep].
      unfold ret in Ep. inversion Ep; subst. psimpl.
      repeat split; try reflexivity. intros _.
      eapply generate_bout_durations_ok. exact Eb. }
  destruct Hp1 as (Hc & Ht & Ha & Hb).
  destruct (Z_lt_ge_dec (max_attacks p1) 0) as [Hneg|Hpos].
  - rewrite (pre_generate_attack_pool_negative rvs p1 s1 Hneg) in H.
    discriminate H.
  - destruct (pre_generate_attack_pool_ok rvs p1 s1 ltac:(lia))
      as (pool & s2 & E & L & F).
    rewrite E in H. inversion H; subst p s'.
    unfold patient_ok. psimpl.
    change (max_attacks (set_pool p1 pool 0%nat)) with (max_attacks p1).
    rewrite Ha.
    split; [|repeat split; try assumption; try reflexivity; lia].
    split; [exact L|]. split; [lia|]. split; [exact F|].
    split; [constructor|]. intros Hf. apply Hb. congruence.
Qed.

End Construction.

Lemma busy_patient_ok : patient_ok busy_patient.
Proof.
  assert (H : Patient_init busy_rvs false true 0%nat
              = Ok (busy_patient, 147%nat)) by (vm_compute; reflexivity).
  apply (Patient_init_ok busy_rvs false true 0%nat busy_patient 147%nat H).
Qed.



(** ** Intensity buckets *)

Lemma Qround_half_even_Z :
  forall (q : Q) (k : Z), (q == inject_Z k)%Q -> Qround_half_even q = k.
Proof.
  intros q k H. unfold Qround_half_even.
  assert (Hf : Qfloor q = k) by (rewrite H; apply Qfloor_Z).
  rewrite Hf.
  assert (Hr : (q - inject_Z k ?= 1 # 2)%Q = Lt).
  { apply Qlt_alt. rewrite H. unfold Qminus. rewrite Qplus_opp_r.
    reflexivity. }
  rewrite Hr. reflexivity.
Qed.

Lemma Qround1_one_decimal :
  forall (q : Q) (k : Z),
    (q == inject_Z k / 10)%Q -> Qround1 q = (inject_Z k / 10)%Q.
Proof.
  intros q k H. unfold Qround1.
  rewrite (Qround_half_even_Z (q * 10) k); [reflexivity|].
  rewrite H. field.
Qed.

Lemma empty_minutes_list_buckets :
  forall k : Z, 0 <= k <= 100 ->
    qdict_get empty_minutes_list (inject_Z k / 10)%Q = Some [].
Proof.
  intros k Hk.
  assert (H : forallb
                (fun n =>
                   match qdict_get empty_minutes_list
                           (inject_Z (Z.of_nat n) / 10)%Q with
                   | Some [] => true
                   | _ => false
                   end) (seq 0 101) = true) by (vm_compute; reflexivity).
  rewrite forallb_forall in H.
  specialize (H (Z.to_nat k) ltac:(apply in_seq; lia)).
  rewrite Z2Nat.id in H by lia.
  destruct (qdict_get empty_minutes_list (inject_Z k / 10)%Q) as [[|x l]|];
    [reflexivity|discriminate H|discriminate H].
Qed.

Lemma qdict_get_set_other :
  forall (V : Type) (d : qdict V) (k k' : Q) (v : V),
    qdict_get d k' <> None -> qdict_get (qdict_set d k v) k' <> None.
Proof.
  intros V d k k' v. induction d as [|[k0 v0] d IH]; cbn; [congruence|].
  destruct (Qeq_bool k0 k) eqn:E; cbn.
  - destruct (Qeq_bool k0 k'); [discriminate|auto].
  - destruct (Qeq_bool k0 k'); [discriminate|auto].
Qed.

Lemma qdict_set_keys :
  forall (V : Type) (d : qdict V) (k : Q) (v : V) (k' : Q) (v' : V),
    In (k', v') (qdict_set d k v) ->
    k' = k \/ In k' (map fst d).
Proof.
  intros V d k v k' v'. induction d as [|[k0 v0] d IH]; cbn.
  - intros [H|[]]. inversion H. left. reflexivity.
  - destruct (Qeq_bool k0 k) eqn:E; cbn.
    + intros [H|H]; [inversion H; right; left; reflexivity|].
      right. right. apply in_map_iff. exists (k', v'). split; auto.
    + intros [H|H]; [inversion H; right; left; reflexivity|].
      destruct (IH H) as [Hk|Hk]; [left; exact Hk|right; right; exact Hk].
Qed.

Lemma calculate_intensity_minutes_keys :
  forall (p : Patient) (key : Q) (minutes : Z),
    In (key, minutes) (calculate_intensity_minutes p) ->
    exists a, In a (attacks p) /\ key = Qround1 (max_intensity a).
Proof.
  intros p key minutes. unfold calculate_intensity_minutes.
  assert (G : forall (l : list Attack) (d : qdict Z),
             In key
               (map fst
                  (fold_left
                     (fun intensity_minutes attack =>
                        let intensity := Qround1 (max_intensity attack) in
                        qdict_set intensity_minutes intensity
                          (qdict_get0 intensity_minutes intensity
                           + max_intensity_duration attack)) l d)) ->
             In key (map fst d)
             \/ exists a, In a l /\ key = Qround1 (max_intensity a)).
  { induction l as [|a l IH]; intros d H; cbn in H; [left; exact H|].
    destruct (IH _ H) as [Hd|[a' [Ha' Hk]]].
    - apply in_map_iff in Hd. destruct Hd as [[k0 v0] [Hk0 Hin]].
      cbn in Hk0. subst k0.
      destruct (qdict_set_keys _ _ _ _ _ _ Hin) as [Hk|Hk].
      + right. exists a. split; [left; reflexivity|exact Hk].
      + left. exact Hk.
    - right. exists a'. split; [right; exact Ha'|exact Hk]. }
  intros H.
  destruct (G (attacks p) []) as [[]|Hex]; [|exact Hex].
  apply in_map_iff. exists (key, minutes). split; [reflexivity|exact H].
Qed.

Lemma intensity_key_ok :
  forall (p : Patient) (key : Q) (minutes : Z),
    Forall attack_ok (attacks p) ->
    In (key, minutes) (calculate_intensity_minutes p) ->
    exists k : Z, 10 <= k <= 100 /\ key = (inject_Z k / 10)%Q.
Proof.
  intros p key minutes Hok Hin.
  destruct (calculate_intensity_minutes_keys p key minutes Hin)
    as [a [Ha ->]].
  rewrite Forall_forall in Hok.
  destruct (Hok a Ha) as (_ & [k [Hk Hq]] & _).
  exists k. split; [exact Hk|]. apply Qround1_one_decimal. exact Hq.
Qed.

Lemma add_patient_minutes_ok :
  forall (items : qdict Z) (total : qdict Z) (lists : qdict (list Z)),
    (forall key minutes, In (key, minutes) items ->
       exists k : Z, 10 <= k <= 100 /\ key = (inject_Z k / 10)%Q) ->
    has_buckets lists ->
    exists total' lists',
      add_patient_minutes items total lists = Ok (total', lists')
      /\ has_buckets lists'.
Proof.
  induction items as [|[key minutes] items IH]; intros total lists Hk Hb.
  - exists total, lists. split; [reflexivity|exact Hb].
  - cbn [add_patient_minutes].
    destruct (Hk key minutes (or_introl eq_refl)) as [k [Hk1 ->]].
    rewrite (Qround1_one_decimal (inject_Z k / 10) k) by reflexivity.
    destruct (qdict_get lists (inject_Z k / 10)%Q) as [l|] eqn:E.
    2:{ exfalso. apply (Hb k); [lia|exact E]. }
    apply IH.
    + intros key' m' Hin. apply (Hk key' m'). right. exact Hin.
    + intros k' Hk'. apply qdict_get_set_other. apply Hb. exact Hk'.
Qed.

Lemma add_group_minutes_ok :
  forall (group_patients : list Patient) (total : qdict Z)
         (lists : qdict (list Z)),
    Forall (fun p => Forall attack_ok (attacks p)) group_patients ->
    has_buckets lists ->
    exists total' lists',
      add_group_minutes group_patients total lists = Ok (total', lists')
      /\ has_buckets lists'.
Proof.
  induction group_patients as [|p ps IH]; intros total lists Hok Hb.
  - exists total, lists. split; [reflexivity|exact Hb].
  - inversion Hok; subst. cbn [add_group_minutes].
    destruct (add_patient_minutes_ok (calculate_intensity_minutes p) total
                lists) as (t1 & l1 & E1 & Hb1).
    { intros key minutes Hin. eapply intensity_key_ok; eassumption. }
    { exact Hb. }
    rewrite E1. cbn [bind fst snd]. apply IH; assumption.
Qed.

Lemma empty_has_buckets : has_buckets empty_minutes_list.
Proof.
  intros k Hk. rewrite (empty_minutes_list_buckets k Hk). discriminate.
Qed.

Section Year.

Variable rvs : Dist -> nat -> Q.

Lemma simulate_year_ok :
  forall (population : list Patient) (s : nat),
    Forall patient_ok population ->
    exists population' s',
      simulate_year rvs population s = Ok (population', s')
      /\ Forall patient_ok population'
      /\ Forall2 same_profile population population'.
Proof.
  induction population as [|p ps IH]; intros s Hok.
  - exists [], s. repeat split; constructor.
  - inversion Hok; subst.
    destruct (generate_year_of_attacks_ok rvs p s H1)
      as (p' & s1 & E & Hok' & Hsp).
    destruct (IH s1 H2) as (ps' & s2 & E2 & Hok2 & Hsp2).
    exists (p' :: ps'), s2. cbn [simulate_year]. unfold rbind.
    rewrite E, E2. unfold ret. cbn [fst].
    split; [reflexivity|]. split; constructor; assumption.
Qed.

End Year.

(** C10.  After [simulate_year] on patients in a state the class maintains,
    every key of every patient's [calculate_intensity_minutes] dict is
    [k / 10] for an integer [10 <= k <= 100] and is one of the 101 bucket
    keys of [intensity_minutes_list], so the accumulation loop of the
    aggregation returns without [KeyError] for every group. *)
Theorem intensity_keys_in_buckets :
  forall (rvs : Dist -> nat -> Q) (population : list Patient) (s : nat),
    Forall patient_ok population ->
    exists population' s',
      simulate_year rvs population s = Ok (population', s')
      /\ (forall p key minutes,
             In p population' ->
             In (key, minutes) (calculate_intensity_minutes p) ->
             (exists k : Z, 10 <= k <= 100 /\ key = (inject_Z k / 10)%Q)
             /\ qdict_get empty_minutes_list (Qround1 key) = Some [])
      /\ (forall condition : Patient -> bool,
             exists r,
               add_group_minutes (filter condition population') []
                 empty_minutes_list = Ok r).
Proof.
  intros rvs population s Hok.
  destruct (simulate_year_ok rvs population s Hok)
    as (population' & s' & E & Hok' & _).
  exists population', s'. split; [exact E|]. split.
  - intros p key minutes Hp Hin.
    rewrite Forall_forall in Hok'.
    destruct (intensity_key_ok p key minutes) as [k [Hk Hkey]];
      [apply (Hok' p Hp)|exact Hin|].
    split; [exists k; split; assumption|].
    subst key. rewrite (Qround1_one_decimal (inject_Z k / 10) k)
      by reflexivity.
    apply empty_minutes_list_buckets. lia.
  - intros condition.
    destruct (add_group_minutes_ok (filter condition population') []
                empty_minutes_list) as (t & l & Eg & _).
    + apply Forall_forall. intros p Hp. apply filter_In in Hp.
      rewrite Forall_forall in Hok'. apply (Hok' p (proj1 Hp)).
    + apply empty_has_buckets.
    + exists (t, l). exact Eg.
Qed.

Lemma intensity_keys_in_buckets_witness :
  exists population' s',
    simulate_year busy_rvs [busy_patient] 147%nat = Ok (population', s')
    /\ (forall p key minutes,
           In p population' ->
           In (key, minutes) (calculate_intensity_minutes p) ->
           (exists k : Z, 10 <= k <= 100 /\ key = (inject_Z k / 10)%Q)
           /\ qdict_get empty_minutes_list (Qround1 key) = Some [])
    /\ (forall condition : Patient -> bool,
           exists r,
             add_group_minutes (filter condition population') []
               empty_minutes_list = Ok r).
Proof.
  apply (intensity_keys_in_buckets busy_rvs [busy_patient] 147%nat).
  constructor; [exact busy_patient_ok|constructor].
Defined.

(** ** Group curves *)

Lemma mapM_ok :
  forall (A B : Type) (f : A -> result B) (l : list A),
    (forall a, In a l -> exists b, f a = Ok b) ->
    exists bs, mapM f l = Ok bs /\ List.length bs = List.length l.
Proof.
  intros A B f l. induction l as [|a l IH]; intros H.
  - exists []. split; reflexivity.
  - destruct (H a (or_introl eq_refl)) as [b Hb].
    destruct IH as [bs [Hbs Hl]]; [intros a' Ha'; apply H; right; exact Ha'|].
    exists (b :: bs). cbn [mapM]. rewrite Hb, Hbs. cbn.
    split; [reflexivity|congruence].
Qed.

Lemma mapM_const :
  forall (A B : Type) (f : A -> result B) (l : list A) (c : B),
    (forall a, In a l -> f a = Ok c) ->
    mapM f l = Ok (repeat c (List.length l)).
Proof.
  intros A B f l c. induction l as [|a l IH]; intros H; [reflexivity|].
  cbn [mapM]. rewrite (H a (or_introl eq_refl)).
  rewrite IH by (intros a' Ha'; apply H; right; exact Ha').
  reflexivity.
Qed.

Lemma intensities_buckets :
  forall i : Q, In i intensities ->
    exists k : Z, 0 <= k <= 100 /\ Qround1 i = (inject_Z k / 10)%Q.
Proof.
  intros i Hi.
  assert (H : forallb
                (fun i => let z := Qround_half_even (i * 10) in
                          (0 <=? z) && (z <=? 100)) intensities = true)
    by (vm_compute; reflexivity).
  rewrite forallb_forall in H. specialize (H i Hi). cbv zeta in H.
  apply andb_true_iff in H. destruct H as [H1 H2].
  exists (Qround_half_even (i * 10)). split; [lia|reflexivity].
Qed.

Lemma average_entry_ok :
  forall (total : qdict Z) (n : Z) (i : Q),
    n <> 0 -> exists a, average_entry total n i = Ok a.
Proof.
  intros total n i Hn. unfold average_entry.
  destruct (qdict_get total (Qround1 i)); [eexists; reflexivity|].
  unfold py_int_truediv. apply Z.eqb_neq in Hn. rewrite Hn.
  cbn. eexists; reflexivity.
Qed.

Section Curves.

Variable np_std : list Z -> float.

Lemma std_entry_ok :
  forall (lists : qdict (list Z)) (i : Q),
    has_buckets lists -> In i intensities ->
    exists v, std_entry np_std lists i = Ok v.
Proof.
  intros lists i Hb Hi. unfold std_entry.
  destruct (intensities_buckets i Hi) as [k [Hk ->]].
  destruct (qdict_get lists (inject_Z k / 10)%Q) as [[|x l]|] eqn:E.
  - eexists; reflexivity.
  - eexists; reflexivity.
  - exfalso. apply (Hb k Hk E).
Qed.

Lemma group_curves_ok :
  forall (name : string) (total : qdict Z) (lists : qdict (list Z)) (n : Z),
    n <> 0 -> has_buckets lists ->
    exists g,
      group_curves np_std name total lists n = Ok g
      /\ group_name g = name /\ n_patients g = n
      /\ List.length (intensity_minutes_average g) = 101%nat
      /\ List.length (intensity_minutes_std g) = 101%nat
      /\ List.length (intensity_minutes_total g) = 101%nat.
Proof.
  intros name total lists n Hn Hb. unfold group_curves.
  destruct (mapM_ok _ _ (average_entry total n) intensities)
    as [avg [Ea La]]; [intros i _; apply average_entry_ok; exact Hn|].
  destruct (mapM_ok _ _ (std_entry np_std lists) intensities)
    as [std [Es Ls]]; [intros i Hi; apply std_entry_ok; assumption|].
  rewrite Ea, Es. cbn [bind]. eexists. split; [reflexivity|].
  cbn [group_name n_patients intensity_minutes_average
         intensity_minutes_std intensity_minutes_total].
  rewrite La, Ls, length_map.
  repeat split; reflexivity.
Qed.

Lemma group_curves_empty :
  forall (name : string) (lists : qdict (list Z)),
    group_curves np_std name [] lists 0 = Raise ZeroDivisionError.
Proof.
  intros name lists. unfold group_curves.
  replace (mapM (average_entry [] 0) intensities)
    with (@Raise (list float) ZeroDivisionError)
    by (vm_compute; reflexivity).
  reflexivity.
Qed.

Lemma group_curves_zero :
  forall (name : string) (n : Z),
    0 < n ->
    group_curves np_std name [] empty_minutes_list n
    = Ok (mkGroupData name (repeat 0%float 101) (repeat (PyInt 0) 101)
            (repeat 0 101) n).
Proof.
  intros name n Hn. unfold group_curves.
  rewrite (mapM_const _ _ (average_entry [] n) intensities 0%float).
  2:{ intros i _. unfold average_entry, py_int_truediv. cbn [qdict_get].
      destruct (n =? 0) eqn:E; [apply Z.eqb_eq in E; lia|].
      destruct (n <? 0) eqn:E'; [apply Z.ltb_lt in E'; lia|reflexivity]. }
  rewrite (mapM_const _ _ (std_entry np_std empty_minutes_list) intensities
             (PyInt 0)).
  2:{ intros i Hi. unfold std_entry.
      destruct (intensities_buckets i Hi) as [k [Hk ->]].
      rewrite (empty_minutes_list_buckets k Hk). reflexivity. }
  cbn [bind]. f_equal.
Qed.

End Curves.

(** ** Bout frequency of episodic patients *)

Lemma Qeq_bool_trans_l :
  forall a b c : Q, Qeq_bool a b = true -> Qeq_bool a c = Qeq_bool b c.
Proof.
  intros a b c H. apply Qeq_bool_iff in H.
  destruct (Qeq_bool b c) eqn:E.
  - apply Qeq_bool_iff in E. apply Qeq_bool_iff. rewrite H. exact E.
  - destruct (Qeq_bool a c) eqn:E'; [|reflexivity].
    apply Qeq_bool_iff in E'. rewrite H in E'.
    apply Qeq_bool_iff in E'. congruence.
Qed.

Lemma qdict_get_set :
  forall (V : Type) (d : qdict V) (k k' : Q) (v : V),
    qdict_get (qdict_set d k v) k'
    = if Qeq_bool k k' then Some v else qdict_get d k'.
Proof.
  intros V d k k' v. induction d as [|[k0 v0] d IH]; cbn.
  - reflexivity.
  - destruct (Qeq_bool k0 k) eqn:E; cbn.
    + rewrite (Qeq_bool_trans_l k0 k k' E).
      destruct (Qeq_bool k k'); reflexivity.
    + destruct (Qeq_bool k0 k') eqn:E'.
      * destruct (Qeq_bool k k') eqn:E''; [|reflexivity].
        exfalso. apply Qeq_bool_iff in E', E''.
        assert (H : Qeq_bool k0 k = true)
          by (apply Qeq_bool_iff; rewrite E', E''; reflexivity).
        congruence.
      * exact IH.
Qed.

Lemma Qsum_acc :
  forall (l : list Q) (a : Q), (fold_left Qplus l a == a + Qsum l)%Q.
Proof.
  unfold Qsum. induction l as [|x l IH]; intros a; cbn.
  - ring.
  - rewrite IH, (IH (0 + x)%Q). ring.
Qed.

Lemma Qsum_cons : forall (x : Q) (l : list Q), (Qsum (x :: l) == x + Qsum l)%Q.
Proof.
  intros x l. unfold Qsum at 1. cbn. rewrite Qsum_acc. ring.
Qed.

Lemma normalize_ok :
  forall (items : qdict Q) (total : Q) (d : qdict Q),
    normalize items total = Ok d ->
    d = map (fun kv => (fst kv, snd kv / total)%Q) items
    /\ (items <> [] -> ~ (total == 0)%Q).
Proof.
  induction items as [|[k v] items IH]; intros total d H; cbn in H.
  - inversion H. split; [reflexivity|congruence].
  - destruct (Qeq_bool total 0) eqn:E; [discriminate H|].
    destruct (normalize items total) as [rest|] eqn:En; [|discriminate H].
    cbn in H. inversion H; subst d.
    destruct (IH total rest En) as [-> _].
    split; [reflexivity|]. intros _ Hz.
    apply Qeq_bool_iff in Hz. congruence.
Qed.


Lemma Qsum_scaled :
  forall (items : qdict Q) (total : Q),
    ~ (total == 0)%Q ->
    (Qsum (map snd (map (fun kv => (fst kv, snd kv / total)%Q) items))
     == Qsum (map snd items) / total)%Q.
Proof.
  intros items total Ht. induction items as [|[k v] items IH]; cbn [map].
  - unfold Qsum. cbn. field. exact Ht.
  - rewrite !Qsum_cons, IH. cbn [snd]. field. exact Ht.
Qed.

Lemma add_study_keys :
  forall (dist combined : qdict Q) (weight k : Q),
    has_key (add_study combined dist weight) k
    <-> has_key combined k \/ has_key dist k.
Proof.
  unfold add_study, has_key.
  induction dist as [|[b p] dist IH]; intros combined weight k; cbn.
  - tauto.
  - rewrite IH, qdict_get_set. cbn [fst snd].
    destruct (Qeq_bool b k); split; intros H.
    + right. discriminate.
    + left. discriminate.
    + destruct H as [H|H]; [left; exact H|right; exact H].
    + destruct H as [H|H]; [left; exact H|right; exact H].
Qed.

Lemma add_studies_keys :
  forall (data : list Study) (total_n : Z) (combined d : qdict Q) (k : Q),
    add_studies data total_n combined = Ok d ->
    (has_key d k
     <-> has_key combined k
         \/ exists study, In study data /\ has_key (study_dist study) k).
Proof.
  induction data as [|st data IH]; intros total_n combined d k H; cbn in H.
  - inversion H; subst. split; [tauto|]. intros [H'|[st [[] _]]]. exact H'.
  - destruct (total_n =? 0); [discriminate H|].
    rewrite (IH _ _ _ k H), add_study_keys. split.
    + intros [[H'|H']|[st' [Hin Hk]]].
      * left. exact H'.
      * right. exists st. split; [left; reflexivity|exact H'].
      * right. exists st'. split; [right; exact Hin|exact Hk].
    + intros [H'|[st' [[<-|Hin] Hk]]].
      * left. left. exact H'.
      * left. right. exact Hk.
      * right. exists st'. split; assumption.
Qed.

Lemma map_scaled_get :
  forall (items : qdict Q) (total k : Q),
    has_key (map (fun kv => (fst kv, snd kv / total)%Q) items) k
    <-> has_key items k.
Proof.
  unfold has_key. induction items as [|[k0 v0] items IH]; intros total k; cbn.
  - tauto.
  - destruct (Qeq_bool k0 k); [split; discriminate|apply IH].
Qed.

(** X1.  The combined bout-frequency table is a probability distribution on
    the union of the studies' supports: when the combination of [data]
    returns a non-empty dict, its values sum to 1 in exact arithmetic, and
    a number of bouts is a key of the result exactly when it is a key of
    some study's table. *)
Theorem combined_bout_frequency_normalised :
  forall (data : list Study) (d : qdict Q),
    combine_bout_frequency data = Ok d ->
    (d <> [] -> (Qsum (map snd d) == 1)%Q)
    /\ (forall k : Q,
           qdict_get d k <> None
           <-> exists study, In study data
                             /\ qdict_get (study_dist study) k <> None).
Proof.
  intros data d H. unfold combine_bout_frequency in H.
  destruct (add_studies data _ []) as [combined|] eqn:Ec; [|discriminate H].
  cbn [bind] in H.
  destruct (normalize_ok _ _ _ H) as [-> Hnz]. split.
  - intros Hne.
    assert (Hc : combined <> []) by (intros ->; apply Hne; reflexivity).
    rewrite Qsum_scaled by (apply Hnz; exact Hc).
    field. apply Hnz. exact Hc.
  - intros k.
    pose proof (map_scaled_get combined (Qsum (map snd combined)) k) as H1.
    pose proof (add_studies_keys _ _ _ _ k Ec) as H2.
    unfold has_key in H1, H2. rewrite H1, H2.
    split; [intros [H'|H']; [exfalso; apply H'; reflexivity|exact H']|].
    intros H'. right. exact H'.
Qed.

Lemma combined_bout_frequency_normalised_witness :
  (Qsum (map snd
     (match combine_bout_frequency bout_frequency_data with
      | Ok d => d
      | Raise _ => []
      end)) == 1)%Q.
Proof.
  destruct (combine_bout_frequency bout_frequency_data) as [d|e] eqn:E.
  - apply (combined_bout_frequency_normalised bout_frequency_data d E).
    intros ->. vm_compute in E. discriminate E.
  - vm_compute in E. discriminate E.
Defined.


(** ** Untreated estimates *)

Section Untreated.

Local Open Scope R_scope.

(** X3.  [estimate_untreated] keeps the coefficient of variation, so on the
    log-normal fit it acts as a shift: for positive [mean], [std] and
    [effect], fitting the untreated estimates gives the [sigma] of the
    treated fit and its [mu] plus [ln effect]. *)
Theorem untreated_fit_shifts_mu :
  forall mean std effect : R,
    0 < mean -> 0 < std -> 0 < effect ->
    exists mu sigma,
      fit_lognormal mean std = Ok (mu, sigma)
      /\ estimate_untreated mean std effect
         = Ok (mean * effect, mean * effect * (std / mean))
      /\ fit_lognormal (mean * effect) (mean * effect * (std / mean))
         = Ok (mu + ln effect, sigma).
Proof.
  intros mean std effect Hm Hs He.
  assert (Hm2 : 0 < mean ^ 2) by (apply pow_lt; exact Hm).
  assert (Hme : 0 < mean * effect) by (apply Rmult_lt_0_compat; assumption).
  assert (Hme2 : 0 < (mean * effect) ^ 2) by (apply pow_lt; exact Hme).
  assert (Hv : 0 < std ^ 2) by (apply pow_lt; exact Hs).
  assert (Hsum : 0 < std ^ 2 + mean ^ 2) by lra.
  assert (Hsq : 0 < sqrt (std ^ 2 + mean ^ 2))
    by (apply sqrt_lt_R0; exact Hsum).
  exists (ln (mean ^ 2 / sqrt (std ^ 2 + mean ^ 2))),
         (sqrt (ln (1 + std ^ 2 / mean ^ 2))).
  split; [|split].
  - unfold fit_lognormal.
    destruct (Req_dec_T (mean ^ 2) 0) as [E|_]; [lra|reflexivity].
  - unfold estimate_untreated.
    destruct (Req_dec_T mean 0) as [E|_]; [lra|reflexivity].
  - unfold fit_lognormal.
    destruct (Req_dec_T ((mean * effect) ^ 2) 0) as [E|_]; [lra|].
    f_equal. f_equal.
    + set (u := mean * effect * (std / mean)).
      assert (Hu : u ^ 2 + (mean * effect) ^ 2
                   = effect ^ 2 * (std ^ 2 + mean ^ 2))
        by (unfold u; field; lra).
      rewrite Hu.
      rewrite sqrt_mult by (try apply pow2_ge_0; lra).
      replace (effect ^ 2) with (Rsqr effect) by (unfold Rsqr; ring).
      rewrite sqrt_Rsqr by lra.
      replace ((mean * effect) ^ 2 / (effect * sqrt (std ^ 2 + mean ^ 2)))
        with (mean ^ 2 / sqrt (std ^ 2 + mean ^ 2) * effect)
        by (field; split; lra).
      rewrite ln_mult; [reflexivity| |exact He].
      apply Rdiv_lt_0_compat; assumption.
    + f_equal. f_equal. f_equal. field. split; lra.
Qed.

Lemma untreated_fit_shifts_mu_witness :
  exists mu sigma,
    fit_lognormal 3.1 2.1 = Ok (mu, sigma)
    /\ estimate_untreated 3.1 2.1 1.05
       = Ok (3.1 * 1.05, 3.1 * 1.05 * (2.1 / 3.1))
    /\ fit_lognormal (3.1 * 1.05) (3.1 * 1.05 * (2.1 / 3.1))
       = Ok (mu + ln 1.05, sigma).
Proof.
  apply (untreated_fit_shifts_mu 3.1 2.1 1.05); lra.
Defined.

End Untreated.

(** ** Attacks per day *)

Lemma Qround_half_even_monotone :
  forall q c : Q, (q <= c)%Q -> Qround_half_even q <= Qround_half_even c.
Proof.
  intros q c H.
  assert (Hf : Qfloor q <= Qfloor c) by (apply Qfloor_resp_le; exact H).
  assert (Hq : Qfloor q <= Qround_half_even q <= Qfloor q + 1).
  { unfold Qround_half_even. destruct (_ ?= _)%Q; [|lia|lia].
    destruct (Z.even _); lia. }
  assert (Hc : Qfloor c <= Qround_half_even c <= Qfloor c + 1).
  { unfold Qround_half_even. destruct (_ ?= _)%Q; [|lia|lia].
    destruct (Z.even _); lia. }
  destruct (Z.eq_dec (Qfloor q) (Qfloor c)) as [E|N]; [|lia].
  unfold Qround_half_even. rewrite <- E.
  assert (Hr : (q - inject_Z (Qfloor q) <= c - inject_Z (Qfloor q))%Q).
  { unfold Qminus. apply Qplus_le_compat; [exact H|apply Qle_refl]. }
  destruct (q - inject_Z (Qfloor q) ?= 1 # 2)%Q eqn:E1;
    destruct (c - inject_Z (Qfloor q) ?= 1 # 2)%Q eqn:E2;
    try (destruct (Z.even (Qfloor q)); lia); try lia; exfalso.
  - (* q's remainder = 1/2, c's < 1/2 *)
    apply Qeq_alt in E1. apply Qlt_alt in E2. rewrite E1 in Hr.
    apply (Qlt_irrefl (1 # 2)). eapply Qle_lt_trans; eassumption.
  - apply Qgt_alt in E1. apply Qeq_alt in E2. rewrite E2 in Hr.
    apply (Qlt_irrefl (1 # 2)). eapply Qlt_le_trans; eassumption.
  - apply Qgt_alt in E1. apply Qlt_alt in E2.
    apply (Qlt_irrefl (1 # 2)).
    eapply Qlt_trans; [exact E1|]. eapply Qle_lt_trans; eassumption.
Qed.

Section AttacksPerDay.

Variable rvs : Dist -> nat -> Q.

Lemma attacks_loop_ok :
  forall (fuel : nat) (d : Dist) (cap : option Q) (s : nat) (x : Q)
         (s' : nat),
    attacks_loop rvs fuel d cap s = Ok (x, s') ->
    (s < s' <= s + fuel)%nat
    /\ x = rvs d (s' - 1)
    /\ accepted cap x
    /\ forall j, (s <= j < s' - 1)%nat -> ~ accepted cap (rvs d j).
Proof.
  induction fuel as [|fuel IH]; intros d cap s x s' H; cbn in H.
  - discriminate H.
  - unfold rbind, rvs1 in H.
    destruct (match cap with
              | Some cap0 => Qle_bool (rvs d s) cap0
              | None => true
              end) eqn:E.
    + unfold ret in H. inversion H; subst.
      replace (S s - 1)%nat with s by lia.
      split; [lia|]. split; [reflexivity|]. split.
      * destruct cap as [c|]; [apply Qle_bool_iff; exact E|exact I].
      * intros j Hj. lia.
    + destruct (IH d cap (S s) x s' H) as (H1 & H2 & H3 & H4).
      split; [lia|]. split; [exact H2|]. split; [exact H3|].
      intros j Hj. destruct (Nat.eq_dec j s) as [->|Hne].
      * destruct cap as [c|]; [|discriminate E]. cbn.
        intros Hle. apply Qle_bool_iff in Hle. congruence.
      * apply H4. lia.
Qed.

Lemma attacks_loop_total :
  forall (fuel : nat) (d : Dist) (cap : option Q) (s j : nat),
    (s <= j < s + fuel)%nat -> accepted cap (rvs d j) ->
    exists x s', attacks_loop rvs fuel d cap s = Ok (x, s')
                 /\ (s' <= S j)%nat.
Proof.
  induction fuel as [|fuel IH]; intros d cap s j Hj Ha; [lia|].
  cbn [attacks_loop]. unfold rbind, rvs1.
  destruct (match cap with
            | Some cap0 => Qle_bool (rvs d s) cap0
            | None => true
            end) eqn:E.
  - eexists. eexists. split; [reflexivity|lia].
  - destruct (Nat.eq_dec j s) as [->|Hne].
    + exfalso. destruct cap as [c|]; [|discriminate E]. cbn in Ha.
      apply Qle_bool_iff in Ha. congruence.
    + apply (IH d cap (S s) j); [lia|exact Ha].
Qed.

(** X4.  [generate_attacks_per_day] is a rejection sampler: when it returns
    [n] it has consumed at least one draw, [n] is the last draw rounded and
    raised to at least 1, and with a cap [max_daily_ch] the accepted draw is
    at most the cap, [n] is at most [max 1 (round cap)], and every earlier
    draw exceeded the cap. *)
Theorem attacks_per_day_bounds :
  forall (fuel : nat) (is_chronic is_treated : bool) (cap : option Q)
         (s : nat) (n : Z) (s' : nat),
    generate_attacks_per_day rvs fuel is_chronic is_treated cap s
    = Ok (n, s') ->
    1 <= n
    /\ (s < s' <= s + fuel)%nat
    /\ n = Z.max 1 (Qround_half_even
                      (rvs (LognormAttacksPerDay is_chronic is_treated)
                         (s' - 1)))
    /\ (forall c : Q,
           cap = Some c ->
           (rvs (LognormAttacksPerDay is_chronic is_treated) (s' - 1) <= c)%Q
           /\ n <= Z.max 1 (Qround_half_even c)
           /\ forall j, (s <= j < s' - 1)%nat ->
                (c < rvs (LognormAttacksPerDay is_chronic is_treated) j)%Q).
Proof.
  intros fuel ic it cap s n s' H.
  unfold generate_attacks_per_day, rbind in H.
  assert (Hd : (if ic
                then if it then LognormAttacksPerDay true true
                     else LognormAttacksPerDay true false
                else if it then LognormAttacksPerDay false true
                     else LognormAttacksPerDay false false)
               = LognormAttacksPerDay ic it) by (destruct ic, it; reflexivity).
  rewrite Hd in H.
  destruct (attacks_loop rvs fuel _ cap s) as [[x s1]|e] eqn:E;
    [|discriminate H].
  unfold ret in H. inversion H; subst n s1.
  destruct (attacks_loop_ok _ _ _ _ _ _ E) as (H1 & H2 & H3 & H4).
  split; [lia|]. split; [exact H1|]. split; [rewrite H2; reflexivity|].
  intros c ->. cbn in H3. split; [rewrite <- H2; exact H3|]. split.
  - pose proof (Qround_half_even_monotone x c H3). lia.
  - intros j Hj. apply Qnot_le_lt. exact (H4 j Hj).
Qed.

End AttacksPerDay.

Lemma attacks_per_day_bounds_witness :
  1 <= 8
  /\ (0 < 3 <= 0 + 5)%nat
  /\ 8 = Z.max 1 (Qround_half_even
                    (falling_rvs (LognormAttacksPerDay true false)
                       (3 - 1)%nat))
  /\ (forall c : Q,
         Some 8%Q = Some c ->
         (falling_rvs (LognormAttacksPerDay true false) (3 - 1)%nat <= c)%Q
         /\ 8 <= Z.max 1 (Qround_half_even c)
         /\ forall j, (0 <= j < 3 - 1)%nat ->
              (c < falling_rvs (LognormAttacksPerDay true false) j)%Q).
Proof.
  apply (attacks_per_day_bounds falling_rvs 5 true false (Some 8%Q) 0%nat 8
           3%nat).
  vm_compute. reflexivity.
Defined.

(** ** Bout durations *)

Section BoutDurations.

Variable rvs : Dist -> nat -> Q.

Lemma rvs_n_eq :
  forall (d : Dist) (size s : nat),
    rvs_n rvs d size s
    = Ok (map (fun i => rvs d (s + i)%nat) (seq 0 size), (s + size)%nat).
Proof.
  intros d size. induction size as [|n IH]; intros s.
  - cbn. unfold ret. rewrite Nat.add_0_r. reflexivity.
  - cbn [rvs_n]. unfold rbind, rvs1. rewrite IH. unfold ret.
    cbn [seq map]. rewrite Nat.add_0_r. f_equal. f_equal.
    + f_equal. rewrite <- seq_shift, map_map. apply map_ext.
      intros i. f_equal. lia.
    + lia.
Qed.

Lemma scale_last_spec :
  forall (l : list Q) (x f : Q),
    scale_last (l ++ [x]) f = Some (l ++ [(x * f)%Q])%list.
Proof.
  induction l as [|y l IH]; intros x f; [reflexivity|].
  cbn [app scale_last]. rewrite IH.
  destruct (l ++ [x])%list eqn:E; [destruct l; discriminate E|reflexivity].
Qed.

Lemma Qceiling_pos : forall q : Q, (0 < q)%Q -> 1 <= Qceiling q.
Proof.
  intros q H. assert (H' : (0 < inject_Z (Qceiling q))%Q).
  { eapply Qlt_le_trans; [exact H|apply Qle_ceiling]. }
  change 0%Q with (inject_Z 0) in H'. rewrite <- Zlt_Qlt in H'. lia.
Qed.

Lemma Qceiling_nonneg : forall q : Q, (0 <= q)%Q -> 0 <= Qceiling q.
Proof.
  intros q H. assert (H' : (0 <= inject_Z (Qceiling q))%Q).
  { eapply Qle_trans; [exact H|apply Qle_ceiling]. }
  change 0%Q with (inject_Z 0) in H'. rewrite <- Zle_Qle in H'. exact H'.
Qed.

(** X5.  [Patient.generate_bout_durations]: for a non-negative
    [annual_bouts] it consumes [ceil(annual_bouts)] draws and returns as
    many durations, each at least one day; all but the last are the draws
    in days, and the last is scaled by the fractional part of
    [annual_bouts] when there is one.  A ceiling below zero makes the
    sampler raise [ValueError], and a negative fraction above -1 makes
    [n_bouts[-1]] raise [IndexError]. *)
Theorem bout_durations_spec :
  (forall (p : Patient) (s : nat),
      (0 <= annual_bouts p)%Q ->
      let n := Z.to_nat (Qceiling (annual_bouts p)) in
      let partial :=
        (annual_bouts p - inject_Z (Qtrunc (annual_bouts p)))%Q in
      exists l,
        generate_bout_durations rvs p s = Ok (l, (s + n)%nat)
        /\ List.length l = n
        /\ Forall (fun d => 1 <= d) l
        /\ (forall i, (S i < n)%nat ->
              nth i l 0 = days_of (rvs LognormBoutDuration (s + i)%nat))
        /\ ((0 < n)%nat ->
            nth (n - 1) l 0
            = if Qeq_bool (annual_bouts p)
                   (inject_Z (Qtrunc (annual_bouts p)))
              then days_of (rvs LognormBoutDuration (s + (n - 1))%nat)
              else days_of (rvs LognormBoutDuration (s + (n - 1))%nat
                            * partial)%Q))
  /\ (forall (p : Patient) (s : nat),
         Qceiling (annual_bouts p) < 0 ->
         generate_bout_durations rvs p s = Raise ValueError)
  /\ (forall (p : Patient) (s : nat),
         Qceiling (annual_bouts p) = 0 ->
         ~ (annual_bouts p == 0)%Q ->
         generate_bout_durations rvs p s = Raise IndexError).
Proof.
  split; [|split].
  - intros p s Hab n partial. unfold generate_bout_durations.
    pose proof (Qceiling_nonneg _ Hab) as Hc.
    destruct (Qceiling (annual_bouts p) <? 0) eqn:E;
      [apply Z.ltb_lt in E; lia|].
    unfold rbind. rewrite rvs_n_eq. fold n.
    set (draws := map (fun i => rvs LognormBoutDuration (s + i)%nat)
                    (seq 0 n)).
    assert (Hlen : List.length draws = n)
      by (unfold draws; rewrite length_map, length_seq; reflexivity).
    assert (Hnth : forall i, (i < n)%nat ->
               nth i draws 0%Q = rvs LognormBoutDuration (s + i)%nat).
    { intros i Hi. unfold draws.
      set (f := fun i => rvs LognormBoutDuration (s + i)%nat).
      rewrite (nth_indep (map f (seq 0 n)) 0%Q (f 0%nat))
        by (rewrite length_map, length_seq; exact Hi).
      rewrite (map_nth f (seq 0 n) 0%nat i), seq_nth by exact Hi.
      reflexivity. }
    assert (Hall : forall ds0 : list Q,
               Forall (fun d => 1 <= d) (map days_of ds0)).
    { intros ds0. apply Forall_forall. intros d Hd. apply in_map_iff in Hd.
      destruct Hd as [x [<- _]]. unfold days_of. lia. }
    assert (Hmapnth : forall (ds0 : list Q) i,
               (i < List.length ds0)%nat ->
               nth i (map days_of ds0) 0 = days_of (nth i ds0 0%Q)).
    { intros ds0 i Hi.
      rewrite (nth_indep (map days_of ds0) 0 (days_of 0%Q))
        by (rewrite length_map; exact Hi).
      apply (map_nth days_of ds0 0%Q i). }
    change (fun duration : Q => Z.max 1 (Qtrunc (duration * 7)))
      with days_of.
    destruct (Qeq_bool (annual_bouts p) (inject_Z (Qtrunc (annual_bouts p))))
      eqn:Eint; cbn [negb].
    + unfold ret. exists (map days_of draws).
      split; [reflexivity|]. split; [rewrite length_map; exact Hlen|].
      split; [apply Hall|]. split.
      * intros i Hi. rewrite Hmapnth, Hnth by lia. reflexivity.
      * intros Hn. rewrite Hmapnth, Hnth by lia. reflexivity.
    + assert (Hpos : (0 < annual_bouts p)%Q).
      { apply Qle_lt_or_eq in Hab. destruct Hab as [H|H]; [exact H|].
        exfalso. assert (Ht : Qeq_bool (annual_bouts p)
                                (inject_Z (Qtrunc (annual_bouts p))) = true).
        { apply Qeq_bool_iff.
          assert (Hnum : Qnum (annual_bouts p) = 0).
          { unfold Qeq in H. cbn in H. lia. }
          unfold Qtrunc. rewrite Hnum. cbn. symmetry. exact H. }
        congruence. }
      assert (Hn : (1 <= n)%nat).
      { pose proof (Qceiling_pos _ Hpos). unfold n. lia. }
      destruct (exists_last (l := draws)) as [front [x Hd]].
      { intros Hnil. rewrite Hnil in Hlen. cbn in Hlen. lia. }
      rewrite Hd, scale_last_spec. unfold ret.
      exists (map days_of (front ++ [(x * partial)%Q])).
      assert (Hfl : List.length front = (n - 1)%nat).
      { rewrite Hd, length_app in Hlen. cbn in Hlen. lia. }
      split; [reflexivity|].
      split; [rewrite length_map, length_app; cbn; lia|].
      split; [apply Hall|]. split.
      * intros i Hi.
        rewrite Hmapnth by (rewrite length_app; cbn; lia).
        rewrite app_nth1 by lia.
        rewrite <- (Hnth i) by lia. rewrite Hd, app_nth1 by lia.
        reflexivity.
      * intros _.
        rewrite Hmapnth by (rewrite length_app; cbn; lia).
        rewrite <- Hfl, nth_middle. f_equal. f_equal.
        rewrite <- (Hnth (List.length front)) by lia.
        rewrite Hd, nth_middle. reflexivity.
  - intros p s H. unfold generate_bout_durations.
    apply Z.ltb_lt in H. rewrite H. reflexivity.
  - intros p s H Hnz. unfold generate_bout_durations. rewrite H.
    cbn [Z.ltb Z.compare Z.to_nat rvs_n]. unfold rbind, ret.
    destruct (Qeq_bool (annual_bouts p) (inject_Z (Qtrunc (annual_bouts p))))
      eqn:Eint; [|reflexivity].
    exfalso. apply Qeq_bool_iff in Eint.
    (* an integer whose ceiling is 0 is 0 *)
    assert (Hc : Qceiling (inject_Z (Qtrunc (annual_bouts p))) = 0)
      by (rewrite <- Eint; exact H).
    unfold Qceiling in Hc.
    assert (Hf : Qfloor (- inject_Z (Qtrunc (annual_bouts p)))
                 = - Qtrunc (annual_bouts p)).
    { rewrite <- inject_Z_opp. apply Qfloor_Z. }
    rewrite Hf in Hc. apply Hnz. rewrite Eint.
    replace (Qtrunc (annual_bouts p)) with 0 by lia. reflexivity.
Qed.

End BoutDurations.

(** ** The constructor of a patient *)

(** X6.  [Patient.__init__]: a constructed patient has the requested flags,
    no attack, a fresh pool of exactly [max_attacks] attacks that satisfy
    the pool invariants; a chronic patient has [min(int(draw), 365)] active
    days, between 0 and 365, and eight pool attacks per active day; an
    episodic patient has the drawn [annual_bouts], bouts of at least one
    day, and eight pool attacks per bout day. *)
Theorem patient_constructor :
  forall (rvs : Dist -> nat -> Q) (ic it : bool) (s : nat) (p : Patient)
         (s' : nat),
    Patient_init rvs ic it s = Ok (p, s') ->
    is_chronic p = ic /\ is_treated p = it
    /\ attacks p = [] /\ pool_index p = 0%nat
    /\ Z.of_nat (List.length (attack_pool p)) = max_attacks p
    /\ Forall attack_ok (attack_pool p)
    /\ (ic = true ->
        active_days p = Z.min (Qtrunc (rvs LognormActiveDays s)) 365
        /\ 0 <= active_days p <= 365
        /\ Z.of_nat (List.length (attack_pool p)) = active_days p * 8)
    /\ (ic = false ->
        annual_bouts p = rvs BoutsPerYear s
        /\ Forall (fun d => 1 <= d) (bout_durations p)
        /\ Z.of_nat (List.length (attack_pool p))
           = Zsum (bout_durations p) * 8).
Proof.
  intros rvs ic it s p s' H.
  destruct (Patient_init_ok rvs ic it s p s' H)
    as ((Hlen & _ & Hpool & _ & Hb) & Hc & Ht & Ha & Hi & Hm).
  assert (Hsize : Z.of_nat (List.length (attack_pool p)) = max_attacks p)
    by (rewrite Hlen; apply Z2Nat.id; exact Hm).
  repeat (split; [assumption|]). split.
  - intros ->. unfold Patient_init, rbind in H. cbn [generate_profile
      is_chronic] in H.
    unfold generate_chronic_active_days, rbind, rvs1, ret in H.
    unfold pre_generate_attack_pool in H.
    destruct (max_attacks _ <? 0); [discriminate H|].
    unfold rbind in H.
    destruct (generate_max_pain_intensity _ _ _ _) as [[mi s1]|];
      [|discriminate H].
    destruct (generate_attack_duration _ _ _ _ _ _) as [[td s2]|];
      [|discriminate H].
    unfold ret in H. inversion H; subst p s'. psimpl.
    unfold max_attacks in Hm, Hsize. psimpl.
    split; [reflexivity|]. split; [lia|exact Hsize].
  - intros ->. unfold Patient_init, rbind in H. cbn [generate_profile
      is_chronic] in H. unfold rbind, rvs1 in H.
    destruct (generate_bout_durations _ _ _) as [[ds s1]|]; [|discriminate H].
    unfold ret in H.
    unfold pre_generate_attack_pool in H.
    destruct (max_attacks _ <? 0); [discriminate H|].
    unfold rbind in H.
    destruct (generate_max_pain_intensity _ _ _ _) as [[mi s2]|];
      [|discriminate H].
    destruct (generate_attack_duration _ _ _ _ _ _) as [[td s3]|];
      [|discriminate H].
    unfold ret in H. inversion H; subst p s'. psimpl.
    unfold max_attacks in Hsize. psimpl.
    split; [reflexivity|]. split; [apply Hb; reflexivity|exact Hsize].
Qed.

Lemma patient_constructor_witness :
  is_chronic busy_patient = false /\ is_treated busy_patient = true
  /\ attacks busy_patient = [] /\ pool_index busy_patient = 0%nat
  /\ Z.of_nat (List.length (attack_pool busy_patient))
     = max_attacks busy_patient
  /\ Forall attack_ok (attack_pool busy_patient)
  /\ (false = true ->
      active_days busy_patient
      = Z.min (Qtrunc (busy_rvs LognormActiveDays 0%nat)) 365
      /\ 0 <= active_days busy_patient <= 365
      /\ Z.of_nat (List.length (attack_pool busy_patient))
         = active_days busy_patient * 8)
  /\ (false = false ->
      annual_bouts busy_patient = busy_rvs BoutsPerYear 0%nat
      /\ Forall (fun d => 1 <= d) (bout_durations busy_patient)
      /\ Z.of_nat (List.length (attack_pool busy_patient))
         = Zsum (bout_durations busy_patient) * 8).
Proof.
  apply (patient_constructor busy_rvs false true 0%nat busy_patient 147%nat).
  vm_compute. reflexivity.
Defined.

(** ** The year of attacks *)

Lemma Zsum_acc : forall (l : list Z) (a : Z), fold_left Z.add l a = a + Zsum l.
Proof.
  unfold Zsum. induction l as [|x l IH]; intros a; cbn; [lia|].
  rewrite IH, (IH x). lia.
Qed.

Lemma Zsum_cons : forall (x : Z) (l : list Z), Zsum (x :: l) = x + Zsum l.
Proof. intros x l. unfold Zsum at 1. cbn. apply Zsum_acc. Qed.

Lemma Zsum_max0 :
  forall l : list Z, Zsum l <= Zsum (map (Z.max 0) l).
Proof.
  induction l as [|x l IH]; [reflexivity|].
  change (map (Z.max 0) (x :: l)) with (Z.max 0 x :: map (Z.max 0) l).
  rewrite (Zsum_cons x l), (Zsum_cons (Z.max 0 x) (map (Z.max 0) l)).
  set (a := Zsum l) in *. set (b := Zsum (map (Z.max 0) l)) in *.
  clearbody a b. lia.
Qed.

Lemma generate_year_of_attacks_count :
  forall (rvs : Dist -> nat -> Q) (p : Patient) (s : nat),
    patient_ok p ->
    exists p' s',
      generate_year_of_attacks rvs p s
      = Ok (p', Z.of_nat (List.length (attacks p')), s')
      /\ patient_ok p'
      /\ same_profile p p'
      /\ (is_chronic p = true ->
          Z.min 365 (active_days p) <= Z.of_nat (List.length (attacks p')))
      /\ (is_chronic p = false ->
          Zsum (bout_durations p) <= Z.of_nat (List.length (attacks p'))).
Proof.
  intros rvs p s Hok. unfold generate_year_of_attacks.
  assert (Hok0 : patient_ok (set_attacks p [])).
  { destruct Hok as (H1 & H2 & H3 & H4 & H5). unfold patient_ok. psimpl.
    repeat split; try assumption. constructor. }
  assert (Hm : max_attacks (set_attacks p []) = max_attacks p)
    by reflexivity.
  assert (Hsp0 : same_profile p (set_attacks p []))
    by (unfold same_profile; psimpl; tauto).
  psimpl. destruct (is_chronic p) eqn:Hc.
  - destruct (simulate_days_ok rvs (Z.to_nat (Z.min 365 (active_days p)))
                (set_attacks p []) 0 s Hok0)
      as (p' & s' & l & E & Hok' & Hsp & Hatt & Hl).
    { rewrite Hm. unfold max_attacks. rewrite Hc.
      destruct (Z_le_gt_dec (active_days p) 0); [left|right]; lia. }
    exists p', s'. rewrite E. psimpl. cbn in Hatt. rewrite Hatt.
    split; [reflexivity|].
    split; [exact Hok'|].
    split; [exact (same_profile_trans _ _ _ Hsp0 Hsp)|].
    split; [intros _; lia|intros Hf; discriminate Hf].
  - destruct (simulate_bouts_ok rvs (bout_durations p) (set_attacks p []) 0 s
                Hok0)
      as (p' & s' & l & E & Hok' & Hsp & Hatt & Hl).
    { rewrite Hm. unfold max_attacks. rewrite Hc.
      destruct (bout_durations p) as [|d ds] eqn:Hb; [left; constructor|].
      right. destruct Hok as (_ & _ & _ & _ & H5).
      specialize (H5 Hc). rewrite Hb in H5.
      assert (1 <= Zsum (d :: ds)) by (apply Zsum_ge_1; [exact H5|congruence]).
      lia. }
    exists p', s'. rewrite E. psimpl. cbn in Hatt. rewrite Hatt.
    split; [reflexivity|].
    split; [exact Hok'|].
    split; [exact (same_profile_trans _ _ _ Hsp0 Hsp)|].
    split; [intros Hf; discriminate Hf|]. intros _.
    pose proof (Zsum_max0 (bout_durations p)). lia.
Qed.

(** X7.  [Patient.generate_year_of_attacks] on a patient in a state the
    class maintains returns, the returned total is the number of attacks
    recorded, the profile is unchanged, every recorded attack satisfies the
    pool invariants, and there is at least one attack per simulated day:
    [min(365, active_days)] for a chronic patient, the sum of the bout
    durations for an episodic one. *)
Theorem year_of_attacks_counts :
  forall (rvs : Dist -> nat -> Q) (p : Patient) (s : nat),
    patient_ok p ->
    exists p' s',
      generate_year_of_attacks rvs p s
      = Ok (p', Z.of_nat (List.length (attacks p')), s')
      /\ same_profile p p'
      /\ Forall attack_ok (attacks p')
      /\ (is_chronic p = true ->
          Z.min 365 (active_days p) <= Z.of_nat (List.length (attacks p')))
      /\ (is_chronic p = false ->
          Zsum (bout_durations p) <= Z.of_nat (List.length (attacks p'))).
Proof.
  intros rvs p s Hok.
  destruct (generate_year_of_attacks_count rvs p s Hok)
    as (p' & s' & E & Hok' & Hsp & Hc & He).
  exists p', s'. split; [exact E|]. split; [exact Hsp|].
  split; [|split; assumption].
  destruct Hok' as (_ & _ & _ & Ha & _). exact Ha.
Qed.

Lemma year_of_attacks_counts_witness :
  exists p' s',
    generate_year_of_attacks busy_rvs busy_patient 147%nat
    = Ok (p', Z.of_nat (List.length (attacks p')), s')
    /\ same_profile busy_patient p'
    /\ Forall attack_ok (attacks p')
    /\ (is_chronic busy_patient = true ->
        Z.min 365 (active_days busy_patient)
        <= Z.of_nat (List.length (attacks p')))
    /\ (is_chronic busy_patient = false ->
        Zsum (bout_durations busy_patient)
        <= Z.of_nat (List.length (attacks p'))).
Proof.
  exact (year_of_attacks_counts busy_rvs busy_patient 147%nat
           busy_patient_ok).
Defined.

(** ** Conservation of minutes *)

Lemma qdict_set_add_sum :
  forall (d : qdict Z) (k : Q) (v : Z),
    Zsum (map snd (qdict_set d k (qdict_get0 d k + v)))
    = Zsum (map snd d) + v.
Proof.
  unfold qdict_get0. induction d as [|[k0 v0] d IH]; intros k v.
  - reflexivity.
  - cbn [qdict_get qdict_set]. destruct (Qeq_bool k0 k).
    + cbn [map snd]. rewrite !Zsum_cons. lia.
    + cbn [map snd]. rewrite !Zsum_cons, IH. lia.
Qed.

Lemma intensity_minutes_fold :
  forall (l : list Attack) (d : qdict Z),
    Zsum (map snd
            (fold_left
               (fun intensity_minutes attack =>
                  let intensity := Qround1 (max_intensity attack) in
                  qdict_set intensity_minutes intensity
                    (qdict_get0 intensity_minutes intensity
                     + max_intensity_duration attack)) l d))
    = Zsum (map snd d) + attack_minutes l.
Proof.
  unfold attack_minutes.
  induction l as [|a l IH]; intros d; cbn [fold_left map].
  - unfold Zsum at 3. cbn. lia.
  - rewrite IH. cbv zeta. rewrite qdict_set_add_sum, Zsum_cons. lia.
Qed.

Lemma calculate_intensity_minutes_sum :
  forall p : Patient,
    Zsum (map snd (calculate_intensity_minutes p))
    = attack_minutes (attacks p).
Proof.
  intros p. unfold calculate_intensity_minutes.
  rewrite intensity_minutes_fold. reflexivity.
Qed.

(** X8.  [Patient.calculate_intensity_minutes] conserves minutes: the
    values of the returned dict sum to the minutes at maximum intensity of
    the patient's attacks, however the attacks share intensity keys, and
    every key of the dict is the one-decimal rounding of the maximum
    intensity of one of the attacks. *)
Theorem intensity_minutes_conserved :
  forall p : Patient,
    Zsum (map snd (calculate_intensity_minutes p))
    = attack_minutes (attacks p)
    /\ (forall key : Q,
           qdict_get (calculate_intensity_minutes p) key <> None ->
           exists a, In a (attacks p)
                     /\ Qeq_bool (Qround1 (max_intensity a)) key = true).
Proof.
  intros p. split; [apply calculate_intensity_minutes_sum|].
  unfold calculate_intensity_minutes.
  assert (G : forall (l : list Attack) (d : qdict Z) (key : Q),
             qdict_get
               (fold_left
                  (fun intensity_minutes attack =>
                     let intensity := Qround1 (max_intensity attack) in
                     qdict_set intensity_minutes intensity
                       (qdict_get0 intensity_minutes intensity
                        + max_intensity_duration attack)) l d) key <> None ->
             qdict_get d key <> None
             \/ exists a, In a l
                          /\ Qeq_bool (Qround1 (max_intensity a)) key = true).
  { induction l as [|a l IH]; intros d key H; cbn [fold_left] in H.
    - left. exact H.
    - destruct (IH _ _ H) as [H'|[a' [Hin Hk]]].
      + cbv zeta in H'. rewrite qdict_get_set in H'.
        destruct (Qeq_bool (Qround1 (max_intensity a)) key) eqn:E.
        * right. exists a. split; [left; reflexivity|exact E].
        * left. exact H'.
      + right. exists a'. split; [right; exact Hin|exact Hk]. }
  intros key H. destruct (G _ _ _ H) as [H'|H']; [|exact H'].
  exfalso. apply H'. reflexivity.
Qed.

Lemma tenth_eqb :
  forall j k : Z, Qeq_bool (inject_Z j / 10) (inject_Z k / 10) = (j =? k).
Proof.
  intros j k. destruct (j =? k) eqn:E.
  - apply Z.eqb_eq in E. subst. apply Qeq_bool_iff. reflexivity.
  - apply Z.eqb_neq in E. destruct (Qeq_bool _ _) eqn:E'; [|reflexivity].
    exfalso. apply E. apply Qeq_bool_iff in E'.
    unfold Qeq in E'. cbn in E'. lia.
Qed.

Lemma sum_update :
  forall (g : Z -> Z) (j v : Z) (ks : list Z),
    NoDup ks ->
    Zsum (map (fun k => if j =? k then v else g k) ks)
    = Zsum (map g ks) + (if in_dec Z.eq_dec j ks then v - g j else 0).
Proof.
  intros g j v ks. induction ks as [|k ks IH]; intros Hnd.
  - reflexivity.
  - inversion Hnd; subst. specialize (IH H2).
    change (map ?f (k :: ks)) with (f k :: map f ks).
    rewrite !Zsum_cons, IH.
    destruct (in_dec Z.eq_dec j (k :: ks)) as [Hin|Hnin];
      destruct (in_dec Z.eq_dec j ks) as [Hin'|Hnin'];
      destruct (j =? k) eqn:E;
      try (apply Z.eqb_eq in E; subst j); try (apply Z.eqb_neq in E);
      try lia; exfalso; cbn [In] in *; intuition congruence.
Qed.

Lemma bucket_keys_NoDup : NoDup bucket_keys.
Proof.
  assert (H : forall l : list nat, NoDup l -> NoDup (map Z.of_nat l)).
  { induction l as [|a l IH]; intros Hl; [constructor|].
    inversion Hl; subst. cbn. constructor; [|apply IH; assumption].
    intros Hin. apply in_map_iff in Hin. destruct Hin as [b [Hb Hin]].
    apply Nat2Z.inj in Hb. subst b. contradiction. }
  unfold bucket_keys. apply H. apply seq_NoDup.
Qed.

Lemma bucket_keys_In : forall k : Z, 0 <= k <= 100 -> In k bucket_keys.
Proof.
  intros k Hk. unfold bucket_keys. apply in_map_iff.
  exists (Z.to_nat k). split; [lia|apply in_seq; lia].
Qed.

Lemma bucket_sum_add :
  forall (d : qdict Z) (k m : Z),
    0 <= k <= 100 ->
    bucket_sum (qdict_set d (inject_Z k / 10)%Q
                  (qdict_get0 d (inject_Z k / 10)%Q + m))
    = bucket_sum d + m.
Proof.
  intros d k m Hk. unfold bucket_sum.
  rewrite (map_ext _
             (fun k' => if k =? k'
                        then qdict_get0 d (inject_Z k / 10)%Q + m
                        else qdict_get0 d (inject_Z k' / 10)%Q)).
  2:{ intros k'. unfold qdict_get0 at 1. rewrite qdict_get_set, tenth_eqb.
      destruct (k =? k'); reflexivity. }
  rewrite (sum_update (fun k' => qdict_get0 d (inject_Z k' / 10)%Q))
    by apply bucket_keys_NoDup.
  destruct (in_dec Z.eq_dec k bucket_keys) as [_|Hn]; [lia|].
  exfalso. apply Hn. apply bucket_keys_In. exact Hk.
Qed.

Lemma add_patient_minutes_sum :
  forall (items : qdict Z) (total : qdict Z) (lists : qdict (list Z))
         (total' : qdict Z) (lists' : qdict (list Z)),
    (forall key minutes, In (key, minutes) items ->
       exists k : Z, 10 <= k <= 100 /\ key = (inject_Z k / 10)%Q) ->
    add_patient_minutes items total lists = Ok (total', lists') ->
    bucket_sum total' = bucket_sum total + Zsum (map snd items).
Proof.
  induction items as [|[key minutes] items IH];
    intros total lists total' lists' Hk H.
  - cbn in H. inversion H; subst. cbn [map]. change (Zsum []) with 0. lia.
  - cbn [add_patient_minutes] in H.
    destruct (Hk key minutes (or_introl eq_refl)) as [k [Hk1 ->]].
    rewrite (Qround1_one_decimal (inject_Z k / 10) k) in H by reflexivity.
    destruct (qdict_get lists (inject_Z k / 10)%Q) as [l|];
      [|discriminate H].
    rewrite (IH _ _ _ _ (fun key' m' Hin => Hk key' m' (or_intror Hin)) H).
    rewrite bucket_sum_add by lia.
    cbn [map snd]. rewrite Zsum_cons. lia.
Qed.

Lemma add_group_minutes_sum :
  forall (group : list Patient) (total : qdict Z) (lists : qdict (list Z))
         (total' : qdict Z) (lists' : qdict (list Z)),
    Forall (fun p => Forall attack_ok (attacks p)) group ->
    add_group_minutes group total lists = Ok (total', lists') ->
    bucket_sum total'
    = bucket_sum total
      + Zsum (map (fun p => attack_minutes (attacks p)) group).
Proof.
  induction group as [|p ps IH]; intros total lists total' lists' Hok H.
  - cbn in H. inversion H; subst. cbn [map]. change (Zsum []) with 0. lia.
  - inversion Hok; subst. cbn [add_group_minutes] in H.
    destruct (add_patient_minutes (calculate_intensity_minutes p) total
                lists) as [[t1 l1]|] eqn:E1; [|discriminate H].
    cbn [bind fst snd] in H.
    rewrite (IH _ _ _ _ H3 H).
    rewrite (add_patient_minutes_sum _ _ _ _ _
               (fun key minutes Hin => intensity_key_ok p key minutes H2 Hin)
               E1).
    rewrite calculate_intensity_minutes_sum.
    cbn [map]. rewrite Zsum_cons. lia.
Qed.

Lemma total_curve_is_bucket_sum :
  forall total : qdict Z,
    Zsum (map (fun i => qdict_get0 total (Qround1 i)) intensities)
    = bucket_sum total.
Proof.
  intros total. unfold bucket_sum.
  assert (H : map Qround1 intensities
              = map (fun k => (inject_Z k / 10)%Q) bucket_keys)
    by (vm_compute; reflexivity).
  rewrite <- (map_map Qround1 (qdict_get0 total)), H, map_map.
  reflexivity.
Qed.

Lemma group_curves_total :
  forall (np_std : list Z -> float) (name : string) (t : qdict Z)
         (l : qdict (list Z)) (n : Z) (g : GroupData),
    group_curves np_std name t l n = Ok g ->
    intensity_minutes_total g
    = map (fun i => qdict_get0 t (Qround1 i)) intensities.
Proof.
  intros np_std name t l n g. unfold group_curves.
  destruct (mapM (average_entry t n) intensities) as [avg|];
    [|discriminate].
  destruct (mapM (std_entry np_std l) intensities) as [std|];
    [|discriminate].
  intros H. injection H as <-. reflexivity.
Qed.

(** X9.  The aggregation of [Simulation.calculate_results] conserves
    minutes: when a group is aggregated, the entries of its
    [intensity_minutes_total] curve sum to the minutes at maximum intensity
    of all attacks of the group's patients, so no minute falls outside the
    101 intensity levels. *)
Theorem total_curve_conserves_minutes :
  forall (np_std : list Z -> float) (population : list Patient)
         (ch_groups : groups_dict) (name : string)
         (condition : Patient -> bool) (g : GroupData)
         (years std_years : list float),
    Forall (fun p => Forall attack_ok (attacks p)) population ->
    calculate_group_results np_std population ch_groups name condition
    = Ok (g, years, std_years) ->
    Zsum (intensity_minutes_total g)
    = Zsum (map (fun p => attack_minutes (attacks p))
              (filter condition population)).
Proof.
  intros np_std population ch_groups name condition g years std_years Hok H.
  unfold calculate_group_results in H.
  destruct (add_group_minutes (filter condition population) []
              empty_minutes_list) as [[t l]|] eqn:E; [|discriminate H].
  cbn [bind fst snd] in H.
  destruct (group_curves np_std name t l _) as [g0|] eqn:Eg;
    [|discriminate H].
  cbn [bind] in H.
  destruct (dict_get ch_groups name) as [gt|]; [|discriminate H].
  cbn [bind] in H. injection H as Hg _ _. subst g0.
  rewrite (group_curves_total np_std _ _ _ _ _ Eg).
  rewrite total_curve_is_bucket_sum.
  rewrite (add_group_minutes_sum _ _ _ _ _
             ltac:(apply Forall_forall; intros p Hp; apply filter_In in Hp;
                   rewrite Forall_forall in Hok; apply (Hok p (proj1 Hp)))
             E).
  reflexivity.
Qed.

Lemma busy_patient_after_year_ok :
  Forall attack_ok (attacks busy_patient_after_year).
Proof.
  destruct (generate_year_of_attacks_ok busy_rvs busy_patient 147%nat
              busy_patient_ok) as (p' & s' & E & Hok & _).
  assert (H : generate_year_of_attacks busy_rvs busy_patient 147%nat
              = Ok (busy_patient_after_year, 300, 1878%nat))
    by (vm_compute; reflexivity).
  rewrite H in E. injection E as <- _ _. apply Hok.
Qed.

Lemma total_curve_conserves_minutes_witness :
  exists g years std_years,
    calculate_group_results (fun _ => 0%float) [busy_patient_after_year]
      scenario_groups "Episodic Treated"
      (fun p => negb (is_chronic p) && is_treated p)
    = Ok (g, years, std_years)
    /\ Zsum (intensity_minutes_total g)
       = Zsum (map (fun p => attack_minutes (attacks p))
                 (filter (fun p => negb (is_chronic p) && is_treated p)
                    [busy_patient_after_year])).
Proof.
  destruct (calculate_group_results (fun _ => 0%float)
              [busy_patient_after_year] scenario_groups "Episodic Treated"
              (fun p => negb (is_chronic p) && is_treated p))
    as [[[g years] std_years]|e] eqn:E.
  - exists g, years, std_years. split; [reflexivity|].
    apply (total_curve_conserves_minutes (fun _ => 0%float)
             [busy_patient_after_year] scenario_groups "Episodic Treated"
             (fun p => negb (is_chronic p) && is_treated p) g years
             std_years).
    + constructor; [exact busy_patient_after_year_ok|constructor].
    + exact E.
  - vm_compute in E. discriminate E.
Defined.

(** ** The intensity scales *)

Section Scales.

Local Open Scope R_scope.

Lemma np_power_nonneg : forall x p : R, 0 <= np_power x p.
Proof.
  intros x p. unfold np_power.
  destruct (Req_dec_T x 0); [destruct (Req_dec_T p 0); lra|].
  unfold Rpower. left. apply exp_pos.
Qed.

Lemma np_power_scaled :
  forall x p : R, 0 <= x -> 0 < p ->
    np_power (x / 10) p = np_power x p / Rpower 10 p.
Proof.
  intros x p Hx Hp. destruct Hx as [Hx|<-].
  - rewrite !np_power_pos by lra. unfold Rpower.
    unfold Rdiv at 1. rewrite ln_mult by lra. rewrite ln_Rinv by lra.
    replace (p * (ln x + - ln 10)) with (p * ln x + - (p * ln 10)) by ring.
    rewrite exp_plus, exp_Ropp. reflexivity.
  - replace (0 / 10) with 0 by (unfold Rdiv; ring).
    rewrite np_power_zero by exact Hp. unfold Rdiv. ring.
Qed.

(** X10.  On non-negative intensities and for a positive [power] the
    methods 'power_scaled' and 'power' are the same scale:
    [(i / 10) ** power * max_value = i ** power * (max_value / 10 ** power)]
    over the reals. *)
Theorem power_scaled_is_power :
  forall curve_fit (intensities : list R) (power max_value : R),
    Forall (fun i => 0 <= i) intensities -> 0 < power ->
    transform_intensity curve_fit intensities "power_scaled" power max_value
    = transform_intensity curve_fit intensities "power" power max_value.
Proof.
  intros curve_fit intensities power max_value Hpos Hp.
  unfold transform_intensity.
  destruct (Rle_dec max_value 0); [reflexivity|].
  cbn [String.eqb Ascii.eqb Bool.eqb andb].
  f_equal. apply map_ext_in. intros i Hi.
  rewrite Forall_forall in Hpos.
  rewrite (np_power_scaled i power (Hpos i Hi) Hp).
  assert (H10 : 0 < Rpower 10 power) by (unfold Rpower; apply exp_pos).
  field. lra.
Qed.

Lemma power_scaled_is_power_witness :
  transform_intensity (fun _ _ _ _ => None) [0; 5; 10] "power_scaled" 2 100
  = transform_intensity (fun _ _ _ _ => None) [0; 5; 10] "power" 2 100.
Proof.
  apply (power_scaled_is_power (fun _ _ _ _ => None) [0; 5; 10] 2 100).
  - repeat constructor; lra.
  - lra.
Defined.

Lemma np_power_monotone :
  forall x y p : R, 0 < p -> 0 <= x <= y -> np_power x p <= np_power y p.
Proof.
  intros x y p Hp [Hx Hxy]. destruct Hx as [Hx|<-].
  - rewrite !np_power_pos by lra. apply Rle_Rpower_l; lra.
  - rewrite np_power_zero by exact Hp. apply np_power_nonneg.
Qed.

(** X11.  The closed-form scales are order preserving: for a method among
    'linear', 'power', 'power_scaled', 'piecewise_linear' and 'log', a
    positive [power] and intensities [0 <= x <= y], the transformed value
    of [x] is at most that of [y]. *)
Theorem transform_intensity_monotone :
  forall curve_fit (method : string) (power max_value x y a b : R),
    In method monotone_methods ->
    0 < power -> 0 <= x <= y ->
    transform_intensity curve_fit [x; y] method power max_value
    = Ok [a; b] ->
    a <= b.
Proof.
  intros curve_fit method power max_value x y a b Hin Hp [Hx Hxy] H.
  unfold transform_intensity in H.
  destruct (Rle_dec max_value 0) as [|Hm]; [discriminate H|].
  apply Rnot_le_lt in Hm.
  simpl in Hin.
  destruct Hin as [<-|[<-|[<-|[<-|[<-|[]]]]]];
    cbn [String.eqb Ascii.eqb Bool.eqb andb map] in H;
    injection H as <- <-.
  - apply Rmult_le_compat_r; [|exact Hxy].
    left. apply Rdiv_lt_0_compat; lra.
  - apply Rmult_le_compat_r.
    + left. apply Rdiv_lt_0_compat; [exact Hm|unfold Rpower; apply exp_pos].
    + apply np_power_monotone; [exact Hp|split; assumption].
  - apply Rmult_le_compat_r; [lra|].
    apply np_power_monotone; [exact Hp|]. split.
    + apply Rmult_le_pos; lra.
    + apply Rmult_le_compat_r; lra.
  - destruct (Rle_dec x 8), (Rle_dec y 8); try lra; nra.
  - apply Rmult_le_compat_r.
    + left. apply Rdiv_lt_0_compat; [exact Hm|].
      pose proof (Rpower_10_gt_1 (10 / 2.5) ltac:(lra)). lra.
    + apply Rplus_le_compat_r. apply Rle_Rpower; [lra|].
      apply Rmult_le_compat_r; lra.
Qed.

Lemma transform_intensity_monotone_witness :
  3 * (100 / 10) <= 7 * (100 / 10).
Proof.
  apply (transform_intensity_monotone (fun _ _ _ _ => None) "linear" 2 100
           3 7).
  - simpl. tauto.
  - lra.
  - lra.
  - unfold transform_intensity.
    destruct (Rle_dec 100 0); [lra|reflexivity].
Defined.

Lemma intensities_nonneg : Forall (fun i => 0 <= i) (map Q2R intensities).
Proof.
  apply Forall_forall. intros r Hr. apply in_map_iff in Hr.
  destruct Hr as [q [<- Hq]].
  assert (H : forallb (fun q => Qle_bool 0 q) intensities = true)
    by (vm_compute; reflexivity).
  rewrite forallb_forall in H. specialize (H q Hq).
  apply Qle_bool_iff in H. apply Qle_Rle in H.
  replace (Q2R 0) with 0 in H by (unfold Q2R; cbn; lra). exact H.
Qed.

Lemma map2_mult_nonneg :
  forall l1 l2 : list R,
    Forall (fun y => 0 <= y) l1 -> Forall (fun t => 0 <= t) l2 ->
    Forall (fun u => 0 <= u) (map2 (fun y t => y * t) l1 l2)
    /\ List.length (map2 (fun y t => y * t) l1 l2)
       = Nat.min (List.length l1) (List.length l2).
Proof.
  induction l1 as [|a l1 IH]; intros l2 H1 H2.
  - split; [constructor|reflexivity].
  - destruct l2 as [|b l2]; [split; [constructor|reflexivity]|].
    inversion H1; subst. inversion H2; subst.
    destruct (IH l2 H4 H6) as [IHa IHb].
    cbn [map2 List.length Nat.min]. split.
    + constructor; [apply Rmult_le_pos; assumption|exact IHa].
    + rewrite IHb. reflexivity.
Qed.

Section AdjustedUnits.

Variable curve_fit :
  (R -> R -> R -> R -> R) -> list R -> list R -> R * R * R ->
  option (R * R * R).

Lemma transform_intensity_nonneg :
  forall (method : string) (power max_value : R) (l : list R),
    In method monotone_methods ->
    0 < power -> 0 < max_value ->
    Forall (fun i => 0 <= i) l ->
    exists l',
      transform_intensity curve_fit l method power max_value = Ok l'
      /\ List.length l' = List.length l
      /\ Forall (fun t => 0 <= t) l'.
Proof.
  intros method power max_value l Hin Hp Hm Hl.
  unfold transform_intensity.
  destruct (Rle_dec max_value 0) as [|_]; [lra|].
  assert (H10 : 0 < Rpower 10 power) by (unfold Rpower; apply exp_pos).
  simpl in Hin.
  destruct Hin as [<-|[<-|[<-|[<-|[<-|[]]]]]];
    cbn [String.eqb Ascii.eqb Bool.eqb andb];
    (eexists; split; [reflexivity|]; split; [apply length_map|]);
    apply Forall_forall; intros t Ht; apply in_map_iff in Ht;
    destruct Ht as [i [<- Hi]];
    rewrite Forall_forall in Hl; specialize (Hl i Hi).
  - apply Rmult_le_pos; [exact Hl|]. left. apply Rdiv_lt_0_compat; lra.
  - apply Rmult_le_pos; [apply np_power_nonneg|].
    left. apply Rdiv_lt_0_compat; assumption.
  - apply Rmult_le_pos; [apply np_power_nonneg|lra].
  - destruct (Rle_dec i 8); nra.
  - apply Rmult_le_pos.
    + assert (1 <= Rpower 10 (i / 2.5)); [|lra].
      rewrite <- (Rpower_O 10) by lra.
      apply Rle_Rpower; [lra|]. apply Rmult_le_pos; lra.
    + left. apply Rdiv_lt_0_compat; [exact Hm|].
      pose proof (Rpower_10_gt_1 (10 / 2.5) ltac:(lra)). lra.
Qed.

(** X12.  [calculate_adjusted_pain_units] on the closed-form scales: for a
    positive [max_value] and [power] and non-negative time amounts the
    function returns one non-negative value per intensity level, and [zip]
    cuts the result at the shorter of the time amounts and the 101 levels. *)
Theorem adjusted_pain_units_nonneg :
  forall (time_amounts : list R) (method : string) (power max_value : R),
    In method monotone_methods ->
    0 < power -> 0 < max_value ->
    Forall (fun y => 0 <= y) time_amounts ->
    exists units,
      calculate_adjusted_pain_units curve_fit time_amounts method power
        max_value = Ok units
      /\ List.length units = Nat.min (List.length time_amounts) 101
      /\ Forall (fun u => 0 <= u) units.
Proof.
  intros time_amounts method power max_value Hin Hp Hm Ht.
  unfold calculate_adjusted_pain_units.
  destruct (transform_intensity_nonneg method power max_value
              (map Q2R intensities) Hin Hp Hm intensities_nonneg)
    as (l' & E & Hlen & Hpos).
  rewrite E. cbn [bind].
  destruct (map2_mult_nonneg time_amounts l' Ht Hpos) as [H1 H2].
  eexists. split; [reflexivity|]. split; [|exact H1].
  rewrite H2, Hlen, length_map. reflexivity.
Qed.

End AdjustedUnits.

Lemma adjusted_pain_units_nonneg_witness :
  exists units,
    calculate_adjusted_pain_units (fun _ _ _ _ => None) [2; 0; 5] "log" 2
      100 = Ok units
    /\ List.length units = Nat.min (List.length [2; 0; 5]) 101
    /\ Forall (fun u => 0 <= u) units.
Proof.
  apply (adjusted_pain_units_nonneg (fun _ _ _ _ => None) [2; 0; 5] "log"
           2 100).
  - simpl. tauto.
  - lra.
  - lra.
  - repeat constructor; lra.
Defined.

End Scales.

(** ** Populations *)

Lemma filter_all :
  forall (A : Type) (f : A -> bool) (l : list A) (b : bool),
    Forall (fun a => f a = b) l ->
    List.length (filter f l) = if b then List.length l else 0%nat.
Proof.
  intros A f l b H. induction H as [|a l Ha _ IH]; [destruct b; reflexivity|].
  cbn. rewrite Ha. destruct b; cbn; rewrite IH; reflexivity.
Qed.

Lemma filter_length_Forall2 :
  forall (A : Type) (R : A -> A -> Prop) (f : A -> bool) (l l' : list A),
    (forall a b, R a b -> f b = f a) ->
    Forall2 R l l' ->
    List.length (filter f l') = List.length (filter f l).
Proof.
  intros A R f l l' Hf H. induction H as [|a b l l' Hab _ IH];
    [reflexivity|].
  cbn. rewrite (Hf a b Hab). destruct (f a); cbn; rewrite IH; reflexivity.
Qed.

Lemma fresh_group_size :
  forall (f : bool -> bool -> bool) (ic it : bool) (new : list Patient),
    Forall (fresh_patient ic it) new ->
    List.length (filter (fun p => f (is_chronic p) (is_treated p)) new)
    = if f ic it then List.length new else 0%nat.
Proof.
  intros f ic it new H. apply filter_all.
  apply Forall_forall. intros p Hp. rewrite Forall_forall in H.
  destruct (H p Hp) as (Hc & Ht & _). rewrite Hc, Ht. reflexivity.
Qed.

Lemma four_groups_sizes :
  forall g1 g2 g3 g4 : list Patient,
    Forall (fresh_patient false true) g1 ->
    Forall (fresh_patient false false) g2 ->
    Forall (fresh_patient true true) g3 ->
    Forall (fresh_patient true false) g4 ->
    group_sizes (g1 ++ g2 ++ g3 ++ g4)
    = [Z.of_nat (List.length g1); Z.of_nat (List.length g2);
       Z.of_nat (List.length g3); Z.of_nat (List.length g4)].
Proof.
  intros g1 g2 g3 g4 F1 F2 F3 F4.
  unfold group_sizes, group_conditions. cbn [map snd].
  rewrite !filter_app, !length_app.
  rewrite (fresh_group_size (fun c t => negb c && t) _ _ g1 F1),
    (fresh_group_size (fun c t => negb c && t) _ _ g2 F2),
    (fresh_group_size (fun c t => negb c && t) _ _ g3 F3),
    (fresh_group_size (fun c t => negb c && t) _ _ g4 F4),
    (fresh_group_size (fun c t => negb c && negb t) _ _ g1 F1),
    (fresh_group_size (fun c t => negb c && negb t) _ _ g2 F2),
    (fresh_group_size (fun c t => negb c && negb t) _ _ g3 F3),
    (fresh_group_size (fun c t => negb c && negb t) _ _ g4 F4),
    (fresh_group_size (fun c t => c && t) _ _ g1 F1),
    (fresh_group_size (fun c t => c && t) _ _ g2 F2),
    (fresh_group_size (fun c t => c && t) _ _ g3 F3),
    (fresh_group_size (fun c t => c && t) _ _ g4 F4),
    (fresh_group_size (fun c t => c && negb t) _ _ g1 F1),
    (fresh_group_size (fun c t => c && negb t) _ _ g2 F2),
    (fresh_group_size (fun c t => c && negb t) _ _ g3 F3),
    (fresh_group_size (fun c t => c && negb t) _ _ g4 F4).
  cbn [negb andb]. rewrite !Nat.add_0_r. reflexivity.
Qed.

Lemma fresh_patient_ok :
  forall (ic it : bool) (l : list Patient),
    Forall (fresh_patient ic it) l ->
    Forall (fun p => patient_ok p /\ attacks p = []) l.
Proof.
  intros ic it l H. eapply Forall_impl; [|exact H].
  intros p (_ & _ & Ha & Hok). split; assumption.
Qed.

Section PopulationGroups.

Variable rvs : Dist -> nat -> Q.

Lemma append_patients_ok :
  forall (n : nat) (ic it : bool) (population : list Patient) (s : nat)
         (population' : list Patient) (s' : nat),
    append_patients rvs n ic it population s = Ok (population', s') ->
    exists new,
      population' = (population ++ new)%list
      /\ List.length new = n
      /\ Forall (fresh_patient ic it) new.
Proof.
  induction n as [|n IH]; intros ic it population s population' s' H.
  - cbn in H. unfold ret in H. inversion H; subst.
    exists []. rewrite app_nil_r. repeat split. constructor.
  - cbn [append_patients] in H. unfold rbind in H.
    destruct (Patient_init rvs ic it s) as [[p s1]|] eqn:Ep;
      [|discriminate H].
    destruct (IH _ _ _ _ _ _ H) as (new & -> & Hlen & Hall).
    exists (p :: new). rewrite <- app_assoc. split; [reflexivity|].
    split; [cbn; congruence|]. constructor; [|exact Hall].
    destruct (Patient_init_ok rvs ic it s p s1 Ep)
      as (Hok & Hc & Ht & Ha & _). unfold fresh_patient. tauto.
Qed.

(** X13.  The populations of [generate_population] of the app: each of the four
    groups has exactly the requested number of patients (none for a negative
    request), every patient is in a state the class maintains and has no
    attack yet. *)
Theorem generate_population_groups :
  forall (n_et n_eu n_ct n_cu : Z) (s : nat) (population : list Patient)
         (s' : nat),
    generate_population rvs n_et n_eu n_ct n_cu s = Ok (population, s') ->
    group_sizes population
    = [Z.max 0 n_et; Z.max 0 n_eu; Z.max 0 n_ct; Z.max 0 n_cu]
    /\ Z.of_nat (List.length population)
       = Z.max 0 n_et + Z.max 0 n_eu + Z.max 0 n_ct + Z.max 0 n_cu
    /\ Forall (fun p => patient_ok p /\ attacks p = []) population.
Proof.
  intros n_et n_eu n_ct n_cu s population s' H.
  unfold generate_population, rbind in H.
  destruct (append_patients rvs (Z.to_nat n_et) false true [] s)
    as [[p1 s1]|] eqn:E1; [|discriminate H].
  destruct (append_patients rvs (Z.to_nat n_eu) false false p1 s1)
    as [[p2 s2]|] eqn:E2; [|discriminate H].
  destruct (append_patients rvs (Z.to_nat n_ct) true true p2 s2)
    as [[p3 s3]|] eqn:E3; [|discriminate H].
  destruct (append_patients rvs (Z.to_nat n_cu) true false p3 s3)
    as [[p4 s4]|] eqn:E4; [|discriminate H].
  unfold ret in H. inversion H; subst population s'.
  destruct (append_patients_ok _ _ _ _ _ _ _ E1) as (g1 & -> & L1 & F1).
  destruct (append_patients_ok _ _ _ _ _ _ _ E2) as (g2 & -> & L2 & F2).
  destruct (append_patients_ok _ _ _ _ _ _ _ E3) as (g3 & -> & L3 & F3).
  destruct (append_patients_ok _ _ _ _ _ _ _ E4) as (g4 & -> & L4 & F4).
  cbn [app]. rewrite <- !app_assoc.
  split; [|split].
  - rewrite (four_groups_sizes g1 g2 g3 g4 F1 F2 F3 F4), L1, L2, L3, L4.
    repeat (apply f_equal2; [lia|]). reflexivity.
  - rewrite !length_app, L1, L2, L3, L4. lia.
  - repeat (apply Forall_app; split); eapply fresh_patient_ok; eassumption.
Qed.

Lemma populate_four_groups :
  forall (fraction : float) (et eu ct cu : Z) (s : nat)
         (population : list Patient) (s' : nat),
    populate_groups rvs
      [("Episodic Treated"%string, et); ("Episodic Untreated"%string, eu);
       ("Chronic Treated"%string, ct); ("Chronic Untreated"%string, cu)]
      fraction [] s = Ok (population, s') ->
    exists n_et n_eu n_ct n_cu,
      simulated_count et fraction = Ok n_et
      /\ simulated_count eu fraction = Ok n_eu
      /\ simulated_count ct fraction = Ok n_ct
      /\ simulated_count cu fraction = Ok n_cu
      /\ group_sizes population
         = [Z.max 0 n_et; Z.max 0 n_eu; Z.max 0 n_ct; Z.max 0 n_cu]
      /\ Forall (fun p => patient_ok p /\ attacks p = []) population.
Proof.
  intros fraction et eu ct cu s population s' H.
  cbn [populate_groups] in H. unfold rbind, lift in H.
  change (contains "Chronic" "Episodic Treated") with false in H.
  change (contains "Treated" "Episodic Treated") with true in H.
  change (contains "Chronic" "Episodic Untreated") with false in H.
  change (contains "Treated" "Episodic Untreated") with false in H.
  change (contains "Chronic" "Chronic Treated") with true in H.
  change (contains "Treated" "Chronic Treated") with true in H.
  change (contains "Chronic" "Chronic Untreated") with true in H.
  change (contains "Treated" "Chronic Untreated") with false in H.
  unfold simulated_count.
  destruct (py_int (Z2F et * fraction)) as [n_et|]; [|discriminate H].
  destruct (append_patients rvs (Z.to_nat n_et) false true [] s)
    as [[p1 s1]|] eqn:E1; [|discriminate H].
  destruct (py_int (Z2F eu * fraction)) as [n_eu|]; [|discriminate H].
  destruct (append_patients rvs (Z.to_nat n_eu) false false p1 s1)
    as [[p2 s2]|] eqn:E2; [|discriminate H].
  destruct (py_int (Z2F ct * fraction)) as [n_ct|]; [|discriminate H].
  destruct (append_patients rvs (Z.to_nat n_ct) true true p2 s2)
    as [[p3 s3]|] eqn:E3; [|discriminate H].
  destruct (py_int (Z2F cu * fraction)) as [n_cu|]; [|discriminate H].
  destruct (append_patients rvs (Z.to_nat n_cu) true false p3 s3)
    as [[p4 s4]|] eqn:E4; [|discriminate H].
  unfold ret in H. inversion H; subst population s'.
  destruct (append_patients_ok _ _ _ _ _ _ _ E1) as (g1 & -> & L1 & F1).
  destruct (append_patients_ok _ _ _ _ _ _ _ E2) as (g2 & -> & L2 & F2).
  destruct (append_patients_ok _ _ _ _ _ _ _ E3) as (g3 & -> & L3 & F3).
  destruct (append_patients_ok _ _ _ _ _ _ _ E4) as (g4 & -> & L4 & F4).
  exists n_et, n_eu, n_ct, n_cu.
  repeat (split; [reflexivity|]).
  cbn [app]. rewrite <- !app_assoc. split.
  - rewrite (four_groups_sizes g1 g2 g3 g4 F1 F2 F3 F4), L1, L2, L3, L4.
    repeat (apply f_equal2; [lia|]). reflexivity.
  - repeat (apply Forall_app; split); eapply fresh_patient_ok; eassumption.
Qed.

Lemma four_group_names :
  forall ch_groups : groups_dict,
    map fst ch_groups = map fst group_conditions ->
    exists et eu ct cu,
      ch_groups
      = [("Episodic Treated"%string, et); ("Episodic Untreated"%string, eu);
         ("Chronic Treated"%string, ct); ("Chronic Untreated"%string, cu)].
Proof.
  intros ch_groups H. cbn in H.
  destruct ch_groups as [|[k1 v1] [|[k2 v2] [|[k3 v3] [|[k4 v4] [|]]]]];
    try discriminate H.
  cbn in H. injection H as -> -> -> ->.
  exists v1, v2, v3, v4. reflexivity.
Qed.

(** X14.  [Simulation.generate_population] on a dict whose keys are the four
    group names: the simulated count of every group is computed, and the group
    of the population that [calculate_results] selects under each name has
    exactly that many patients. The case-sensitive test ['Treated' in group]
    is false on the untreated groups. *)
Theorem simulation_population_groups :
  forall (config : SimulationConfig) (ch_groups : groups_dict) (s : nat)
         (population : list Patient) (s' : nat),
    map fst ch_groups = map fst group_conditions ->
    Simulation_generate_population rvs config ch_groups [] s
    = Ok (population, s') ->
    exists counts,
      simulated_counts ch_groups
        (percent_of_patients_to_simulate config / Z2F 100)%float
      = Ok counts
      /\ map fst counts = map fst group_conditions
      /\ group_sizes population = map (Z.max 0) (map snd counts)
      /\ Forall (fun p => patient_ok p /\ attacks p = []) population.
Proof.
  intros config ch_groups s population s' Hn H.
  destruct (four_group_names ch_groups Hn) as (et & eu & ct & cu & ->).
  unfold Simulation_generate_population in H.
  destruct (populate_four_groups _ _ _ _ _ _ _ _ H)
    as (n_et & n_eu & n_ct & n_cu & E1 & E2 & E3 & E4 & Hs & Hok).
  exists [("Episodic Treated"%string, n_et);
          ("Episodic Untreated"%string, n_eu);
          ("Chronic Treated"%string, n_ct);
          ("Chronic Untreated"%string, n_cu)].
  cbn [simulated_counts]. rewrite E1, E2, E3, E4. cbn [bind].
  repeat split; assumption.
Qed.

End PopulationGroups.

Lemma simulation_population_groups_witness :
  exists counts,
    simulated_counts small_groups
      (percent_of_patients_to_simulate small_config / Z2F 100)%float
    = Ok counts
    /\ map fst counts = map fst group_conditions
    /\ group_sizes (fst small_population) = map (Z.max 0) (map snd counts)
    /\ Forall (fun p => patient_ok p /\ attacks p = [])
         (fst small_population).
Proof.
  apply (simulation_population_groups busy_rvs small_config small_groups
           0%nat (fst small_population) (snd small_population)).
  - reflexivity.
  - vm_compute. reflexivity.
Defined.

Lemma generate_population_groups_witness :
  group_sizes (fst small_population)
  = [Z.max 0 2; Z.max 0 2; Z.max 0 2; Z.max 0 2]
  /\ Z.of_nat (List.length (fst small_population))
     = Z.max 0 2 + Z.max 0 2 + Z.max 0 2 + Z.max 0 2
  /\ Forall (fun p => patient_ok p /\ attacks p = [])
       (fst small_population).
Proof.
  apply (generate_population_groups busy_rvs 2 2 2 2 0%nat
           (fst small_population) (snd small_population)).
  vm_compute. reflexivity.
Defined.

Section Run.

Variable np_std : list Z -> float.
Variable rvs : Dist -> nat -> Q.

Lemma calculate_group_results_ok :
  forall (population : list Patient) (ch_groups : groups_dict)
         (name : string) (condition : Patient -> bool) (total : Z),
    filter condition population <> [] ->
    Forall (fun p => Forall attack_ok (attacks p)) population ->
    dict_get ch_groups name = Ok total ->
    exists g years std_years,
      calculate_group_results np_std population ch_groups name condition
      = Ok (g, years, std_years)
      /\ group_name g = name
      /\ n_patients g = Z.of_nat (List.length (filter condition population)).
Proof.
  intros population ch_groups name condition total Hne Hok Hget.
  unfold calculate_group_results.
  destruct (add_group_minutes_ok (filter condition population) []
              empty_minutes_list) as (t & l & Eg & Hb).
  { apply Forall_forall. intros p Hp. apply filter_In in Hp.
    rewrite Forall_forall in Hok. apply (Hok p (proj1 Hp)). }
  { apply empty_has_buckets. }
  rewrite Eg. cbn [bind fst snd].
  destruct (group_curves_ok np_std name t l
              (Z.of_nat (List.length (filter condition population))))
    as (g & Ec & Hname & Hn & _); [|exact Hb|].
  { destruct (filter condition population); [congruence|cbn; lia]. }
  rewrite Ec, Hget. cbn [bind]. eexists. eexists. eexists.
  split; [reflexivity|]. split; assumption.
Qed.

Lemma same_profile_group :
  forall (f : bool -> bool -> bool) (l l' : list Patient),
    Forall2 same_profile l l' ->
    List.length (filter (fun p => f (is_chronic p) (is_treated p)) l')
    = List.length (filter (fun p => f (is_chronic p) (is_treated p)) l).
Proof.
  intros f l l' H.
  apply (filter_length_Forall2 Patient same_profile _ l l'); [|exact H].
  intros a b (Hc & Ht & _). rewrite Hc, Ht. reflexivity.
Qed.

Lemma same_profile_group_sizes :
  forall l l' : list Patient,
    Forall2 same_profile l l' -> group_sizes l' = group_sizes l.
Proof.
  intros l l' H. unfold group_sizes, group_conditions. cbn [map snd].
  rewrite (same_profile_group (fun c t => negb c && t) l l' H),
    (same_profile_group (fun c t => negb c && negb t) l l' H),
    (same_profile_group (fun c t => c && t) l l' H),
    (same_profile_group (fun c t => c && negb t) l l' H).
  reflexivity.
Qed.

Lemma ch_groups_names :
  forall (config : SimulationConfig) (total : float)
         (ch_groups : groups_dict),
    calculate_ch_groups config = Ok (total, ch_groups) ->
    map fst ch_groups = map fst group_conditions.
Proof.
  intros config total ch_groups H. unfold calculate_ch_groups in H.
  cbv zeta in H.
  repeat match type of H with
         | (_ <- ?r ;; _) = _ =>
             destruct r; [cbn [bind] in H|discriminate H]
         end.
  injection H as _ <-. reflexivity.
Qed.

(** X15.  The first four steps of [Simulation.run] compose: when
    [calculate_ch_groups] has computed the worldwide groups, every group
    has a positive simulated count and [generate_population] has built the
    population, [simulate_year] and [calculate_results] return, and
    [group_data] lists the four groups in order, each with its simulated
    count as [n_patients]; the two person-years dicts have the same four
    keys. *)
Theorem run_group_data :
  forall (config : SimulationConfig) (total_ch_sufferers : float)
         (ch_groups counts : groups_dict)
         (s : nat) (population : list Patient) (s1 : nat),
    calculate_ch_groups config = Ok (total_ch_sufferers, ch_groups) ->
    simulated_counts ch_groups
      (percent_of_patients_to_simulate config / Z2F 100)%float
    = Ok counts ->
    Forall (fun c => 0 < snd c) counts ->
    Simulation_generate_population rvs config ch_groups [] s
    = Ok (population, s1) ->
    exists population' s2 group_data global_person_years
           global_std_person_years,
      simulate_year rvs population s1 = Ok (population', s2)
      /\ calculate_results np_std population' ch_groups
         = Ok (group_data, global_person_years, global_std_person_years)
      /\ map (fun g => (group_name g, n_patients g)) group_data = counts
      /\ map fst global_person_years = map fst counts
      /\ map fst global_std_person_years = map fst counts.
Proof.
  intros config total_ch_sufferers ch_groups counts s population s1 Hg Hc
    Hpos H.
  pose proof (ch_groups_names _ _ _ Hg) as Hn.
  destruct (four_group_names ch_groups Hn) as (et & eu & ct & cu & ->).
  unfold Simulation_generate_population in H.
  destruct (populate_four_groups rvs _ _ _ _ _ _ _ _ H)
    as (n_et & n_eu & n_ct & n_cu & E1 & E2 & E3 & E4 & Hs & Hok).
  cbn [simulated_counts] in Hc. rewrite E1, E2, E3, E4 in Hc.
  cbn [bind] in Hc. injection Hc as <-.
  inversion Hpos as [|? ? P1 Hpos1]; subst.
  inversion Hpos1 as [|? ? P2 Hpos2]; subst.
  inversion Hpos2 as [|? ? P3 Hpos3]; subst.
  inversion Hpos3 as [|? ? P4 _]; subst.
  cbn [snd] in P1, P2, P3, P4.
  destruct (simulate_year_ok rvs population s1)
    as (pop' & s2 & Ey & Hok' & Hsp).
  { eapply Forall_impl; [|exact Hok]. intros p Hp. exact (proj1 Hp). }
  pose proof (same_profile_group_sizes population pop' Hsp) as Hs'.
  rewrite Hs in Hs'. unfold group_sizes, group_conditions in Hs'.
  cbn [map snd] in Hs'. injection Hs' as S1 S2 S3 S4.
  assert (Hatt : Forall (fun p => Forall attack_ok (attacks p)) pop').
  { eapply Forall_impl; [|exact Hok'].
    intros p (_ & _ & _ & Ha & _). exact Ha. }
  exists pop', s2.
  unfold calculate_results, group_conditions. cbn [fold_left fst snd bind].
  destruct (calculate_group_results_ok pop'
              [("Episodic Treated"%string, et);
               ("Episodic Untreated"%string, eu);
               ("Chronic Treated"%string, ct);
               ("Chronic Untreated"%string, cu)]
              "Episodic Treated"
              (fun p => negb (is_chronic p) && is_treated p) et)
    as (g1 & y1 & d1 & R1 & N1 & K1); [|exact Hatt|reflexivity|].
  { intros E. rewrite E in S1. cbn in S1. lia. }
  destruct (calculate_group_results_ok pop'
              [("Episodic Treated"%string, et);
               ("Episodic Untreated"%string, eu);
               ("Chronic Treated"%string, ct);
               ("Chronic Untreated"%string, cu)]
              "Episodic Untreated"
              (fun p => negb (is_chronic p) && negb (is_treated p)) eu)
    as (g2 & y2 & d2 & R2 & N2 & K2); [|exact Hatt|reflexivity|].
  { intros E. rewrite E in S2. cbn in S2. lia. }
  destruct (calculate_group_results_ok pop'
              [("Episodic Treated"%string, et);
               ("Episodic Untreated"%string, eu);
               ("Chronic Treated"%string, ct);
               ("Chronic Untreated"%string, cu)]
              "Chronic Treated"
              (fun p => is_chronic p && is_treated p) ct)
    as (g3 & y3 & d3 & R3 & N3 & K3); [|exact Hatt|reflexivity|].
  { intros E. rewrite E in S3. cbn in S3. lia. }
  destruct (calculate_group_results_ok pop'
              [("Episodic Treated"%string, et);
               ("Episodic Untreated"%string, eu);
               ("Chronic Treated"%string, ct);
               ("Chronic Untreated"%string, cu)]
              "Chronic Untreated"
              (fun p => is_chronic p && negb (is_treated p)) cu)
    as (g4 & y4 & d4 & R4 & N4 & K4); [|exact Hatt|reflexivity|].
  { intros E. rewrite E in S4. cbn in S4. lia. }
  rewrite R1. cbn [bind fst snd app].
  rewrite R2. cbn [bind fst snd app].
  rewrite R3. cbn [bind fst snd app].
  rewrite R4. cbn [bind fst snd app].
  do 3 eexists. split; [exact Ey|]. split; [reflexivity|].
  cbn [map fst snd]. rewrite N1, N2, N3, N4, K1, K2, K3, K4, S1, S2, S3, S4.
  rewrite !Z.max_r by lia. repeat split; reflexivity.
Qed.

End Run.

Lemma run_group_data_witness :
  exists population' s2 group_data global_person_years
         global_std_person_years,
    simulate_year busy_rvs (fst small_population) (snd small_population)
    = Ok (population', s2)
    /\ calculate_results (fun _ => 0%float) population' small_groups
       = Ok (group_data, global_person_years, global_std_person_years)
    /\ map (fun g => (group_name g, n_patients g)) group_data
       = small_groups
    /\ map fst global_person_years = map fst small_groups
    /\ map fst global_std_person_years = map fst small_groups.
Proof.
  apply (run_group_data (fun _ => 0%float) busy_rvs small_config 10%float
           small_groups small_groups 0%nat).
  - vm_compute. reflexivity.
  - vm_compute. reflexivity.
  - repeat constructor.
  - vm_compute. reflexivity.
Defined.

(** ** The reported patient counts *)

Lemma group_info_counts :
  forall (fraction : float) (total_simulated : Z) (ch_groups : groups_dict)
         (group_info : list (string * Z * Z)),
    mapM (fun gc : string * Z =>
            simulated_count <- py_int (Z2F (snd gc) * fraction)%float ;;
            q <- py_int_truediv simulated_count total_simulated ;;
            percentage <- py_round (q * Z2F 100)%float ;;
            Ok (fst gc, simulated_count, percentage))
      ch_groups = Ok group_info ->
    simulated_counts ch_groups fraction = Ok (map fst group_info)
    /\ (ch_groups <> [] -> total_simulated <> 0).
Proof.
  intros fraction t. induction ch_groups as [|[group count] d IH];
    intros info H.
  - cbn in H. injection H as <-. split; [reflexivity|congruence].
  - cbn [mapM fst snd] in H. cbn [simulated_counts]. unfold simulated_count.
    destruct (py_int (Z2F count * fraction)) as [n|]; [|discriminate H].
    cbn [bind] in H.
    destruct (py_int_truediv n t) as [q|] eqn:Eq; [|discriminate H].
    cbn [bind] in H.
    destruct (py_round (q * Z2F 100)) as [pc|]; [|discriminate H].
    cbn [bind] in H.
    destruct (mapM _ d) as [rest|] eqn:Er; [|discriminate H].
    cbn [bind] in H. injection H as <-.
    destruct (IH rest eq_refl) as [IH1 _].
    rewrite IH1. cbn [bind map fst]. split; [reflexivity|].
    intros _. unfold py_int_truediv in Eq.
    destruct (t =? 0) eqn:Et; [discriminate Eq|].
    apply Z.eqb_neq in Et. exact Et.
Qed.

(** X16.  [Simulation.get_simulated_patients_info] and the population builder
    agree: when the method returns, the total is the truncated product of the
    worldwide total and the fraction, it is non-zero as soon as there is a
    group, and the groups and counts it reports are those
    [generate_population] constructs. When the truncated total is zero and
    there is at least one group, the percentage divides by zero and the method
    raises [ZeroDivisionError]. *)
Theorem simulated_patients_info_spec :
  forall (config : SimulationConfig) (ch_groups : groups_dict),
    (forall (total_simulated : Z) (group_info : list (string * Z * Z)),
        get_simulated_patients_info config ch_groups
        = Ok (total_simulated, group_info) ->
        py_int (Z2F (Zsum (dict_values ch_groups))
                * (percent_of_patients_to_simulate config / Z2F 100))%float
        = Ok total_simulated
        /\ simulated_counts ch_groups
             (percent_of_patients_to_simulate config / Z2F 100)%float
           = Ok (map fst group_info)
        /\ (ch_groups <> [] -> total_simulated <> 0))
    /\ (forall counts : groups_dict,
           ch_groups <> [] ->
           py_int (Z2F (Zsum (dict_values ch_groups))
                   * (percent_of_patients_to_simulate config / Z2F 100))%float
           = Ok 0 ->
           simulated_counts ch_groups
             (percent_of_patients_to_simulate config / Z2F 100)%float
           = Ok counts ->
           get_simulated_patients_info config ch_groups
           = Raise ZeroDivisionError).
Proof.
  intros config ch_groups. split.
  - intros t info H. unfold get_simulated_patients_info in H.
    destruct (py_int _) as [t'|]; [|discriminate H].
    cbn [bind] in H.
    destruct (mapM _ ch_groups) as [info'|] eqn:Em; [|discriminate H].
    cbn [bind] in H. injection H as -> ->.
    split; [reflexivity|]. exact (group_info_counts _ _ _ _ Em).
  - intros counts Hne Ht Hc. unfold get_simulated_patients_info.
    rewrite Ht. cbn [bind].
    destruct ch_groups as [|[group count] d]; [congruence|].
    cbn [simulated_counts] in Hc. unfold simulated_count in Hc.
    cbn [mapM fst snd].
    destruct (py_int (Z2F count * _)) as [n|]; [|discriminate Hc].
    reflexivity.
Qed.

(** ** Group data of the app *)

Lemma same_profile_lists_trans :
  forall l1 l2 l3 : list Patient,
    Forall2 same_profile l1 l2 -> Forall2 same_profile l2 l3 ->
    Forall2 same_profile l1 l3.
Proof.
  intros l1 l2 l3 H. revert l3.
  induction H as [|a b l1 l2 Hab _ IH]; intros l3 H23.
  - inversion H23. constructor.
  - inversion H23 as [|? c ? l3' Hbc H']; subst.
    constructor; [exact (same_profile_trans _ _ _ Hab Hbc)|apply IH; exact H'].
Qed.

Lemma same_profile_lists_refl :
  forall l : list Patient, Forall2 same_profile l l.
Proof.
  induction l; constructor; [apply same_profile_refl|assumption].
Qed.

Lemma has_active_member_same_profile :
  forall (condition : Patient -> bool) (l l' : list Patient),
    profile_condition condition ->
    Forall2 same_profile l l' ->
    has_active_member condition l -> has_active_member condition l'.
Proof.
  intros condition l l' Hc H. unfold has_active_member.
  induction H as [|a b l l' Hab _ IH]; intros Hex.
  - inversion Hex.
  - inversion Hex as [? ? [Ha Hm]|? ? Ht]; subst.
    + left. rewrite (Hc a b Hab), (same_profile_max_attacks a b Hab).
      split; assumption.
    + right. apply IH. exact Ht.
Qed.

Lemma has_active_member_filter :
  forall (condition : Patient -> bool) (l : list Patient),
    has_active_member condition l -> filter condition l <> [].
Proof.
  intros condition l H. unfold has_active_member in H.
  apply Exists_exists in H. destruct H as [p [Hin [Hc _]]].
  intros E. assert (Hf : In p (filter condition l))
    by (apply filter_In; split; assumption).
  rewrite E in Hf. inversion Hf.
Qed.

Lemma add_patient_minutes_no_zero :
  forall (items : qdict Z) (total : qdict Z) (lists : qdict (list Z))
         (total' : qdict Z) (lists' : qdict (list Z)),
    (forall key minutes, In (key, minutes) items ->
       exists k : Z, 10 <= k <= 100 /\ key = (inject_Z k / 10)%Q) ->
    add_patient_minutes items total lists = Ok (total', lists') ->
    qdict_get total (inject_Z 0 / 10)%Q = None ->
    qdict_get total' (inject_Z 0 / 10)%Q = None.
Proof.
  induction items as [|[key minutes] items IH];
    intros total lists total' lists' Hk H Hz.
  - cbn in H. injection H as <- _. exact Hz.
  - cbn [add_patient_minutes] in H.
    destruct (Hk key minutes (or_introl eq_refl)) as [k [Hk1 ->]].
    rewrite (Qround1_one_decimal (inject_Z k / 10) k) in H by reflexivity.
    destruct (qdict_get lists (inject_Z k / 10)%Q) as [l|];
      [|discriminate H].
    apply (IH _ _ _ _ (fun key' m' Hin => Hk key' m' (or_intror Hin)) H).
    rewrite qdict_get_set, tenth_eqb.
    destruct (k =? 0) eqn:E; [apply Z.eqb_eq in E; lia|exact Hz].
Qed.

(** The loop of the app is the loop of [Simulation.calculate_results] on
    the two dicts, and it lengthens [group_intensities] by the minutes. *)
Lemma add_patient_intensities_minutes :
  forall (items : qdict Z) (total : qdict Z) (lists : qdict (list Z))
         (gi : list Q) (total' : qdict Z) (lists' : qdict (list Z))
         (gi' : list Q),
    add_patient_intensities items total lists gi = Ok (total', lists', gi') ->
    add_patient_minutes items total lists = Ok (total', lists')
    /\ Z.of_nat (List.length gi) + Zsum (map snd items)
       <= Z.of_nat (List.length gi').
Proof.
  induction items as [|[key minutes] items IH];
    intros total lists gi total' lists' gi' H.
  - cbn in H. injection H as <- <- <-. split; [reflexivity|].
    cbn [map]. change (Zsum []) with 0. lia.
  - cbn [add_patient_intensities] in H. cbn [add_patient_minutes].
    destruct (qdict_get lists (Qround1 key)) as [l|]; [|discriminate H].
    destruct (IH _ _ _ _ _ _ H) as [E Hlen]. split; [exact E|].
    rewrite length_app, repeat_length in Hlen.
    cbn [map snd]. rewrite Zsum_cons.
    set (a := Zsum (map snd items)) in *. clearbody a. lia.
Qed.

Lemma add_patient_intensities_ok :
  forall (items : qdict Z) (total : qdict Z) (lists : qdict (list Z))
         (gi : list Q) (total' : qdict Z) (lists' : qdict (list Z)),
    add_patient_minutes items total lists = Ok (total', lists') ->
    exists gi',
      add_patient_intensities items total lists gi = Ok (total', lists', gi').
Proof.
  induction items as [|[key minutes] items IH];
    intros total lists gi total' lists' H.
  - cbn in H. injection H as <- <-. exists gi. reflexivity.
  - cbn [add_patient_minutes] in H. cbn [add_patient_intensities].
    destruct (qdict_get lists (Qround1 key)) as [l|]; [|discriminate H].
    apply IH. exact H.
Qed.

Lemma attack_minutes_length :
  forall l : list Attack,
    Forall attack_ok l -> Z.of_nat (List.length l) <= attack_minutes l.
Proof.
  unfold attack_minutes. induction l as [|a l IH]; intros H.
  - cbn. change (Zsum []) with 0. lia.
  - inversion H as [|? ? Ha Hl]; subst. specialize (IH Hl).
    cbn [map]. rewrite Zsum_cons.
    destruct Ha as (Hd & _ & _ & Hm).
    pose proof (max_intensity_duration_close _ Hd) as Hc.
    unfold max_intensity_duration_of in Hc. rewrite <- Hm in Hc.
    set (m := max_intensity_duration a) in *.
    set (d := total_duration a) in *.
    set (r := Zsum (map max_intensity_duration l)) in *.
    clearbody m d r. cbn [List.length]. lia.
Qed.

Lemma simulate_group_no_member :
  forall (rvs : Dist -> nat -> Q) (condition : Patient -> bool)
         (population : list Patient) (total : qdict Z)
         (lists : qdict (list Z)) (gta : list Z) (gi : list Q) (s : nat),
    filter condition population = [] ->
    simulate_group rvs condition population total lists gta gi s
    = Ok (population, (total, lists), (gta, gi), s).
Proof.
  intros rvs condition population total lists gta gi s.
  induction population as [|p ps IH]; intros H; [reflexivity|].
  cbn [filter] in H. cbn [simulate_group].
  destruct (condition p); [discriminate H|].
  unfold rbind. rewrite (IH H). reflexivity.
Qed.

Lemma add_group_minutes_no_attack :
  forall (group : list Patient) (total : qdict Z) (lists : qdict (list Z)),
    Forall (fun p => attacks p = []) group ->
    add_group_minutes group total lists = Ok (total, lists).
Proof.
  induction group as [|p ps IH]; intros total lists H; [reflexivity|].
  inversion H as [|? ? Hp Hps]; subst. cbn [add_group_minutes].
  unfold calculate_intensity_minutes. rewrite Hp.
  cbn [fold_left add_patient_minutes bind fst snd]. apply IH. exact Hps.
Qed.

Lemma np_percentile_ok :
  forall (A : Type) (a : list A), a <> [] -> np_percentile a = Ok tt.
Proof.
  intros A [|x a] H; [congruence|reflexivity].
Qed.

Section GroupData.

Variable np_std : list Z -> float.
Variable rvs : Dist -> nat -> Q.

Lemma simulate_group_ok :
  forall (condition : Patient -> bool) (population : list Patient)
         (total : qdict Z) (lists : qdict (list Z)) (gta : list Z)
         (gi : list Q) (s : nat),
    Forall patient_ok population -> has_buckets lists ->
    exists population' total' lists' gta' gi' s',
      simulate_group rvs condition population total lists gta gi s
      = Ok (population', (total', lists'), (gta', gi'), s')
      /\ Forall patient_ok population'
      /\ Forall2 same_profile population population'
      /\ has_buckets lists'
      /\ (qdict_get total (inject_Z 0 / 10)%Q = None ->
          qdict_get total' (inject_Z 0 / 10)%Q = None)
      /\ List.length gta'
         = (List.length gta
            + List.length (filter condition population))%nat
      /\ (List.length gi <= List.length gi')%nat
      /\ (has_active_member condition population -> gi' <> []).
Proof.
  intros condition. induction population as [|p ps IH];
    intros total lists gta gi s Hok Hb.
  - exists [], total, lists, gta, gi, s. cbn. unfold ret.
    split; [reflexivity|]. split; [constructor|]. split; [constructor|].
    split; [exact Hb|]. split; [tauto|]. split; [lia|]. split; [lia|].
    intros H. inversion H.
  - inversion Hok as [|? ? Hp Hps]; subst. cbn [simulate_group filter].
    destruct (condition p) eqn:Ec.
    + destruct (generate_year_of_attacks_count rvs p s Hp)
        as (p' & s1 & E & Hp' & Hsp & Hch & Hep).
      unfold rbind at 1. rewrite E. cbn [fst snd].
      assert (Hatt : Forall attack_ok (attacks p'))
        by (destruct Hp' as (_ & _ & _ & Ha & _); exact Ha).
      assert (Hkeys : forall key minutes,
                 In (key, minutes) (calculate_intensity_minutes p') ->
                 exists k : Z, 10 <= k <= 100 /\ key = (inject_Z k / 10)%Q).
      { intros key minutes Hin.
        apply (intensity_key_ok p' key minutes); [exact Hatt|exact Hin]. }
      destruct (add_patient_minutes_ok (calculate_intensity_minutes p')
                  total lists Hkeys Hb) as (t1 & l1 & E1 & Hb1).
      destruct (add_patient_intensities_ok _ _ _ gi _ _ E1) as (gi1 & E1').
      destruct (add_patient_intensities_minutes _ _ _ _ _ _ _ E1')
        as (_ & Hlen1).
      rewrite calculate_intensity_minutes_sum in Hlen1.
      pose proof (attack_minutes_length _ Hatt) as Hmin.
      unfold rbind at 1. unfold lift. rewrite E1'. cbn [fst snd].
      destruct (IH t1 l1
                  (gta ++ [Z.of_nat (List.length (attacks p'))])%list gi1 s1
                  Hps Hb1)
        as (ps' & t2 & l2 & gta2 & gi2 & s2 & E2 & Hok2 & Hsp2 & Hb2 & Hz2
            & Hg2 & Hi2 & Hex2).
      unfold rbind. rewrite E2. unfold ret. cbn [fst snd].
      exists (p' :: ps'), t2, l2, gta2, gi2, s2.
      split; [reflexivity|]. split; [constructor; assumption|].
      split; [constructor; assumption|]. split; [exact Hb2|].
      split.
      { intros Hz. apply Hz2.
        apply (add_patient_minutes_no_zero _ _ _ _ _ Hkeys E1 Hz). }
      split.
      { rewrite Hg2, length_app. cbn [List.length]. lia. }
      split; [lia|].
      intros Hex. unfold has_active_member in Hex.
      inversion Hex as [? ? [_ Hpos]|? ? Ht]; subst.
      * assert (Hone : 1 <= Z.of_nat (List.length (attacks p'))).
        { unfold max_attacks in Hpos.
          destruct (is_chronic p) eqn:Hc.
          - specialize (Hch eq_refl). lia.
          - specialize (Hep eq_refl). lia. }
        intros Hnil. rewrite Hnil in Hi2. cbn [List.length] in Hi2. lia.
      * apply Hex2. exact Ht.
    + destruct (IH total lists gta gi s Hps Hb)
        as (ps' & t2 & l2 & gta2 & gi2 & s2 & E2 & Hok2 & Hsp2 & Hb2 & Hz2
            & Hg2 & Hi2 & Hex2).
      unfold rbind. rewrite E2. unfold ret. cbn [fst snd].
      exists (p :: ps'), t2, l2, gta2, gi2, s2.
      split; [reflexivity|]. split; [constructor; assumption|].
      split; [constructor; [apply same_profile_refl|assumption]|].
      split; [exact Hb2|]. split; [exact Hz2|]. split; [exact Hg2|].
      split; [exact Hi2|].
      intros Hex. unfold has_active_member in Hex.
      inversion Hex as [? ? [Hc _]|? ? Ht]; subst; [congruence|].
      apply Hex2. exact Ht.
Qed.

Lemma group_curves_zero_count :
  forall (name : string) (total : qdict Z) (lists : qdict (list Z)),
    qdict_get total (inject_Z 0 / 10)%Q = None ->
    group_curves np_std name total lists 0 = Raise ZeroDivisionError.
Proof.
  intros name total lists Hz. unfold group_curves, intensities.
  cbn [seq map mapM]. unfold average_entry at 1.
  replace (Qround1 (0 + inject_Z (Z.of_nat 0) * 0.1))
    with (inject_Z 0 / 10)%Q by reflexivity.
  rewrite Hz. reflexivity.
Qed.

(** A group whose simulated count is not zero and that has no patient:
    the curves are computed and the quartiles of the empty
    [group_total_attacks] raise. *)
Lemma calculate_group_data_no_member :
  forall (population : list Patient) (name : string)
         (condition : Patient -> bool) (n : Z)
         (groups : list (string * (Patient -> bool) * Z)) (s : nat),
    filter condition population = [] -> n <> 0 ->
    calculate_group_data np_std rvs population
      ((name, condition, n) :: groups) s
    = Raise IndexError.
Proof.
  intros population name condition n groups s H Hn.
  cbn [calculate_group_data]. unfold rbind at 1.
  rewrite (simulate_group_no_member rvs condition population _ _ _ _ s H).
  cbn [fst snd].
  destruct (group_curves_ok np_std name [] empty_minutes_list n Hn
              empty_has_buckets) as (g & Eg & _).
  unfold rbind at 1. unfold lift at 1. rewrite Eg. reflexivity.
Qed.

Lemma calculate_group_data_ok :
  forall (groups_simulated : list (string * (Patient -> bool) * Z))
         (population : list Patient) (s : nat),
    Forall patient_ok population ->
    Forall (fun g => snd g <> 0
                     /\ profile_condition (snd (fst g))
                     /\ has_active_member (snd (fst g)) population)
      groups_simulated ->
    exists population' group_data s',
      calculate_group_data np_std rvs population groups_simulated s
      = Ok (population', group_data, s')
      /\ Forall patient_ok population'
      /\ Forall2 same_profile population population'
      /\ map (fun g => (group_name g, n_patients g)) group_data
         = map (fun g => (fst (fst g), snd g)) groups_simulated
      /\ Forall (fun g =>
                   List.length (intensity_minutes_average g) = 101%nat
                   /\ List.length (intensity_minutes_std g) = 101%nat
                   /\ List.length (intensity_minutes_total g) = 101%nat)
           group_data.
Proof.
  induction groups_simulated as [|[[name condition] n] groups IH];
    intros population s Hok Hg.
  - exists population, [], s. cbn. unfold ret.
    split; [reflexivity|]. split; [exact Hok|].
    split; [apply same_profile_lists_refl|].
    split; [reflexivity|constructor].
  - inversion Hg as [|? ? (Hn1 & Hpc & Ham) Hg2]; subst.
    cbn [fst snd] in Hn1, Hpc, Ham.
    cbn [calculate_group_data].
    destruct (simulate_group_ok condition population [] empty_minutes_list
                [] [] s Hok empty_has_buckets)
      as (pop1 & t1 & l1 & gta1 & gi1 & s1 & E1 & Hok1 & Hsp1 & Hb1 & _
          & Hgta & _ & Hgi).
    unfold rbind at 1. rewrite E1. cbn [fst snd].
    destruct (group_curves_ok np_std name t1 l1 n Hn1 Hb1)
      as (g & Eg & Hname & Hcount & La & Ls & Lt).
    unfold rbind at 1. unfold lift at 1. rewrite Eg.
    assert (Hgta1 : gta1 <> []).
    { pose proof (has_active_member_filter _ _ Ham) as Hf.
      intros Hnil. rewrite Hnil in Hgta. cbn [List.length] in Hgta.
      destruct (filter condition population); [congruence|].
      cbn [List.length] in Hgta. lia. }
    unfold rbind at 1. unfold lift at 1.
    rewrite (np_percentile_ok _ gta1 Hgta1).
    unfold rbind at 1. unfold lift at 1.
    rewrite (np_percentile_ok _ gi1 (Hgi Ham)).
    assert (Hg2' : Forall (fun g => snd g <> 0
                                    /\ profile_condition (snd (fst g))
                                    /\ has_active_member (snd (fst g)) pop1)
                     groups).
    { eapply Forall_impl; [|exact Hg2].
      intros g0 (A1 & A2 & A3). split; [exact A1|]. split; [exact A2|].
      exact (has_active_member_same_profile _ _ _ A2 Hsp1 A3). }
    destruct (IH pop1 s1 Hok1 Hg2')
      as (pop2 & gd & s2 & E2 & Hok2 & Hsp2 & Hmap & Hlen).
    unfold rbind. rewrite E2. unfold ret. cbn [fst snd].
    exists pop2, (g :: gd), s2.
    split; [reflexivity|]. split; [exact Hok2|].
    split; [exact (same_profile_lists_trans _ _ _ Hsp1 Hsp2)|].
    split.
    + cbn [map fst snd]. rewrite Hname, Hcount, Hmap. reflexivity.
    + constructor; [repeat split; assumption|exact Hlen].
Qed.

Lemma calculate_group_data_returned :
  forall (groups_simulated : list (string * (Patient -> bool) * Z))
         (population : list Patient) (s : nat)
         (population' : list Patient) (group_data : list GroupData)
         (s' : nat),
    Forall patient_ok population ->
    calculate_group_data np_std rvs population groups_simulated s
    = Ok (population', group_data, s') ->
    Forall (fun g => snd g <> 0) groups_simulated
    /\ Forall patient_ok population'
    /\ Forall2 same_profile population population'
    /\ map (fun g => (group_name g, n_patients g)) group_data
       = map (fun g => (fst (fst g), snd g)) groups_simulated
    /\ Forall (fun g =>
                 List.length (intensity_minutes_average g) = 101%nat
                 /\ List.length (intensity_minutes_std g) = 101%nat
                 /\ List.length (intensity_minutes_total g) = 101%nat)
         group_data.
Proof.
  induction groups_simulated as [|[[name condition] n] groups IH];
    intros population s population' group_data s' Hok H.
  - cbn in H. unfold ret in H. injection H as <- <- <-.
    split; [constructor|]. split; [exact Hok|].
    split; [apply same_profile_lists_refl|].
    split; [reflexivity|constructor].
  - cbn [calculate_group_data] in H.
    destruct (simulate_group_ok condition population [] empty_minutes_list
                [] [] s Hok empty_has_buckets)
      as (pop1 & t1 & l1 & gta1 & gi1 & s1 & E1 & Hok1 & Hsp1 & Hb1 & Hz
          & _).
    unfold rbind at 1 in H. rewrite E1 in H. cbn [fst snd] in H.
    unfold rbind at 1 in H. unfold lift at 1 in H.
    destruct (Z.eq_dec n 0) as [->|Hn].
    { rewrite (group_curves_zero_count name t1 l1 (Hz eq_refl)) in H.
      discriminate H. }
    destruct (group_curves_ok np_std name t1 l1 n Hn Hb1)
      as (g & Eg & Hname & Hcount & La & Ls & Lt).
    rewrite Eg in H.
    unfold rbind at 1 in H. unfold lift at 1 in H.
    destruct (np_percentile gta1); [|discriminate H].
    unfold rbind at 1 in H. unfold lift at 1 in H.
    destruct (np_percentile gi1); [|discriminate H].
    unfold rbind in H.
    destruct (calculate_group_data np_std rvs pop1 groups s1)
      as [[[pop2 gd] s2]|] eqn:E2; [|discriminate H].
    unfold ret in H. cbn [fst snd] in H. injection H as <- <- <-.
    destruct (IH _ _ _ _ _ Hok1 E2) as (Hn2 & Hok2 & Hsp2 & Hmap & Hlen).
    split; [constructor; [exact Hn|exact Hn2]|].
    split; [exact Hok2|].
    split; [exact (same_profile_lists_trans _ _ _ Hsp1 Hsp2)|].
    split.
    + cbn [map fst snd]. rewrite Hname, Hcount, Hmap. reflexivity.
    + constructor; [repeat split; assumption|exact Hlen].
Qed.

(** X17.  [calculate_group_data] of the app divides by the [n_patients]
    its caller passes, not by the size of the selected group.  When it
    returns on patients in a state the class maintains, every passed count
    is non-zero, the patients have been simulated in place without a change
    of profile, and [group_data] has one tuple per requested group, in
    order, with the caller's name and count and three curves of 101
    entries. *)
Theorem group_data_uses_given_counts :
  forall (groups_simulated : list (string * (Patient -> bool) * Z))
         (population : list Patient) (s : nat)
         (population' : list Patient) (group_data : list GroupData)
         (s' : nat),
    Forall patient_ok population ->
    calculate_group_data np_std rvs population groups_simulated s
    = Ok (population', group_data, s') ->
    Forall (fun g => snd g <> 0) groups_simulated
    /\ Forall patient_ok population'
    /\ Forall2 same_profile population population'
    /\ map (fun g => (group_name g, n_patients g)) group_data
       = map (fun g => (fst (fst g), snd g)) groups_simulated
    /\ Forall (fun g =>
                 List.length (intensity_minutes_average g) = 101%nat
                 /\ List.length (intensity_minutes_std g) = 101%nat
                 /\ List.length (intensity_minutes_total g) = 101%nat)
         group_data.
Proof.
  intros groups_simulated population s population' group_data s' Hok H.
  exact (calculate_group_data_returned _ _ _ _ _ _ Hok H).
Qed.

End GroupData.

Lemma group_data_uses_given_counts_witness :
  Forall (fun g : string * (Patient -> bool) * Z => snd g <> 0) busy_groups
  /\ Forall patient_ok (fst (fst busy_group_data))
  /\ Forall2 same_profile [busy_patient] (fst (fst busy_group_data))
  /\ map (fun g => (group_name g, n_patients g)) (snd (fst busy_group_data))
     = map (fun g : string * (Patient -> bool) * Z => (fst (fst g), snd g))
         busy_groups
  /\ Forall (fun g =>
               List.length (intensity_minutes_average g) = 101%nat
               /\ List.length (intensity_minutes_std g) = 101%nat
               /\ List.length (intensity_minutes_total g) = 101%nat)
       (snd (fst busy_group_data)).
Proof.
  apply (group_data_uses_given_counts (fun _ => 0%float) busy_rvs busy_groups
           [busy_patient] 147%nat (fst (fst busy_group_data))
           (snd (fst busy_group_data)) (snd busy_group_data)).
  - constructor; [exact busy_patient_ok|constructor].
  - vm_compute. reflexivity.
Defined.

(** ** Division by the patient count *)

(** C1, as stated, fails: with no simulated patient at all, and with one
    episodic treated patient only (the other three groups are empty),
    [Simulation.calculate_results] raises [ZeroDivisionError]; so does
    [calculate_group_data] on a group whose simulated count is 0. *)
Lemma empty_group_raises :
  calculate_results (fun _ => 0%float) [] scenario_groups
  = Raise ZeroDivisionError
  /\ calculate_results (fun _ => 0%float) [busy_patient_after_year]
       scenario_groups = Raise ZeroDivisionError
  /\ calculate_group_data (fun _ => 0%float) busy_rvs []
       [("Chronic Treated"%string,
         fun p => is_chronic p && is_treated p, 0)] 0%nat
     = Raise ZeroDivisionError.
Proof.
  repeat split; vm_compute; reflexivity.
Qed.

(** C1, amended.  Neither aggregation tests [n_patients] before dividing.
    [Simulation.calculate_results] divides by the size of the group: a
    group with no simulated patient raises [ZeroDivisionError]; a group
    with at least one patient is aggregated into three curves of 101
    entries, all zero when its patients recorded no attack.
    [calculate_group_data] divides by the count its caller passes: on a
    group without patient a count of 0 raises [ZeroDivisionError] and any
    other count raises [IndexError], from the quartiles of the empty list;
    it returns, with three curves of 101 entries per group, when every
    count is non-zero and every group, selected on the profile, has a
    patient with at least one simulated day. *)
Theorem group_aggregation_division :
  forall (np_std : list Z -> float),
    (forall (population : list Patient) (ch_groups : groups_dict)
            (name : string) (condition : Patient -> bool),
        filter condition population = [] ->
        calculate_group_results np_std population ch_groups name condition
        = Raise ZeroDivisionError)
    /\ (forall (rvs : Dist -> nat -> Q) (population : list Patient)
               (name : string) (condition : Patient -> bool)
               (groups : list (string * (Patient -> bool) * Z)) (s : nat),
           filter condition population = [] ->
           calculate_group_data np_std rvs population
             ((name, condition, 0) :: groups) s
           = Raise ZeroDivisionError)
    /\ (forall (rvs : Dist -> nat -> Q) (population : list Patient)
               (name : string) (condition : Patient -> bool) (n : Z)
               (groups : list (string * (Patient -> bool) * Z)) (s : nat),
           filter condition population = [] -> n <> 0 ->
           calculate_group_data np_std rvs population
             ((name, condition, n) :: groups) s
           = Raise IndexError)
    /\ (forall (population : list Patient) (ch_groups : groups_dict)
               (name : string) (condition : Patient -> bool) (total : Z),
           filter condition population <> [] ->
           Forall (fun p => Forall attack_ok (attacks p)) population ->
           dict_get ch_groups name = Ok total ->
           exists g years std_years,
             calculate_group_results np_std population ch_groups name
               condition = Ok (g, years, std_years)
             /\ n_patients g
                = Z.of_nat (List.length (filter condition population))
             /\ List.length (intensity_minutes_average g) = 101%nat
             /\ List.length (intensity_minutes_std g) = 101%nat
             /\ List.length (intensity_minutes_total g) = 101%nat)
    /\ (forall (population : list Patient) (ch_groups : groups_dict)
               (name : string) (condition : Patient -> bool) (total : Z),
           filter condition population <> [] ->
           Forall (fun p => attacks p = []) (filter condition population) ->
           dict_get ch_groups name = Ok total ->
           exists years std_years,
             calculate_group_results np_std population ch_groups name
               condition
             = Ok (mkGroupData name (repeat 0%float 101)
                     (repeat (PyInt 0) 101) (repeat 0 101)
                     (Z.of_nat (List.length (filter condition population))),
                   years, std_years))
    /\ (forall (rvs : Dist -> nat -> Q)
               (groups_simulated : list (string * (Patient -> bool) * Z))
               (population : list Patient) (s : nat),
           Forall patient_ok population ->
           Forall (fun g => snd g <> 0
                            /\ profile_condition (snd (fst g))
                            /\ has_active_member (snd (fst g)) population)
             groups_simulated ->
           exists population' group_data s',
             calculate_group_data np_std rvs population groups_simulated s
             = Ok (population', group_data, s')
             /\ map (fun g => (group_name g, n_patients g)) group_data
                = map (fun g => (fst (fst g), snd g)) groups_simulated
             /\ Forall (fun g =>
                          List.length (intensity_minutes_average g)
                          = 101%nat
                          /\ List.length (intensity_minutes_std g) = 101%nat
                          /\ List.length (intensity_minutes_total g)
                             = 101%nat)
                  group_data).
Proof.
  intros np_std. split; [|split; [|split; [|split; [|split]]]].
  - intros population ch_groups name condition H.
    unfold calculate_group_results. rewrite H. cbn [add_group_minutes bind
      fst snd List.length Z.of_nat].
    rewrite group_curves_empty. reflexivity.
  - intros rvs population name condition groups s H.
    cbn [calculate_group_data]. unfold rbind.
    rewrite (simulate_group_no_member rvs condition population _ _ _ _ s H).
    cbn [fst snd]. rewrite group_curves_empty. reflexivity.
  - intros rvs population name condition n groups s H Hn.
    apply calculate_group_data_no_member; assumption.
  - intros population ch_groups name condition total Hne Hok Hget.
    unfold calculate_group_results.
    destruct (add_group_minutes_ok (filter condition population) []
                empty_minutes_list) as (t & l & Eg & Hb).
    { apply Forall_forall. intros p Hp. apply filter_In in Hp.
      rewrite Forall_forall in Hok. apply (Hok p (proj1 Hp)). }
    { apply empty_has_buckets. }
    rewrite Eg. cbn [bind fst snd].
    destruct (group_curves_ok np_std name t l
                (Z.of_nat (List.length (filter condition population))))
      as (g & Ec & _ & Hn & La & Ls & Lt); [|exact Hb|].
    { destruct (filter condition population); [congruence|cbn; lia]. }
    rewrite Ec, Hget. cbn [bind]. eexists. eexists. eexists.
    split; [reflexivity|]. repeat split; assumption.
  - intros population ch_groups name condition total Hne Hno Hget.
    unfold calculate_group_results.
    rewrite (add_group_minutes_no_attack _ [] empty_minutes_list Hno).
    cbn [bind fst snd].
    rewrite group_curves_zero.
    2:{ destruct (filter condition population); [congruence|cbn; lia]. }
    rewrite Hget. cbn [bind intensity_minutes_average intensity_minutes_std].
    eexists. eexists. reflexivity.
  - intros rvs groups_simulated population s Hok Hg.
    destruct (calculate_group_data_ok np_std rvs groups_simulated population
                s Hok Hg)
      as (pop' & gd & s' & E & _ & _ & Hmap & Hlen).
    exists pop', gd, s'. split; [exact E|]. split; assumption.
Qed.

Lemma group_aggregation_division_witness :
  (exists g years std_years,
      calculate_group_results (fun _ => 0%float) [busy_patient_after_year]
        scenario_groups "Episodic Treated"
        (fun p => negb (is_chronic p) && is_treated p)
      = Ok (g, years, std_years)
      /\ n_patients g = 1
      /\ List.length (intensity_minutes_average g) = 101%nat
      /\ List.length (intensity_minutes_std g) = 101%nat
      /\ List.length (intensity_minutes_total g) = 101%nat)
  /\ (exists population' group_data s',
         calculate_group_data (fun _ => 0%float) busy_rvs [busy_patient]
           busy_groups 147%nat
         = Ok (population', group_data, s')
         /\ map (fun g => (group_name g, n_patients g)) group_data
            = [("Episodic Treated"%string, 3)]
         /\ Forall (fun g =>
                      List.length (intensity_minutes_average g) = 101%nat
                      /\ List.length (intensity_minutes_std g) = 101%nat
                      /\ List.length (intensity_minutes_total g) = 101%nat)
              group_data).
Proof.
  destruct (group_aggregation_division (fun _ => 0%float))
    as (_ & _ & _ & H4 & _ & H6).
  split.
  - apply (H4 [busy_patient_after_year] scenario_groups
             "Episodic Treated"%string
             (fun p => negb (is_chronic p) && is_treated p) 1201582).
    + vm_compute. discriminate.
    + constructor; [exact busy_patient_after_year_ok|constructor].
    + reflexivity.
  - apply (H6 busy_rvs busy_groups [busy_patient] 147%nat).
    + constructor; [exact busy_patient_ok|constructor].
    + constructor; [|constructor]. cbn [fst snd]. split; [lia|]. split.
      * intros p p' (Hc & Ht & _). rewrite Hc, Ht. reflexivity.
      * left. split; vm_compute; reflexivity.
Defined.
